(** * Ontario Tenancy Law assistant: a shallow embedding and its properties

    The development follows the Python sources file by file:
    - [utils/prompts.py] and [data/law_text.py]  (module [Prompts]),
    - [src/config.py] and the files of [src/llm]      (module [Llm]),
    - [services/document_processor.py]             (module [DocProc]),
    - [services/legal_assistant.py], [streamlit_app.py] (module [App]).

    Python [str] values are modelled by [string]: a sequence of characters
    whose code points lie below 256.  Exceptions are values of [exn]; code
    that may raise returns a [result].  Only exceptions deriving from
    [Exception] are modelled, which are the ones an [except Exception]
    clause intercepts. *)

From Stdlib Require Import ZArith QArith Ascii String List Lia.
From stdpp Require Import base option list gmap strings pretty.

Local Open Scope string_scope.
Local Open Scope Z_scope.
Local Open Scope list_scope.

(** ** Python values shared by all modules *)

Module Py.

(** Exception classes raised or caught by the program. *)
Inductive exn_class : Type :=
| DocumentProcessingError
| ValueError
| KeyError
| IndexError
| OverflowError
| NotImplementedError
| Exception_
| OtherError (name : string).  (* any other class, by its name *)

Record exn : Type := mk_exn { exn_cls : exn_class; exn_msg : string }.

(** [str(e)] *)
Definition str_exn (e : exn) : string := exn_msg e.

Inductive result (A : Type) : Type :=
| Ok (a : A)
| Raise (e : exn).
Arguments Ok {A} a.
Arguments Raise {A} e.

Definition bind {A B} (r : result A) (k : A -> result B) : result B :=
  match r with
  | Ok a => k a
  | Raise e => Raise e
  end.

(** [try: body except Exception as e: handler(e)] *)
Definition try_except {A} (body : result A) (handler : exn -> result A)
  : result A :=
  match body with
  | Ok a => Ok a
  | Raise e => handler e
  end.

Definition is_ok {A} (r : result A) : bool :=
  match r with Ok _ => true | Raise _ => false end.

(** Characters that cannot be typed inside a literal. *)
Definition dquote : string := String (ascii_of_nat 34) EmptyString.
Definition chr176 : string := String (ascii_of_nat 176) EmptyString.

(** [s.startswith(p)] *)
Definition startswith (s p : string) : bool := String.prefix p s.

(** [sub in s], as a proposition: [sub] occurs as a contiguous block. *)
Definition occurs_in (sub s : string) : Prop :=
  exists before after, s = before +:+ sub +:+ after.

(** [str.isspace] on one character (code points below 256). *)
Definition isspace (c : ascii) : bool :=
  let n := nat_of_ascii c in
  ((9 <=? n) && (n <=? 13) || (28 <=? n) && (n <=? 32)
   || (n =? 133) || (n =? 160))%nat.

Fixpoint lstrip (s : string) : string :=
  match s with
  | String c s' => if isspace c then lstrip s' else s
  | EmptyString => EmptyString
  end.

(** [rstrip] keeps a character when it is not white space or when
    something is kept after it. *)
Fixpoint rstrip (s : string) : string :=
  match s with
  | String c s' =>
      match rstrip s' with
      | EmptyString => if isspace c then EmptyString else String c EmptyString
      | r => String c r
      end
  | EmptyString => EmptyString
  end.

(** [s.strip()] *)
Definition strip (s : string) : string := rstrip (lstrip s).

(** [sep.join(parts)] *)
Fixpoint join (sep : string) (parts : list string) : string :=
  match parts with
  | [] => EmptyString
  | [p] => p
  | p :: rest => p +:+ sep +:+ join sep rest
  end.

(** Truthiness of a [str]. *)
Definition truthy (s : string) : bool :=
  match s with EmptyString => false | _ => true end.

(** [os.path.join(a, b)] on POSIX. *)
Definition endswith_slash (a : string) : bool :=
  match String.get (String.length a - 1) a with
  | Some c => Ascii.eqb c "/"
  | None => false
  end.

Definition path_join (a b : string) : string :=
  if String.prefix "/" b then b
  else if truthy a && negb (endswith_slash a) then a +:+ "/" +:+ b
  else a +:+ b.

(** *** [str.format] with keyword arguments

    The scanner follows CPython's: doubled braces are literal braces, a
    replacement field runs to the next closing brace and names a keyword
    argument, whose value is inserted unchanged.  Conversions, format
    specifications, attribute and index access are not used by the
    program's templates and are rejected by the model. *)

Inductive scan_state : Type :=
| InText
| AfterOpen
| InField (name : string)
| AfterClose.

Fixpoint dict_get (kwargs : list (string * string)) (name : string)
  : option string :=
  match kwargs with
  | [] => None
  | (k, v) :: rest => if String.eqb k name then Some v else dict_get rest name
  end.

Definition is_digit (c : ascii) : bool :=
  let n := nat_of_ascii c in ((48 <=? n) && (n <=? 57))%nat.

Fixpoint all_digits (s : string) : bool :=
  match s with
  | EmptyString => true
  | String c s' => is_digit c && all_digits s'
  end.

Definition field_value (kwargs : list (string * string)) (name : string)
  : result string :=
  if all_digits name then
    Raise (mk_exn IndexError
             ("Replacement index "
              +:+ (if truthy name then name else "0")
              +:+ " out of range for positional args tuple"))
  else
    match dict_get kwargs name with
    | Some v => Ok v
    | None => Raise (mk_exn KeyError ("'" +:+ name +:+ "'"))
    end.

Definition field_special (c : ascii) : bool :=
  existsb (Ascii.eqb c) ["!"; ":"; "."; "["; "{"]%char.

Fixpoint format_scan (kwargs : list (string * string)) (st : scan_state)
  (tpl : string) : result string :=
  match tpl with
  | EmptyString =>
      match st with
      | InText => Ok EmptyString
      | AfterOpen =>
          Raise (mk_exn ValueError "Single '{' encountered in format string")
      | InField _ =>
          Raise (mk_exn ValueError "expected '}' before end of string")
      | AfterClose =>
          Raise (mk_exn ValueError "Single '}' encountered in format string")
      end
  | String c rest =>
      match st with
      | InText =>
          if Ascii.eqb c "{" then format_scan kwargs AfterOpen rest
          else if Ascii.eqb c "}" then format_scan kwargs AfterClose rest
          else bind (format_scan kwargs InText rest)
                    (fun out => Ok (String c out))
      | AfterOpen =>
          if Ascii.eqb c "{" then
            bind (format_scan kwargs InText rest)
                 (fun out => Ok (String c out))
          else if Ascii.eqb c "}" then
            bind (field_value kwargs EmptyString)
                 (fun v => bind (format_scan kwargs InText rest)
                                (fun out => Ok (v +:+ out)))
          else if field_special c then
            Raise (mk_exn NotImplementedError "format specification")
          else format_scan kwargs (InField (String c EmptyString)) rest
      | InField name =>
          if Ascii.eqb c "}" then
            bind (field_value kwargs name)
                 (fun v => bind (format_scan kwargs InText rest)
                                (fun out => Ok (v +:+ out)))
          else if field_special c then
            Raise (mk_exn NotImplementedError "format specification")
          else format_scan kwargs (InField (name +:+ String c EmptyString)) rest
      | AfterClose =>
          if Ascii.eqb c "}" then
            bind (format_scan kwargs InText rest)
                 (fun out => Ok (String c out))
          else
            Raise (mk_exn ValueError
                     "Single '}' encountered in format string")
      end
  end.

(** [tpl.format] applied to keyword arguments [kwargs] *)
Definition format (tpl : string) (kwargs : list (string * string))
  : result string :=
  format_scan kwargs InText tpl.

End Py.

Export Py.

Notation "x <- r ;; k" := (bind r (fun x => k))
  (at level 100, r at next level, right associativity, only parsing).

(** ** [data/law_text.py] and [utils/prompts.py] *)

Module Prompts.

Definition TENANCY_LAW : string :=
  "
# Ontario Rental Law

## 1. GOVERNING LAWS AND JURISDICTION 

### 1.1 Primary Legislation
- Residential Tenancies Act (RTA)
- Housing Services Act (HSA)
- Ontario Human Rights Code
- Municipal property standards and by-laws
- Co-operative Corporations Act
- Retirement Homes Act

### 1.2 Scope of Application
- Applies to most residential tenancies
- Exclusions:
  * Shared kitchen/bathroom with owner
  * Temporary accommodations
  * Care homes
  * Emergency shelters
  * Student residences

### 1.3 Protected Rights
16 protected grounds in housing:
- Disability
- Race, color, ancestry
- Place of origin, citizenship
- Ethnic origin
- Creed (religion)  
- Receipt of public assistance
- Gender identity/expression
- Sex, sexual orientation
- Marital status
- Family status
- Age

## 2. TENANCY FUNDAMENTALS

### 2.1 Deposits and Payments
- Last month's rent deposit permitted
- Key deposit allowed (limited to replacement cost)
- Damage deposits prohibited
- Pet deposits prohibited
- Post-dated cheques cannot be required
- Interest must be paid on deposits annually

### 2.2 Rent and Payments
- Due at end of month unless otherwise agreed
- Must be paid in full and on time
- Rent withholding not permitted
- Last month's deposit only for final month
- Rent receipts must be provided if requested

### 2.3 Rent Increases
- Once per year maximum
- 90 days written notice required
- Subject to annual provincial guideline
- Must use official forms
- Exceptions for:
  * New buildings (post-Nov 15, 2018)
  * Social housing units
  * Shared accommodations with owner
  * Vacant units (" +:+ dquote +:+ "vacancy decontrol" +:+ dquote +:+ ")

## 3. TENANT RIGHTS AND PROTECTIONS

### 3.1 Maintenance and Repairs
- Landlord responsible for all repairs
- Must maintain property to health/safety standards
- Responsibility exists regardless of tenant's knowledge
- Tenant must report problems promptly
- Includes appliances and common areas
- Local property standards apply
- Provincial standards where no local standards exist

### 3.2 Entry and Privacy
- 24 hours written notice required
- Entry between 8am-8pm only
- Must state reason for entry
- Exceptions for:
  * Emergencies
  * Agreed entry
  * Showing unit (after termination notice)
  * Sales showings

### 3.3 Accommodation Rights
- Landlords must accommodate disabilities
- Modifications required up to undue hardship
- Medical documentation may be requested but:
  * Cannot require specific diagnosis
  * Must maintain confidentiality
  * Landlord pays for documentation
- Costs borne by landlord
- Timely response required

### 3.4 Services and Utilities
- Heat minimum requirements (typically 20-21" +:+ chr176 +:+ "C)
- Air conditioning if provided must be maintained
- Utilities must be continuous
- Changes to services require proper notice
- Additional fees must be reasonable

### 3.5 Pest Control
- Landlord responsible for pest control
- Additional requirements for large buildings:
  * 30-day inspection requirements
  * 72-hour response time
  * Documentation requirements
  * Prevention measures
- Tenant must cooperate with treatment

## 4. LEASE TERMINATION

### 4.1 Notice Requirements
- 60 days for month-to-month tenancies
- Must end on last day of rental period
- Special provisions for:
  * Domestic violence (28 days notice)
  * Landlord's own use
  * Sale of property
  * Major renovations
  * Death of tenant
  * Assignment/subletting refusal

### 4.2 Early Termination Options
- Mutual agreement (N11 form)
- Assignment of lease
- Application to LTB
- Fixed-term lease breaking penalties
- Subletting rights (with permission)

### 4.3 Eviction Process
- Must follow LTB process
- Written notice required
- Valid grounds required
- Proper notice periods
- Hearing rights for tenant
- Review/appeal options
- Sheriff enforcement only
- 72 hours for belongings removal

### 4.4 Renovation/Sale Protections
- Right of first refusal for renovations
- 120 days notice for major renovations
- Compensation requirements
- Sale doesn't terminate tenancy
- New owner bound by lease
- Additional tenant protections

## 5. DISPUTE RESOLUTION

### 5.1 Landlord and Tenant Board
- Primary forum for disputes
- Virtual hearings standard
- Mediation services available
- Duty counsel assistance
- Interpretation services
- Accommodation requests possible
- Documentation requirements:
  * 7 days advance filing
  * Evidence sharing required
  * Proper forms used

### 5.2 Filing Applications
- Time limits apply (usually 1 year)
- Proper forms required
- Fees may be charged
- Fee waiver available
- Service requirements
- Multiple remedies possible

### 5.3 Hearing Process
- Opening statements
- Evidence presentation
- Cross-examination rights
- Final submissions
- Written decisions
- Appeal rights
- Review options

## 6. ADDITIONAL PROTECTIONS

### 6.1 Social Housing
- Additional rules under HSA
- Special rent calculation
- Additional notice requirements
- Modified application process
- Review rights
- Subsidy calculations

### 6.2 Harassment/Discrimination
- Protection from harassment
- Discrimination prohibited
- Human Rights Tribunal options
- Remedies available
- Burden of proof requirements
- Time limits for filing
".

Definition LEGAL_ASSISTANT_PROMPT : string :=
  "
You are a friendly and knowledgeable legal assistant specializing in Ontario Tenancy Law. Your responses should be natural, clear, and include specific law citations only when directly relevant.

CHAT HISTORY:
{chat_history}

USER QUERY:
{user_query}

RELEVANT LAW:
{law_text}
".

Definition RENTAL_CONTRACT_ANALYZER_PROMPT : string :=
  "
You are an expert rental contract analyzer specializing in Ontario tenancy law. Your task is to analyze the provided rental contract and evaluate it against the switzerland State Tenancy Law.

ANALYSIS REQUIREMENTS:
1. Compliance Check: Compare each clause against the tenancy law
2. Identify Issues: Flag any terms that violate or conflict with the law
3. Missing Elements: Note any required provisions that are missing
4. Recommendations: Suggest specific improvements or modifications

ANALYZE THE FOLLOWING ASPECTS:
- Rent terms and payment structure
- Notice periods
- Rights and obligations of both parties
- Security deposits and service charges
- Maintenance responsibilities
- Termination clauses
- Any unusual or concerning terms

REFERENCE LAW:
{law_text}

RENTAL CONTRACT TO ANALYZE:
{contract_text}

Please provide a comprehensive analysis with the following structure:

1. OVERALL ASSESSMENT
- Brief evaluation of the contract's compliance
- Quality score (1-10) with justification

2. COMPLIANT ELEMENTS
- List provisions that properly align with the law
- Note particularly well-crafted clauses

3. ISSUES AND VIOLATIONS
- Identify clauses that violate the law
- Explain why they're problematic
- Reference specific sections of the law

4. MISSING ELEMENTS
- List required provisions that are absent
- Explain why they're necessary

5. RECOMMENDATIONS
- Specific changes needed for compliance
- Suggested additional provisions
- Language improvements for clarity

6. RISK ASSESSMENT
- Potential legal vulnerabilities
- Enforceability concerns
- Protection gaps for either party
".

(** The fixed text of the two templates around their fields. *)
Definition legal_before_history : string :=
  "
You are a friendly and knowledgeable legal assistant specializing in Ontario Tenancy Law. Your responses should be natural, clear, and include specific law citations only when directly relevant.

CHAT HISTORY:
".

Definition legal_before_query : string :=
  "

USER QUERY:
".

Definition legal_before_law : string :=
  "

RELEVANT LAW:
".

Definition legal_end : string :=
  "
".

Definition rental_before_law : string :=
  "
You are an expert rental contract analyzer specializing in Ontario tenancy law. Your task is to analyze the provided rental contract and evaluate it against the switzerland State Tenancy Law.

ANALYSIS REQUIREMENTS:
1. Compliance Check: Compare each clause against the tenancy law
2. Identify Issues: Flag any terms that violate or conflict with the law
3. Missing Elements: Note any required provisions that are missing
4. Recommendations: Suggest specific improvements or modifications

ANALYZE THE FOLLOWING ASPECTS:
- Rent terms and payment structure
- Notice periods
- Rights and obligations of both parties
- Security deposits and service charges
- Maintenance responsibilities
- Termination clauses
- Any unusual or concerning terms

REFERENCE LAW:
".

Definition rental_before_contract : string :=
  "

RENTAL CONTRACT TO ANALYZE:
".

Definition rental_end : string :=
  "

Please provide a comprehensive analysis with the following structure:

1. OVERALL ASSESSMENT
- Brief evaluation of the contract's compliance
- Quality score (1-10) with justification

2. COMPLIANT ELEMENTS
- List provisions that properly align with the law
- Note particularly well-crafted clauses

3. ISSUES AND VIOLATIONS
- Identify clauses that violate the law
- Explain why they're problematic
- Reference specific sections of the law

4. MISSING ELEMENTS
- List required provisions that are absent
- Explain why they're necessary

5. RECOMMENDATIONS
- Specific changes needed for compliance
- Suggested additional provisions
- Language improvements for clarity

6. RISK ASSESSMENT
- Potential legal vulnerabilities
- Enforceability concerns
- Protection gaps for either party
".


(** The templates with their fields filled in by direct substitution. *)
Definition fill_legal (chat_history user_query law_text : string) : string :=
  legal_before_history +:+ chat_history +:+ legal_before_query
  +:+ user_query +:+ legal_before_law +:+ law_text +:+ legal_end.

Definition fill_rental (law_text contract_text : string) : string :=
  rental_before_law +:+ law_text +:+ rental_before_contract
  +:+ contract_text +:+ rental_end.

Definition generate_prompt (user_query law_text chat_history : string)
  : result string :=
  format LEGAL_ASSISTANT_PROMPT
    [("user_query", user_query);
     ("law_text", law_text);
     ("chat_history", chat_history)].

Definition generate_contract_analysis_prompt
  (contract_text law_text : string) : result string :=
  format RENTAL_CONTRACT_ANALYZER_PROMPT
    [("contract_text", contract_text);
     ("law_text", law_text)].

End Prompts.

(** ** [src/config.py], [src/llm/llm_providers.py], [src/llm/llm_factory.py] *)

Module Llm.

Inductive LLMProvider : Type := OPENAI | GROQ | ANTHROPIC | GEMINI.

(** Value of the enumeration member. *)
Definition provider_value (p : LLMProvider) : string :=
  match p with
  | OPENAI => "openai"
  | GROQ => "groq"
  | ANTHROPIC => "anthropic"
  | GEMINI => "gemini"
  end.

(** One entry of [LLM_CONFIGS]; a key the dictionary lacks is [None] and
    the constructor's default is used for it. *)
Record config : Type := mk_config {
  cfg_model : string;
  cfg_temperature : option Q;
  cfg_max_tokens : option Z
}.

Definition LLM_CONFIGS (p : LLMProvider) : config :=
  match p with
  | OPENAI => mk_config "gpt-3.5-turbo" (Some (3 # 10)%Q) (Some 1000)
  | GROQ => mk_config "llama-3.1-8b-instant" (Some (2 # 10)%Q) (Some 2000)
  | ANTHROPIC => mk_config "claude-3-opus-20240229" None None
  | GEMINI => mk_config "gemini-pro" None None
  end.

Definition DEFAULT_PROVIDER : LLMProvider := GROQ.

Record chat_message : Type := mk_chat { role : string; content : string }.

(** The vendor libraries.  Their clients are built from the arguments the
    program passes; what they answer is not the program's business.  The
    API key is [None] when the environment variable is not set. *)
Record vendors : Type := {
  openai_ChatCompletion_create :
    option string -> string -> list chat_message -> Z -> Q -> result string;
  ChatGroq_new : option string -> string -> Q -> Z -> result unit;
  ChatGroq_invoke :
    option string -> string -> Q -> Z -> list chat_message -> result string;
  Anthropic_new : option string -> result unit;
  Anthropic_messages_create :
    option string -> string -> Z -> list chat_message -> result string;
  genai_configure : option string -> result unit;
  genai_GenerativeModel : string -> result unit;
  genai_generate_content : option string -> string -> string -> result string
}.

(** The four adapter classes with their instance state.  [OpenAILLM]
    stores the key in the [openai.api_key] module attribute; it is kept
    with the adapter here. *)
Inductive adapter : Type :=
| OpenAILLM (api_key : option string) (model : string)
    (temperature : Q) (max_tokens : Z)
| GroqLLM (api_key : option string) (model : string)
    (temperature : Q) (max_tokens : Z)
| AnthropicLLM (api_key : option string) (model : string)
| GeminiLLM (api_key : option string) (model : string).

Definition adapter_provider (a : adapter) : LLMProvider :=
  match a with
  | OpenAILLM _ _ _ _ => OPENAI
  | GroqLLM _ _ _ _ => GROQ
  | AnthropicLLM _ _ => ANTHROPIC
  | GeminiLLM _ _ => GEMINI
  end.

Section WithVendors.

Variable sdk : vendors.

(** Constructors ([__init__]). *)
Definition OpenAILLM_init (api_key : option string) (c : config)
  : result adapter :=
  Ok (OpenAILLM api_key (cfg_model c)
        (default (3 # 10)%Q (cfg_temperature c))
        (default 1000 (cfg_max_tokens c))).

Definition GroqLLM_init (api_key : option string) (c : config)
  : result adapter :=
  let temperature := default (2 # 10)%Q (cfg_temperature c) in
  let max_tokens := default 2000 (cfg_max_tokens c) in
  _ <- ChatGroq_new sdk api_key (cfg_model c) temperature max_tokens ;;
  Ok (GroqLLM api_key (cfg_model c) temperature max_tokens).

Definition AnthropicLLM_init (api_key : option string) (c : config)
  : result adapter :=
  _ <- Anthropic_new sdk api_key ;;
  Ok (AnthropicLLM api_key (cfg_model c)).

Definition GeminiLLM_init (api_key : option string) (c : config)
  : result adapter :=
  _ <- genai_configure sdk api_key ;;
  _ <- genai_GenerativeModel sdk (cfg_model c) ;;
  Ok (GeminiLLM api_key (cfg_model c)).

Definition create_llm (provider : LLMProvider) (api_key : option string)
  : result adapter :=
  let config := LLM_CONFIGS provider in
  match provider with
  | OPENAI => OpenAILLM_init api_key config
  | GROQ => GroqLLM_init api_key config
  | ANTHROPIC => AnthropicLLM_init api_key config
  | GEMINI => GeminiLLM_init api_key config
  end.

(** The text every adapter puts before the vendor's message. *)
Definition error_prefix (p : LLMProvider) : string :=
  match p with
  | OPENAI => "OpenAI Error: "
  | GROQ => "Groq Error: "
  | ANTHROPIC => "Anthropic Error: "
  | GEMINI => "Gemini Error: "
  end.

Definition get_response (a : adapter) (prompt : string) : result string :=
  match a with
  | OpenAILLM key model temperature max_tokens =>
      try_except
        (openai_ChatCompletion_create sdk key model
           [mk_chat "system"
              "You are a legal assistant specializing in Canada Ontario Tenancy Law.";
            mk_chat "user" prompt]
           max_tokens temperature)
        (fun e => Raise (mk_exn Exception_ ("OpenAI Error: " +:+ str_exn e)))
  | GroqLLM key model temperature max_tokens =>
      try_except
        (ChatGroq_invoke sdk key model temperature max_tokens
           [mk_chat "system"
              "You are a legal assistant specializing in Ontario Tenancy Law.";
            mk_chat "user" prompt])
        (fun e => Raise (mk_exn Exception_ ("Groq Error: " +:+ str_exn e)))
  | AnthropicLLM key model =>
      try_except
        (Anthropic_messages_create sdk key model 2000
           [mk_chat "user" prompt])
        (fun e => Raise (mk_exn Exception_ ("Anthropic Error: " +:+ str_exn e)))
  | GeminiLLM key model =>
      try_except
        (genai_generate_content sdk key model prompt)
        (fun e => Raise (mk_exn Exception_ ("Gemini Error: " +:+ str_exn e)))
  end.

End WithVendors.

(** A vendor model in which every client constructor rejects a missing
    key, as the strictest library would. *)
Definition require_key (k : option string) : result unit :=
  match k with
  | Some _ => Ok tt
  | None => Raise (mk_exn (OtherError "AuthenticationError") "missing API key")
  end.

Definition strict_vendors : vendors := {|
  openai_ChatCompletion_create := fun k _ _ _ _ =>
    _ <- require_key k ;; Ok "answer";
  ChatGroq_new := fun k _ _ _ => require_key k;
  ChatGroq_invoke := fun k _ _ _ _ => _ <- require_key k ;; Ok "answer";
  Anthropic_new := require_key;
  Anthropic_messages_create := fun k _ _ _ => _ <- require_key k ;; Ok "answer";
  genai_configure := require_key;
  genai_GenerativeModel := fun _ => Ok tt;
  genai_generate_content := fun k _ _ => _ <- require_key k ;; Ok "answer"
|}.

(** A vendor model whose requests always fail. *)
Definition offline_vendors : vendors := {|
  openai_ChatCompletion_create := fun _ _ _ _ _ =>
    Raise (mk_exn (OtherError "APIConnectionError") "connection refused");
  ChatGroq_new := fun k _ _ _ => require_key k;
  ChatGroq_invoke := fun _ _ _ _ _ =>
    Raise (mk_exn (OtherError "APIConnectionError") "connection refused");
  Anthropic_new := require_key;
  Anthropic_messages_create := fun _ _ _ _ =>
    Raise (mk_exn (OtherError "APIConnectionError") "connection refused");
  genai_configure := require_key;
  genai_GenerativeModel := fun _ => Ok tt;
  genai_generate_content := fun _ _ _ =>
    Raise (mk_exn (OtherError "APIConnectionError") "connection refused")
|}.

End Llm.

(** ** The operating system as the program sees it

    A file system is a finite map from path names to nodes; [bytes] values
    are sequences of 8-bit characters.  The world also holds the names the
    [tempfile] module will hand out next and the log of outbound calls.
    Writing and deleting succeed whenever the model performs them; making
    a temporary directory needs the directory it is made in. *)

Module Os.

Inductive node : Type :=
| DirNode
| BinaryFile (data : string)
| TextFile (text : string).

Record world : Type := mk_world {
  files : gmap string node;
  gettempdir : string;
  tmp_names : list string;
  parse_log : list string;
  llm_log : list string
}.

Definition set_files (f : gmap string node -> gmap string node) (w : world)
  : world :=
  mk_world (f (files w)) (gettempdir w) (tmp_names w) (parse_log w) (llm_log w).

(** Computations that read and change the world and may raise. *)
Definition M (A : Type) : Type := world -> world * result A.

Definition ret {A} (a : A) : M A := fun w => (w, Ok a).
Definition raise {A} (e : exn) : M A := fun w => (w, Raise e).
Definition lift {A} (r : result A) : M A := fun w => (w, r).

Definition bindM {A B} (m : M A) (k : A -> M B) : M B :=
  fun w =>
    match m w with
    | (w', Ok a) => k a w'
    | (w', Raise e) => (w', Raise e)
    end.

(** [try: body except Exception as e: handler(e)] *)
Definition try_exceptM {A} (body : M A) (handler : exn -> M A) : M A :=
  fun w =>
    match body w with
    | (w', Ok a) => (w', Ok a)
    | (w', Raise e) => handler e w'
    end.

(** [try: body finally: cleanup] where [cleanup] does not raise. *)
Definition try_finallyM {A} (body : M A) (cleanup : world -> world) : M A :=
  fun w => let '(w', r) := body w in (cleanup w', r).

Definition write_file (path : string) (n : node) : M unit :=
  fun w => (set_files (insert path n) w, Ok tt).

Definition unlink (path : string) : M unit :=
  fun w =>
    match files w !! path with
    | Some _ => (set_files (delete path) w, Ok tt)
    | None =>
        (w, Raise (mk_exn (OtherError "FileNotFoundError")
                     ("No such file or directory: " +:+ path)))
    end.

(** [os.makedirs(path, exist_ok=True)] for a path whose parent exists. *)
Definition mkdir_exist_ok (path : string) : M unit :=
  fun w =>
    match files w !! path with
    | Some DirNode => (w, Ok tt)
    | Some _ =>
        (w, Raise (mk_exn (OtherError "FileExistsError")
                     ("File exists: " +:+ path)))
    | None => (set_files (insert path DirNode) w, Ok tt)
    end.

(** Next name of the [tempfile] module. *)
Definition next_tmp_name : M string :=
  fun w =>
    match tmp_names w with
    | n :: rest =>
        (mk_world (files w) (gettempdir w) rest (parse_log w) (llm_log w),
         Ok n)
    | [] =>
        (w, Raise (mk_exn (OtherError "FileExistsError")
                     "No usable temporary directory name found"))
    end.

(** [tempfile.TemporaryDirectory(dir=d)]: [mkdtemp] draws a name and makes
    the directory with [os.mkdir], which raises when [d] is no directory;
    the result is the [name] of the new directory. *)
Definition TemporaryDirectory (d : string) : M string :=
  bindM next_tmp_name (fun n =>
  let path := path_join d ("tmp" +:+ n) in
  fun w =>
    match files w !! d with
    | Some DirNode => (set_files (insert path DirNode) w, Ok path)
    | Some _ =>
        (w, Raise (mk_exn (OtherError "NotADirectoryError")
                     ("[Errno 20] Not a directory: '" +:+ path +:+ "'")))
    | None =>
        (w, Raise (mk_exn (OtherError "FileNotFoundError")
                     ("[Errno 2] No such file or directory: '" +:+ path
                      +:+ "'")))
    end).

(** [os.path.isdir] *)
Definition isdir (fs : gmap string node) (path : string) : bool :=
  match fs !! path with
  | Some DirNode => true
  | _ => false
  end.

Fixpoint drop_prefix (p s : string) : option string :=
  match p, s with
  | EmptyString, _ => Some s
  | String a p', String b s' =>
      if Ascii.eqb a b then drop_prefix p' s' else None
  | String _ _, EmptyString => None
  end.

Fixpoint slash_free (s : string) : bool :=
  match s with
  | EmptyString => true
  | String c s' => negb (Ascii.eqb c "/") && slash_free s'
  end.

(** The name under which [key] is an entry of directory [d], if it is. *)
Definition entry_name (d key : string) : option string :=
  let stem := if truthy d && negb (endswith_slash d) then d +:+ "/" else d in
  match drop_prefix stem key with
  | Some n => if truthy n && slash_free n then Some n else None
  | None => None
  end.

(** [os.listdir(d)], in the order of the map. *)
Definition listdir (fs : gmap string node) (d : string) : list string :=
  omap (fun kv => entry_name d (fst kv)) (map_to_list fs).

(** Is [key] the path [p] or a path below it? *)
Definition inside (p key : string) : bool :=
  String.eqb key p || String.prefix (p +:+ "/") key.

(** [shutil.rmtree(p)] *)
Definition rmtree (p : string) (fs : gmap string node) : gmap string node :=
  filter (fun kv : string * node => inside p (fst kv) = false) fs.

End Os.

Export Os.

Notation "x <~ m ;; k" := (bindM m (fun x => k))
  (at level 100, m at next level, right associativity, only parsing).

(** ** The part of [datetime] the program uses *)

Module Datetime.

Record datetime : Type := mk_datetime {
  year : Z; month : Z; day : Z;
  hour : Z; minute : Z; second : Z; microsecond : Z
}.

Definition is_leap (y : Z) : bool :=
  (y mod 4 =? 0) && (negb (y mod 100 =? 0) || (y mod 400 =? 0)).

Definition days_in_month (y m : Z) : Z :=
  if (m =? 2) && is_leap y then 29
  else nth (Z.to_nat m) [0; 31; 28; 31; 30; 31; 30; 31; 31; 30; 31; 30; 31] 0.

Definition days_before_year (y : Z) : Z :=
  let p := y - 1 in p * 365 + p / 4 - p / 100 + p / 400.

Definition days_before_month (y m : Z) : Z :=
  nth (Z.to_nat m) [0; 0; 31; 59; 90; 120; 151; 181; 212; 243; 273; 304; 334] 0
  + (if (2 <? m) && is_leap y then 1 else 0).

(** [date.toordinal]: 1 is 0001-01-01. *)
Definition toordinal (d : datetime) : Z :=
  days_before_year (year d) + days_before_month (year d) (month d) + day d.

Definition MAXORDINAL : Z := 3652059.

Definition us_per_day : Z := 86400000000.

Definition time_of_day (d : datetime) : Z :=
  ((hour d * 60 + minute d) * 60 + second d) * 1000000 + microsecond d.

Definition valid_datetime (d : datetime) : bool :=
  (1 <=? year d) && (year d <=? 9999)
  && (1 <=? month d) && (month d <=? 12)
  && (1 <=? day d) && (day d <=? days_in_month (year d) (month d))
  && (0 <=? hour d) && (hour d <? 24)
  && (0 <=? minute d) && (minute d <? 60)
  && (0 <=? second d) && (second d <? 60)
  && (0 <=? microsecond d) && (microsecond d <? 1000000).

(** A point in time as [datetime] arithmetic and comparison see it: the
    ordinal of the day and the microseconds elapsed in it. *)
Record instant : Type := mk_instant { i_day : Z; i_us : Z }.

Definition to_instant (d : datetime) : instant :=
  mk_instant (toordinal d) (time_of_day d).

(** [a < b] *)
Definition instant_ltb (a b : instant) : bool :=
  (i_day a <? i_day b) || ((i_day a =? i_day b) && (i_us a <? i_us b)).

(** [d - timedelta(days=k)] *)
Definition minus_days (d : datetime) (k : Z) : result instant :=
  if (Z.abs k >? 999999999) then
    Raise (mk_exn OverflowError
             ("days=" +:+ pretty k +:+ "; must have magnitude <= 999999999"))
  else
    let o := toordinal d - k in
    if (1 <=? o) && (o <=? MAXORDINAL) then Ok (mk_instant o (time_of_day d))
    else Raise (mk_exn OverflowError "date value out of range").

(** Microseconds since the start of day 0, for stating properties. *)
Definition timeline (i : instant) : Z := i_day i * us_per_day + i_us i.

(** *** [datetime.strptime(s, "%Y-%m-%d")]

    The format compiles to the regular expression
    [(\d\d\d\d)-(1[0-2]|0[1-9]|[1-9])-(3[0-1]|[1-2]\d|0[1-9]|[1-9]| [1-9])],
    matched at the start of the text with backtracking in the order of
    the alternatives. *)

Definition digit (c : ascii) : option Z :=
  if is_digit c then Some (Z.of_nat (nat_of_ascii c) - 48) else None.

Definition in_range (lo hi : Z) (c : ascii) : option Z :=
  match digit c with
  | Some v => if (lo <=? v) && (v <=? hi) then Some v else None
  | None => None
  end.

(** One alternative made of two character classes. *)
Definition two (lo1 hi1 lo2 hi2 : Z) (s : string) : list (Z * string) :=
  match s with
  | String a (String b r) =>
      match in_range lo1 hi1 a, in_range lo2 hi2 b with
      | Some x, Some y => [(10 * x + y, r)]
      | _, _ => []
      end
  | _ => []
  end.

Definition one (lo hi : Z) (s : string) : list (Z * string) :=
  match s with
  | String a r =>
      match in_range lo hi a with
      | Some x => [(x, r)]
      | None => []
      end
  | _ => []
  end.

Definition blank_one (lo hi : Z) (s : string) : list (Z * string) :=
  match s with
  | String a r => if Ascii.eqb a " " then one lo hi r else []
  | _ => []
  end.

Definition year_group (s : string) : list (Z * string) :=
  match s with
  | String a (String b (String c (String d r))) =>
      match digit a, digit b, digit c, digit d with
      | Some x, Some y, Some z, Some t =>
          [(1000 * x + 100 * y + 10 * z + t, r)]
      | _, _, _, _ => []
      end
  | _ => []
  end.

Definition month_group (s : string) : list (Z * string) :=
  two 1 1 0 2 s ++ two 0 0 1 9 s ++ one 1 9 s.

Definition day_group (s : string) : list (Z * string) :=
  two 3 3 0 1 s ++ two 1 2 0 9 s ++ two 0 0 1 9 s ++ one 1 9 s
  ++ blank_one 1 9 s.

Definition dash (s : string) : list string :=
  match s with
  | String c r => if Ascii.eqb c "-" then [r] else []
  | _ => []
  end.

(** All ways the expression matches a prefix, first match first. *)
Definition regex_matches (s : string) : list (Z * Z * Z * string) :=
  '(y, r1) ← year_group s;
  r2 ← dash r1;
  '(m, r3) ← month_group r2;
  r4 ← dash r3;
  '(d, r5) ← day_group r4;
  [(y, m, d, r5)].

Definition strptime (s : string) : result datetime :=
  match regex_matches s with
  | [] =>
      Raise (mk_exn ValueError
               ("time data '" +:+ s +:+ "' does not match format '%Y-%m-%d'"))
  | (y, m, d, rest) :: _ =>
      if truthy rest then
        Raise (mk_exn ValueError ("unconverted data remains: " +:+ rest))
      else if y =? 0 then
        Raise (mk_exn ValueError "year 0 is out of range")
      else if days_in_month y m <? d then
        Raise (mk_exn ValueError "day is out of range for month")
      else Ok (mk_datetime y m d 0 0 0 0)
  end.

End Datetime.

(** ** [services/document_processor.py] *)

Module DocProc.

Import Datetime.

Inductive DocumentType : Type := PDF | WORD.

Definition DocumentType_value (t : DocumentType) : string :=
  match t with PDF => "pdf" | WORD => "docx" end.

(** [str(t)] *)
Definition DocumentType_str (t : DocumentType) : string :=
  match t with PDF => "DocumentType.PDF" | WORD => "DocumentType.WORD" end.

(** What the [doc_type] attribute holds: the annotation is not enforced,
    so a value that is no member of the enumeration is possible; it is
    known by its [str]. *)
Inductive doc_type_value : Type :=
| Member (t : DocumentType)
| Foreign (shown : string).

Definition str_doc_type (v : doc_type_value) : string :=
  match v with
  | Member t => DocumentType_str t
  | Foreign shown => shown
  end.

Record DocumentFile : Type := mk_document {
  data_bytes : string;
  name : string;
  doc_type : doc_type_value;
  title : option string
}.

Definition set_title (d : DocumentFile) (t : string) : DocumentFile :=
  mk_document (data_bytes d) (name d) (doc_type d) (Some t).

(** Truthiness of an [Optional[str]]. *)
Definition truthy_opt (o : option string) : bool :=
  match o with Some s => truthy s | None => false end.

(** [a or b] *)
Definition or_else (a : option string) (b : string) : string :=
  match a with
  | Some s => if truthy s then s else b
  | None => b
  end.

(** A section returned by the parsing service: the attributes the program
    probes with [hasattr] and [isinstance], and its [str]. *)
Record parsed_doc : Type := mk_parsed {
  page_content : option string;
  text : option string;
  dict_items : option (list (string * string));
  shown : string
}.

(** What [pypdf.PdfReader] exposes; reading the metadata may raise and
    may give [None]. *)
Record PdfReader (page : Type) : Type := mk_reader {
  metadata : result (option (list (string * string)));
  pages : list page
}.
Arguments mk_reader {page} _ _.
Arguments metadata {page} _.
Arguments pages {page} _.

Record DocumentProcessor : Type := mk_processor {
  api_key : string;
  temp_base_dir : string;
  chunk_size : Z;
  chunk_overlap : Z
}.

Definition DPE (msg : string) : exn := mk_exn DocumentProcessingError msg.

Definition is_ValueError (e : exn) : bool :=
  match exn_cls e with ValueError => true | _ => false end.

(** [strftime("%Y-%m-%d")] *)
Definition pad (width : nat) (n : Z) : string :=
  let s := pretty (Z.to_N n) in
  String.concat EmptyString (repeat "0" (width - String.length s)) +:+ s.

Definition strftime (d : datetime) : string :=
  pad 4 (year d) +:+ "-" +:+ pad 2 (month d) +:+ "-" +:+ pad 2 (day d).

Section WithLibraries.

(** The libraries and the environment of the process. *)
Variable page : Type.
Variable PdfReader_new : string -> result (PdfReader page).
Variable PdfWriter_write : list page -> result string.
Variable LlamaParse_new : string -> result unit.
Variable llama_parse : string -> node -> result (list parsed_doc).
Variable py_int : string -> result Z.
Variable getenv : string -> option string.
(** [os.path.dirname(__file__)] *)
Variable here : string.

Definition temp_root : string :=
  path_join (path_join (path_join here "..") "..") "temp_files".

(** [DocumentProcessor.__init__]; [_check_disk_space] only reads. *)
Definition DocumentProcessor_init (api_key : option string) (now : datetime)
  : M DocumentProcessor :=
  let key :=
    if truthy_opt api_key then api_key else getenv "LLAMA_CLOUD_API_KEY" in
  match key with
  | Some k =>
      if truthy k then
        _ <~ lift (LlamaParse_new k) ;;
        let today := strftime now in
        let temp_base_dir := path_join temp_root today in
        _ <~ mkdir_exist_ok temp_root ;;
        _ <~ mkdir_exist_ok temp_base_dir ;;
        chunk_size <~ lift (py_int (default "1000" (getenv "CHUNK_SIZE"))) ;;
        chunk_overlap <~
          lift (py_int (default "200" (getenv "CHUNK_OVERLAP"))) ;;
        ret (mk_processor k temp_base_dir chunk_size chunk_overlap)
      else
        raise (DPE "LLAMA CLOUD API key not found. Please set LLAMA_CLOUD_API_KEY environment variable")
  | None =>
      raise (DPE "LLAMA CLOUD API key not found. Please set LLAMA_CLOUD_API_KEY environment variable")
  end.

(** *** [cleanup_old_files] *)

Fixpoint cleanup_loop (cutoff_date : instant) (items : list string)
  (fs : gmap string node) : gmap string node * result unit :=
  match items with
  | [] => (fs, Ok tt)
  | item :: rest =>
      let item_path := path_join temp_root item in
      if isdir fs item_path && negb (String.eqb item ".gitkeep") then
        match strptime item with
        | Ok dir_date =>
            if instant_ltb (to_instant dir_date) cutoff_date then
              cleanup_loop cutoff_date rest (rmtree item_path fs)
            else cleanup_loop cutoff_date rest fs
        | Raise e =>
            if is_ValueError e then cleanup_loop cutoff_date rest fs
            else (fs, Raise e)
        end
      else cleanup_loop cutoff_date rest fs
  end.

(** [days_to_keep] is [None] when the caller leaves the default. *)
Definition cleanup_old_files (now : datetime) (days_to_keep : option Z)
  : M unit :=
  fun w =>
    let days_to_keep := default 7 days_to_keep in
    match minus_days now days_to_keep with
    | Raise e => (w, Raise e)
    | Ok cutoff_date =>
        if isdir (files w) temp_root then
          let '(fs, r) :=
            cleanup_loop cutoff_date (listdir (files w) temp_root) (files w)
          in (set_files (fun _ => fs) w, r)
        else
          (w, Raise (mk_exn (OtherError "FileNotFoundError")
                       ("No such file or directory: " +:+ temp_root)))
    end.

(** *** [parse_document] *)

(** [await self.parser.aload_data(file_path)]: one outbound call. *)
Definition aload_data (file_path : string) : M (list parsed_doc) :=
  fun w =>
    let w' :=
      mk_world (files w) (gettempdir w) (tmp_names w)
        (parse_log w ++ [file_path]) (llm_log w) in
    match files w !! file_path with
    | Some n => (w', llama_parse file_path n)
    | None =>
        (w', Raise (mk_exn (OtherError "FileNotFoundError")
                      ("No such file or directory: " +:+ file_path)))
    end.

Definition nonempty {A} (l : list A) : bool :=
  match l with [] => false | _ => true end.

Fixpoint parse_loop (file_paths : list string) (documents : list parsed_doc)
  : M (list parsed_doc) :=
  match file_paths with
  | [] => ret documents
  | file_path :: rest =>
      documents' <~
        try_exceptM
          (parsed_docs <~ aload_data file_path ;;
           ret (if nonempty parsed_docs then documents ++ parsed_docs
                else documents))
          (fun _ => ret documents) ;;
      parse_loop rest documents'
  end.

Definition parse_document (file_paths : list string) : M (list parsed_doc) :=
  if nonempty file_paths then
    try_exceptM
      (documents <~ parse_loop file_paths [] ;;
       if nonempty documents then ret documents else ret [])
      (fun e => raise (DPE ("Document parsing failed: " +:+ str_exn e)))
  else raise (DPE "File paths are required").

(** *** Splitting *)

(** [_extract_pdf_title] *)
Definition extract_pdf_title (reader : PdfReader page) : option string :=
  let attempt : result (option string) :=
    md <- metadata reader ;;
    match md with
    | Some d =>
        match dict_get d "/Title" with
        | Some t => Ok (if truthy t then Some (strip t) else None)
        | None => Ok None
        end
    | None =>
        Raise (mk_exn (OtherError "AttributeError")
                 "'NoneType' object has no attribute 'get'")
    end in
  match attempt with
  | Ok r => r
  | Raise _ => None
  end.

(** The loop of [_split_pdf_pages]; [i] is the number of the next page. *)
Fixpoint write_pdf_pages (dir : string) (i : N) (ps : list page)
  : M (list string) :=
  match ps with
  | [] => ret []
  | p :: rest =>
      data <~ lift (PdfWriter_write [p]) ;;
      let output_filename :=
        path_join dir ("page_" +:+ pretty i +:+ ".pdf") in
      _ <~ write_file output_filename (BinaryFile data) ;;
      page_files <~ write_pdf_pages dir (N.succ i) rest ;;
      ret (output_filename :: page_files)
  end.

(** The functions below return the document too: its [title] attribute
    is assigned in place. *)
Definition split_pdf_pages (document : DocumentFile) (temp_dir : string)
  (w : world) : DocumentFile * (world * result (list string * string)) :=
  match PdfReader_new (data_bytes document) with
  | Raise e => (document, (w, Raise e))
  | Ok reader =>
      let document' :=
        if truthy_opt (title document) then document
        else set_title document
               (or_else (extract_pdf_title reader) (name document)) in
      (document',
       (page_files <~ write_pdf_pages temp_dir 1 (pages reader) ;;
        ret (page_files, temp_dir)) w)
  end.

Definition section_content (section : parsed_doc) : string :=
  match text section with
  | Some t => t
  | None =>
      match dict_items section with
      | Some d => default EmptyString (dict_get d "text")
      | None => shown section
      end
  end.

Fixpoint write_word_pages (dir : string) (i : N) (sections : list parsed_doc)
  : M (list string) :=
  match sections with
  | [] => ret []
  | section :: rest =>
      let output_filename :=
        path_join dir ("page_" +:+ pretty i +:+ ".docx") in
      _ <~ write_file output_filename (TextFile (section_content section)) ;;
      page_files <~ write_word_pages dir (N.succ i) rest ;;
      ret (output_filename :: page_files)
  end.

Definition split_word_pages (document : DocumentFile) (temp_dir : string)
  : M (list string * string) :=
  let temp_path := path_join temp_dir "complete.docx" in
  _ <~ write_file temp_path (BinaryFile (data_bytes document)) ;;
  parsed_docs <~ aload_data temp_path ;;
  page_files <~ write_word_pages temp_dir 1 parsed_docs ;;
  ret (page_files, temp_dir).

(** The handler of [split_document_pages]:
    [except Exception as e: raise DocumentProcessingError(...)]. *)
Definition splitting_failed (r : world * result (list string * string))
  : world * result (list string * string) :=
  match r with
  | (w', Ok v) => (w', Ok v)
  | (w', Raise e) =>
      (w', Raise (DPE ("Document splitting failed: " +:+ str_exn e)))
  end.

Definition split_document_pages (self : DocumentProcessor)
  (document : DocumentFile) (w : world)
  : DocumentFile * (world * result (list string * string)) :=
  match TemporaryDirectory (temp_base_dir self) w with
  | (w1, Raise e) => (document, splitting_failed (w1, Raise e))
  | (w1, Ok temp_dir) =>
      match doc_type document with
      | Member PDF =>
          let '(document', r) := split_pdf_pages document temp_dir w1 in
          (document', splitting_failed r)
      | Member WORD =>
          (document,
           splitting_failed (split_word_pages document temp_dir w1))
      | Foreign _ =>
          (document,
           splitting_failed
             (w1, Raise (DPE ("Unsupported document type: "
                              +:+ str_doc_type (doc_type document)))))
      end
  end.

End WithLibraries.

End DocProc.

(** ** [services/legal_assistant.py] *)

Module Assistant.

Import Llm Prompts.

Section WithVendors.

Variable sdk : vendors.

(** [self.llm.get_response(prompt)]: one outbound call, logged. *)
Definition llm_get_response (llm : adapter) (prompt : string) : M string :=
  fun w =>
    (mk_world (files w) (gettempdir w) (tmp_names w) (parse_log w)
       (llm_log w ++ [prompt]),
     get_response sdk llm prompt).

(** [LegalAssistant.get_response] *)
Definition assistant_get_response (llm : adapter)
  (user_query chat_history : string) : M string :=
  prompt <~ lift (generate_prompt user_query TENANCY_LAW chat_history) ;;
  try_exceptM (llm_get_response llm prompt)
    (fun e => raise (mk_exn Exception_
                       ("Error processing query: " +:+ str_exn e))).

(** [LegalAssistant.analyze_contract] *)
Definition analyze_contract (llm : adapter) (contract_text : string)
  : M string :=
  prompt <~
    lift (generate_contract_analysis_prompt contract_text TENANCY_LAW) ;;
  try_exceptM (llm_get_response llm prompt)
    (fun e => raise (mk_exn Exception_
                       ("Error analyzing contract: " +:+ str_exn e))).

End WithVendors.

End Assistant.

(** ** [streamlit_app.py] *)

Module App.

Import Llm Prompts DocProc Assistant Datetime.

Record ProcessedDocument : Type := mk_processed {
  pd_content : string;
  pd_file_name : string;
  pd_num_pages : nat;
  pd_doc_type : string
}.

(** A chat message, the dictionary with keys [role] and [content]. *)
Record message : Type := mk_message { msg_role : string; msg_content : string }.

(** [st.session_state] as stored between script runs: a key may be
    absent. *)
Record session_state : Type := mk_session {
  messages : option (list message);
  current_tab : option string;
  processed_documents : option (list ProcessedDocument)
}.

Definition new_session : session_state := mk_session None None None.

(** The session once [initialize_session_state] has run: every key is
    there. *)
Record live_state : Type := mk_live {
  live_messages : list message;
  live_tab : string;
  live_documents : list ProcessedDocument
}.

Definition initialize_session_state (ss : session_state) : live_state :=
  mk_live (default [] (messages ss))
          (default "Chat Assistant" (current_tab ss))
          (default [] (processed_documents ss)).

Definition store (l : live_state) : session_state :=
  mk_session (Some (live_messages l)) (Some (live_tab l))
             (Some (live_documents l)).

(** What the chat of a session holds. *)
Definition history (ss : session_state) : list message :=
  default [] (messages ss).

Inductive input_choice : Type := UploadDocument | PasteText.

(** The widget values of one script run.  A button is [true] in the run
    its click started; [chat_input] holds the submitted text in the run
    the submission started. *)
Record widgets : Type := mk_widgets {
  chat_input : option string;
  input_method : input_choice;
  file_uploader : option (string * string);
  text_input : string;
  analyze_button : bool;
  clear_chat_button : bool;
  confirm_clear_button : bool
}.

(** The browser starts a run for each widget event, so at most one of the
    triggers is set in a run. *)
Definition triggers (wd : widgets) : list bool :=
  [truthy_opt (chat_input wd); analyze_button wd;
   clear_chat_button wd; confirm_clear_button wd].

Definition one_trigger (wd : widgets) : bool :=
  (length (filter (fun b => b = true) (triggers wd)) <=? 1)%nat.

(** [os.path.splitext(p)[1]] *)
Fixpoint basename (p : string) : string :=
  match p with
  | EmptyString => EmptyString
  | String c r =>
      if slash_free r then (if Ascii.eqb c "/" then r else p) else basename r
  end.

Fixpoint dot_free (s : string) : bool :=
  match s with
  | EmptyString => true
  | String c s' => negb (Ascii.eqb c ".") && dot_free s'
  end.

Fixpoint ext_from (seen_other : bool) (s : string) : string :=
  match s with
  | EmptyString => EmptyString
  | String c r =>
      if Ascii.eqb c "." then
        if dot_free r then (if seen_other then s else EmptyString)
        else ext_from seen_other r
      else ext_from true r
  end.

Definition splitext_ext (p : string) : string := ext_from false (basename p).

(** [s.lower()] on code points below 256. *)
Definition lower_char (c : ascii) : ascii :=
  let n := nat_of_ascii c in
  if ((65 <=? n) && (n <=? 90) || (192 <=? n) && (n <=? 214)
      || (216 <=? n) && (n <=? 222))%nat
  then ascii_of_nat (n + 32) else c.

Fixpoint lower (s : string) : string :=
  match s with
  | EmptyString => EmptyString
  | String c s' => String (lower_char c) (lower s')
  end.

Definition endswith (s suffix : string) : bool :=
  let n := String.length s in
  let k := String.length suffix in
  (k <=? n)%nat && String.eqb (String.substring (n - k) k s) suffix.

(** The text of one parsed section, as [process_document] reads it. *)
Definition doc_content (doc : parsed_doc) : string :=
  match page_content doc with
  | Some c => c
  | None =>
      match text doc with
      | Some t => t
      | None =>
          match dict_items doc with
          | Some d =>
              default (default EmptyString (dict_get d "content")) (dict_get d "text")
          | None => shown doc
          end
      end
  end.

(** The loop that collects [contents]. *)
Fixpoint collect_contents (parsed_docs : list parsed_doc) : list string :=
  match parsed_docs with
  | [] => []
  | doc :: rest =>
      let content := doc_content doc in
      if truthy content && truthy (strip content)
      then strip content :: collect_contents rest
      else collect_contents rest
  end.

Definition newline : string := String (ascii_of_nat 10) EmptyString.

Section WithServices.

Variable sdk : vendors.
Variable LlamaParse_new : string -> result unit.
Variable llama_parse : string -> node -> result (list parsed_doc).
Variable py_int : string -> result Z.
Variable getenv : string -> option string.
Variable here : string.

(** [tempfile.NamedTemporaryFile(delete=False, suffix=...)] followed by
    the write: the result is the file's name. *)
Definition NamedTemporaryFile (suffix data : string) : M string :=
  n <~ next_tmp_name ;;
  (fun w =>
     let path := path_join (gettempdir w) ("tmp" +:+ n +:+ suffix) in
     (set_files (insert path (BinaryFile data)) w, Ok path)).

Definition unlink_quietly (path : string) (w : world) : world :=
  fst (unlink path w).

(** [DocumentProcessingService.process_document] *)
Definition process_document (file_content file_name : string)
  : M ProcessedDocument :=
  try_exceptM
    (temp_file_path <~
       NamedTemporaryFile (splitext_ext file_name) file_content ;;
     try_finallyM
       (parsed_docs <~ parse_document llama_parse [temp_file_path] ;;
        if nonempty parsed_docs then
          let contents := collect_contents parsed_docs in
          if nonempty contents then
            let combined_content := join (newline +:+ newline) contents in
            ret (mk_processed combined_content file_name (length contents)
                   (if endswith (lower file_name) ".pdf"
                    then DocumentType_value PDF
                    else DocumentType_value WORD))
          else raise (DPE "No valid content found in parsed documents")
        else raise (DPE "No content extracted from document"))
       (unlink_quietly temp_file_path))
    (fun e => raise (DPE ("Failed to process document: " +:+ str_exn e))).

(** The application object: the assistant's adapter and the document
    processor of the document service. *)
Record StreamlitApp : Type := mk_app {
  assistant : adapter;
  doc_processor : DocumentProcessor
}.

(** [StreamlitApp.__init__], after [initialize_session_state]. *)
Definition StreamlitApp_init (now : datetime) : M StreamlitApp :=
  llm <~ lift (create_llm sdk GROQ (getenv "GROQ_API_KEY")) ;;
  processor <~
    DocumentProcessor_init LlamaParse_new py_int getenv here None now ;;
  ret (mk_app llm processor).

(** [process_uploaded_file]: never raises. *)
Definition process_uploaded_file (uploaded_file : option (string * string))
  (st : live_state) (w : world) : option string * live_state * world :=
  match uploaded_file with
  | None => (None, st, w)
  | Some (file_name, file_content) =>
      match process_document file_content file_name w with
      | (w', Ok processed_doc) =>
          (Some (pd_content processed_doc),
           mk_live (live_messages st) (live_tab st)
                   (live_documents st ++ [processed_doc]),
           w')
      | (w', Raise _) => (None, st, w')
      end
  end.

Definition render_message (m : message) : string :=
  msg_role m +:+ ": " +:+ msg_content m.

(** [render_chat_assistant] *)
Definition render_chat_assistant (self : StreamlitApp) (wd : widgets)
  (st : live_state) (w : world) : live_state * world :=
  match chat_input wd with
  | Some prompt =>
      if truthy prompt then
        let msgs1 := live_messages st ++ [mk_message "user" prompt] in
        let chat_history := join newline (map render_message msgs1) in
        match assistant_get_response sdk (assistant self) prompt
                chat_history w with
        | (w', Ok response) =>
            (mk_live (msgs1 ++ [mk_message "assistant" response])
                     (live_tab st) (live_documents st), w')
        | (w', Raise _) =>
            (mk_live msgs1 (live_tab st) (live_documents st), w')
        end
      else (st, w)
  | None => (st, w)
  end.

(** [_analyze_contract_text]: the report is shown, nothing is kept. *)
Definition analyze_contract_text (self : StreamlitApp)
  (contract_text : string) (w : world) : world :=
  fst (analyze_contract sdk (assistant self) contract_text w).

(** [render_contract_analyzer] *)
Definition render_contract_analyzer (self : StreamlitApp) (wd : widgets)
  (st : live_state) (w : world) : live_state * world :=
  let '(contract_text, st1, w1) :=
    match input_method wd with
    | UploadDocument =>
        match file_uploader wd with
        | Some f => process_uploaded_file (Some f) st w
        | None => (None, st, w)
        end
    | PasteText => (Some (text_input wd), st, w)
    end in
  match contract_text with
  | Some t =>
      if truthy t && analyze_button wd
      then (st1, analyze_contract_text self t w1)
      else (st1, w1)
  | None => (st1, w1)
  end.

(** [render_sidebar]; the second component tells whether [st.rerun()]
    ended the run. *)
Definition render_sidebar (wd : widgets) (st : live_state)
  : live_state * bool :=
  if nonempty (live_messages st) then
    if clear_chat_button wd then
      if confirm_clear_button wd then
        (mk_live [] (live_tab st) (live_documents st), true)
      else (st, false)
    else (st, false)
  else (st, false).

(** [main] *)
Definition main (self : StreamlitApp) (wd : widgets) (st : live_state)
  (w : world) : live_state * world :=
  let '(st1, w1) := render_chat_assistant self wd st w in
  let '(st2, w2) := render_contract_analyzer self wd st1 w1 in
  let '(st3, _) := render_sidebar wd st2 in
  (st3, w2).

(** One run of the script: [app = StreamlitApp(); app.main()]. *)
Definition script (now : datetime) (wd : widgets) (ss : session_state)
  (w : world) : session_state * world * result unit :=
  let st := initialize_session_state ss in
  match StreamlitApp_init now w with
  | (w1, Raise e) => (store st, w1, Raise e)
  | (w1, Ok app) =>
      let '(st', w2) := main app wd st w1 in
      (store st', w2, Ok tt)
  end.

(** A session: the runs started by a sequence of events. *)
Fixpoint session (runs : list (datetime * widgets)) (ss : session_state)
  (w : world) : session_state * world :=
  match runs with
  | [] => (ss, w)
  | (now, wd) :: rest =>
      let '(ss', w', _) := script now wd ss w in
      session rest ss' w'
  end.

End WithServices.

End App.

(** ** Notions used to state the properties, and concrete instances *)

Module Instances.

Import Llm DocProc Datetime App.

(** The calls into the vendor library that constructing the adapter of
    provider [p] makes. *)
Definition vendor_client (sdk : vendors) (p : LLMProvider)
  (key : option string) : result unit :=
  match p with
  | OPENAI => Ok tt
  | GROQ => ChatGroq_new sdk key "llama-3.1-8b-instant" (2 # 10)%Q 2000
  | ANTHROPIC => Anthropic_new sdk key
  | GEMINI =>
      _ <- genai_configure sdk key ;; genai_GenerativeModel sdk "gemini-pro"
  end.

(** The world after the parser was called on [paths], in this order. *)
Definition log_calls (paths : list string) (w : world) : world :=
  mk_world (files w) (gettempdir w) (tmp_names w) (parse_log w ++ paths)
    (llm_log w).

(** The sections the service returns for the file at [path]; none when
    the call raises. *)
Definition file_sections
  (llama_parse : string -> node -> result (list parsed_doc))
  (fs : gmap string node) (path : string) : list parsed_doc :=
  match fs !! path with
  | Some n =>
      match llama_parse path n with
      | Ok docs => docs
      | Raise _ => []
      end
  | None => []
  end.

(** What [path_join] puts between a directory and a relative name. *)
Definition stem (d : string) : string :=
  if truthy d && negb (endswith_slash d) then d +:+ "/" else d.

(** What [document.title] is after [_split_pdf_pages] read [reader]. *)
Definition retitled {page : Type} (document : DocumentFile)
  (reader : PdfReader page) : DocumentFile :=
  if truthy_opt (title document) then document
  else set_title document
         (or_else (extract_pdf_title page reader) (name document)).

(** [cleanup_old_files] removes the entry [item] of [root]: it is a
    directory whose name parses as a day before the cutoff. *)
Definition doomed (root : string) (cutoff_date : instant)
  (fs : gmap string node) (item : string) : bool :=
  isdir fs (path_join root item) && negb (String.eqb item ".gitkeep")
  && match strptime item with
     | Ok dir_date => instant_ltb (to_instant dir_date) cutoff_date
     | Raise _ => false
     end.

(** Path [key] lies in an entry among [items] that is removed. *)
Definition removes (root : string) (cutoff_date : instant)
  (fs : gmap string node) (items : list string) (key : string) : bool :=
  existsb (fun item => doomed root cutoff_date fs item
                       && inside (path_join root item) key) items.

(** Name of the file written for page number [i]. *)
Definition page_file (dir : string) (i : N) : string :=
  path_join dir ("page_" +:+ pretty i +:+ ".pdf").

(** A section object with a [text] attribute. *)
Definition section_of (s : string) : parsed_doc :=
  mk_parsed None (Some s) None "<Document>".

(** A small model of [pypdf]: pages are strings, a document is recognised
    by its first bytes. *)
Definition toy_pages : list string := ["page one"; "page two"; "page three"].

Definition toy_PdfReader_new (data : string) : result (PdfReader string) :=
  if String.eqb data "%PDF titled" then
    Ok (mk_reader (Ok (Some [("/Title", "Lease agreement")])) toy_pages)
  else if String.eqb data "%PDF blank title" then
    Ok (mk_reader (Ok (Some [("/Title", "   ")])) toy_pages)
  else if String.eqb data "%PDF padded title" then
    Ok (mk_reader (Ok (Some [("/Title", " Lease ")])) toy_pages)
  else if String.eqb data "%PDF no info" then
    Ok (mk_reader (Ok None) toy_pages)
  else if String.eqb data "%PDF broken info" then
    Ok (mk_reader
          (Raise (mk_exn (OtherError "PdfReadError") "invalid trailer"))
          toy_pages)
  else Raise (mk_exn (OtherError "PdfReadError") "EOF marker not found").

Definition toy_PdfWriter_write (ps : list string) : result string :=
  Ok ("%PDF[" +:+ String.concat "|" ps +:+ "]").

(** A parsing service that fails on files named [bad] and returns one
    section per line-like piece otherwise. *)
Definition toy_llama_parse (path : string) (n : node)
  : result (list parsed_doc) :=
  if String.eqb path "bad.pdf" then
    Raise (mk_exn (OtherError "HTTPStatusError") "500")
  else
    match n with
    | BinaryFile data => Ok [section_of (path +:+ ": " +:+ data)]
    | TextFile t => Ok [section_of t]
    | DirNode => Raise (mk_exn (OtherError "IsADirectoryError") path)
    end.

(** A service returning three sections for every file. *)
Definition three_sections (path : string) (n : node)
  : result (list parsed_doc) :=
  Ok [section_of " first"; section_of "second"; section_of "third "].

Definition toy_processor : DocumentProcessor :=
  mk_processor "key" "/app/temp_files/2024-03-09" 1000 200.

Definition toy_world : world :=
  mk_world
    (list_to_map
       [("a.pdf", BinaryFile "A"); ("bad.pdf", BinaryFile "B");
        ("c.pdf", BinaryFile "C")])
    "/tmp" ["k3x9"; "q7w2"] [] [].

Definition toy_document (data : string) (title : option string)
  : DocumentFile :=
  mk_document data "lease.pdf" (Member PDF) title.

Definition toy_now : datetime := mk_datetime 2024 3 9 10 30 0 0.

Definition toy_getenv (k : string) : option string :=
  if String.eqb k "GROQ_API_KEY" then Some "gk"
  else if String.eqb k "LLAMA_CLOUD_API_KEY" then Some "lk"
  else None.

Definition toy_py_int (s : string) : result Z :=
  if String.eqb s "1000" then Ok 1000
  else if String.eqb s "200" then Ok 200
  else Raise (mk_exn ValueError "invalid literal for int()").

(** A temporary root with two dated directories, one old and one of
    today, a directory whose name is no date and two plain files. *)
Definition cleanup_world : world :=
  mk_world
    (list_to_map
       [("/app/services/../../temp_files", DirNode);
        ("/app/services/../../temp_files/2024-03-01", DirNode);
        ("/app/services/../../temp_files/2024-03-01/tmpab/page_1.pdf",
         BinaryFile "%PDF");
        ("/app/services/../../temp_files/2024-03-09", DirNode);
        ("/app/services/../../temp_files/2024-03-09/tmpcd/page_1.pdf",
         BinaryFile "%PDF");
        ("/app/services/../../temp_files/scratch", DirNode);
        ("/app/services/../../temp_files/.gitkeep", TextFile EmptyString);
        ("/app/services/../../temp_files/2024-01-01", TextFile "notes")])
    "/tmp" [] [] [].

Definition toy_adapter : adapter :=
  GroqLLM (Some "gk") "llama-3.1-8b-instant" (2 # 10)%Q 2000.

Definition toy_app : StreamlitApp := mk_app toy_adapter toy_processor.

Definition idle : widgets :=
  mk_widgets None PasteText None EmptyString false false false.

Definition ask (question : string) : widgets :=
  mk_widgets (Some question) PasteText None EmptyString false false false.

Definition click_clear : widgets :=
  mk_widgets None PasteText None EmptyString false true false.

Definition click_confirm : widgets :=
  mk_widgets None PasteText None EmptyString false false true.

Definition upload_and_analyze : widgets :=
  mk_widgets None UploadDocument (Some ("lease.pdf", "%PDF titled")) EmptyString
    true false false.

(** The world in which the upload of [upload_and_analyze] is processed
    and the world after it. *)
Definition processed_world (w : world) (temp_path file_content : string)
  : world :=
  mk_world (delete temp_path (insert temp_path (BinaryFile file_content)
                                (files w)))
    (gettempdir w) (tail (tmp_names w)) (parse_log w ++ [temp_path])
    (llm_log w).

End Instances.

Import Instances.

(** ** [services/document_processor.py]: [read_document_bytes] *)

Module DocRead.

Import DocProc App.

(** [str.encode("utf-8")] on code points below 256. *)
Definition utf8_char (c : ascii) : string :=
  let n := nat_of_ascii c in
  if (n <? 128)%nat then String c EmptyString
  else String (ascii_of_nat (192 + n / 64))
         (String (ascii_of_nat (128 + n mod 64)) EmptyString).

Fixpoint utf8_encode (s : string) : string :=
  match s with
  | EmptyString => EmptyString
  | String c s' => utf8_char c +:+ utf8_encode s'
  end.

(** [open(path, "rb").read()] *)
Definition read_binary (path : string) (w : world) : result string :=
  match files w !! path with
  | Some (BinaryFile data) => Ok data
  | Some (TextFile t) => Ok (utf8_encode t)
  | Some DirNode =>
      Raise (mk_exn (OtherError "IsADirectoryError")
               ("Is a directory: " +:+ path))
  | None =>
      Raise (mk_exn (OtherError "FileNotFoundError")
               ("No such file or directory: " +:+ path))
  end.

(** [DocumentProcessor.read_document_bytes] *)
Definition read_document_bytes (file_path : string) (w : world)
  : result (string * DocumentType) :=
  try_except
    (data <- read_binary file_path w ;;
     if endswith (lower file_path) ".pdf" then Ok (data, PDF)
     else if endswith (lower file_path) ".docx"
             || endswith (lower file_path) ".doc"
     then Ok (data, WORD)
     else Raise (DPE ("Unsupported file type: " +:+ file_path)))
    (fun e => Raise (DPE ("Failed to read document file: " +:+ str_exn e))).

End DocRead.

(** ** Further notions used to state properties, and instances *)

Module Notions.

Import Llm DocProc Datetime App DocRead.

(** Name of the file written for section number [i] of a Word document. *)
Definition word_page_file (dir : string) (i : N) : string :=
  path_join dir ("page_" +:+ pretty i +:+ ".docx").

(** The processed documents a session holds. *)
Definition documents (ss : session_state) : list ProcessedDocument :=
  default [] (processed_documents ss).

(** The message every failure of the document processor's construction
    for want of a key carries. *)
Definition no_key_message : string :=
  "LLAMA CLOUD API key not found. Please set LLAMA_CLOUD_API_KEY environment variable".

(** The midnight that starts the day of [d]. *)
Definition midnight (d : datetime) : datetime :=
  mk_datetime (year d) (month d) (day d) 0 0 0 0.

(** The text with which [render_chat_assistant] describes the history. *)
Definition chat_history_text (msgs : list message) : string :=
  join newline (map render_message msgs).

(** The outcome [process_document] reports for what the service answered
    on the temporary copy of the upload. *)
Definition processing_outcome (answer : result (list parsed_doc))
  (file_name : string) : result ProcessedDocument :=
  match answer with
  | Ok (s :: rest) =>
      let contents := collect_contents (s :: rest) in
      if nonempty contents then
        Ok (mk_processed (join (newline +:+ newline) contents) file_name
              (length contents)
              (if endswith (lower file_name) ".pdf" then "pdf" else "docx"))
      else
        Raise (DPE ("Failed to process document: "
                    +:+ "No valid content found in parsed documents"))
  | Ok [] | Raise _ =>
      Raise (DPE ("Failed to process document: "
                  +:+ "No content extracted from document"))
  end.

(** [w'] differs from [w] by at most [k] more prompts and [j] more parser
    calls at the end of the logs. *)
Definition grows_by (k j : nat) (w w' : world) : Prop :=
  (exists more, llm_log w' = llm_log w ++ more /\ (length more <= k)%nat)
  /\ (exists more,
         parse_log w' = parse_log w ++ more /\ (length more <= j)%nat).

(** What the expression of [strptime] matches after the year. *)
Definition rest_matches (y : Z) (r1 : string) : list (Z * Z * Z * string) :=
  r2 ← dash r1;
  '(m, r3) ← month_group r2;
  r4 ← dash r3;
  '(d, r5) ← day_group r4;
  [(y, m, d, r5)].

(** The month and day part of a name made by [strftime]. *)
Definition month_day_text (m d : Z) : string :=
  "-" +:+ pad 2 m +:+ "-" +:+ pad 2 d.

(** [strftime] writes year [y] as four digits that read back as [y]. *)
Definition year_reads_back (y : Z) : bool :=
  match pad 4 y with
  | String a (String b (String c (String d EmptyString))) =>
      match digit a, digit b, digit c, digit d with
      | Some x1, Some x2, Some x3, Some x4 =>
          1000 * x1 + 100 * x2 + 10 * x3 + x4 =? y
      | _, _, _, _ => false
      end
  | _ => false
  end.

(** The month and day part for [m] and [d] reads back as [m] and [d],
    and has no slash. *)
Definition month_day_reads_back (m d : Z) : bool :=
  slash_free (month_day_text m d)
  && match rest_matches 0 (month_day_text m d) with
     | (_, m', d', EmptyString) :: _ => (m' =? m) && (d' =? d)
     | _ => false
     end.

(** The roles a chat message can have. *)
Definition known_role (m : message) : Prop :=
  msg_role m = "user" \/ msg_role m = "assistant".

(** A service that answers with nothing but blank sections. *)
Definition blank_sections (path : string) (n : node)
  : result (list parsed_doc) :=
  Ok [section_of "  "; section_of EmptyString].

Definition toy_word_document : DocumentFile :=
  mk_document "PK word bytes" "lease.docx" (Member WORD) None.

Definition no_env (k : string) : option string := None.

Definition paste_and_analyze (contract : string) : widgets :=
  mk_widgets None PasteText None contract true false false.

(** The request that the adapter which [create_llm] builds for provider
    [p] with [key] sends to the vendor's library for [prompt]. *)
Definition vendor_request (sdk : vendors) (p : LLMProvider)
  (key : option string) (prompt : string) : result string :=
  match p with
  | OPENAI =>
      openai_ChatCompletion_create sdk key "gpt-3.5-turbo"
        [mk_chat "system"
           "You are a legal assistant specializing in Canada Ontario Tenancy Law.";
         mk_chat "user" prompt]
        1000 (3 # 10)%Q
  | GROQ =>
      ChatGroq_invoke sdk key "llama-3.1-8b-instant" (2 # 10)%Q 2000
        [mk_chat "system"
           "You are a legal assistant specializing in Ontario Tenancy Law.";
         mk_chat "user" prompt]
  | ANTHROPIC =>
      Anthropic_messages_create sdk key "claude-3-opus-20240229" 2000
        [mk_chat "user" prompt]
  | GEMINI => genai_generate_content sdk key "gemini-pro" prompt
  end.

(** The world after [prompt] went to the model: one more entry at the end
    of the log of prompts, all else as it was. *)
Definition sent (prompt : string) (w : world) : world :=
  mk_world (files w) (gettempdir w) (tmp_names w) (parse_log w)
    (llm_log w ++ [prompt]).

(** [toy_world] once the directory of [toy_processor] has been made. *)
Definition ready_world : world :=
  set_files
    (fun fs =>
       <["/app/temp_files/2024-03-09" := DirNode]>
         (<["/app/temp_files" := DirNode]> fs))
    toy_world.

(** A session in which one exchange has taken place. *)
Definition greeting : list message :=
  [mk_message "user" "Hello"; mk_message "assistant" "How can I help?"].

Definition chatted : session_state := mk_session (Some greeting) None None.

(** Widget values with both buttons of the sidebar reporting a click. *)
Definition click_both : widgets :=
  mk_widgets None PasteText None EmptyString false true true.

(** A run clears the chat when both buttons of the sidebar report a
    click. *)
Definition clears (wd : widgets) : bool :=
  clear_chat_button wd && confirm_clear_button wd.

(** The upload of [upload_and_analyze] sitting in the uploader, nothing
    clicked. *)
Definition upload_only : widgets :=
  mk_widgets None UploadDocument (Some ("lease.pdf", "%PDF titled")) EmptyString
    false false false.

(** The temporary copy [process_document] makes of an upload named
    [file_name] under the [tempfile] name [n]. *)
Definition temp_copy (w : world) (n file_name : string) : string :=
  path_join (gettempdir w) ("tmp" +:+ n +:+ splitext_ext file_name).

(** The content [process_document] makes of the sections of an answer. *)
Definition joined (sections : list parsed_doc) : string :=
  join (newline +:+ newline) (collect_contents sections).

End Notions.

Import Notions.

(** * Properties *)

(** ** Facts on strings *)

Section StringFacts.

Lemma app_cons_s (x : ascii) (a b : string) :
  String x a +:+ b = String x (a +:+ b).
Proof. reflexivity. Qed.

Lemma app_assoc_s (a b c : string) : (a +:+ b) +:+ c = a +:+ b +:+ c.
Proof.
  induction a as [|x a IH]; [reflexivity|].
  rewrite !app_cons_s. by rewrite IH.
Qed.

Lemma app_nil_r_s (a : string) : a +:+ EmptyString = a.
Proof.
  induction a as [|x a IH]; [reflexivity|]. rewrite app_cons_s. by rewrite IH.
Qed.

Lemma length_app_s (a b : string) :
  String.length (a +:+ b) = (String.length a + String.length b)%nat.
Proof.
  induction a as [|x a IH]; [reflexivity|].
  rewrite app_cons_s. cbn. by rewrite IH.
Qed.

Lemma occurs_in_app_r (sub a s : string) :
  occurs_in sub s -> occurs_in sub (a +:+ s).
Proof.
  intros (before & after & ->). exists (a +:+ before), after.
  by rewrite app_assoc_s.
Qed.

Lemma occurs_in_app_l (sub s b : string) :
  occurs_in sub s -> occurs_in sub (s +:+ b).
Proof.
  intros (before & after & ->). exists before, (after +:+ b).
  by rewrite !app_assoc_s.
Qed.

Lemma occurs_in_here (sub after : string) : occurs_in sub (sub +:+ after).
Proof. by exists EmptyString, after. Qed.

End StringFacts.

Create HintDb occurs.

#[local] Hint Resolve occurs_in_here occurs_in_app_r occurs_in_app_l : occurs.

(** ** Prompt construction *)

Section PromptFacts.

Import Prompts.

(** The segments are the templates cut at their replacement fields. *)
Lemma legal_template_cut :
  LEGAL_ASSISTANT_PROMPT =
    legal_before_history +:+ "{chat_history}" +:+ legal_before_query
    +:+ "{user_query}" +:+ legal_before_law +:+ "{law_text}" +:+ legal_end.
Proof. reflexivity. Qed.

Lemma rental_template_cut :
  RENTAL_CONTRACT_ANALYZER_PROMPT =
    rental_before_law +:+ "{law_text}" +:+ rental_before_contract
    +:+ "{contract_text}" +:+ rental_end.
Proof. reflexivity. Qed.

Lemma generate_prompt_fill (user_query law_text chat_history : string) :
  generate_prompt user_query law_text chat_history
  = Ok (fill_legal chat_history user_query law_text).
Proof. vm_compute. reflexivity. Qed.

Lemma generate_contract_analysis_prompt_fill (contract_text law_text : string) :
  generate_contract_analysis_prompt contract_text law_text
  = Ok (fill_rental law_text contract_text).
Proof. vm_compute. reflexivity. Qed.

(** C1.  [generate_prompt] returns the conversational template with the
    history, the query and the law text put in place of its three fields,
    so each of the three occurs unaltered as a contiguous block of the
    result; [generate_contract_analysis_prompt] does the same with the law
    text and the contract text. *)
Theorem prompts_are_direct_substitution
  (user_query law_text chat_history contract_text : string) :
  (exists p,
      generate_prompt user_query law_text chat_history = Ok p
      /\ p = fill_legal chat_history user_query law_text
      /\ occurs_in user_query p
      /\ occurs_in chat_history p
      /\ occurs_in law_text p)
  /\ (exists p,
      generate_contract_analysis_prompt contract_text law_text = Ok p
      /\ p = fill_rental law_text contract_text
      /\ occurs_in contract_text p
      /\ occurs_in law_text p).
Proof.
  split.
  - exists (fill_legal chat_history user_query law_text).
    split; [apply generate_prompt_fill|]. split; [reflexivity|].
    unfold fill_legal. repeat split; auto 10 with occurs.
  - exists (fill_rental law_text contract_text).
    split; [apply generate_contract_analysis_prompt_fill|].
    split; [reflexivity|].
    unfold fill_rental. repeat split; auto 10 with occurs.
Qed.

End PromptFacts.

(** ** Provider adapters *)

Section LlmFacts.

Import Llm.

Lemma prefix_app_s (p s : string) : String.prefix p (p +:+ s) = true.
Proof.
  induction p as [|c p IH]; [by destruct s|].
  rewrite app_cons_s. cbn. by destruct (ascii_dec c c).
Qed.

Lemma create_llm_provider sdk p key a :
  create_llm sdk p key = Ok a -> adapter_provider a = p.
Proof.
  destruct p; cbn; unfold GroqLLM_init, AnthropicLLM_init, GeminiLLM_init;
    cbn; intros H;
    repeat match type of H with
      | context [bind ?r _] => destruct r; cbn in H
      end;
    by inversion H.
Qed.

(** What [create_llm] builds, and what the adapter it built does with a
    prompt: it makes the vendor's request and, when that raises, raises an
    [Exception] with the provider's prefix before the vendor's message. *)
Lemma get_response_of_created sdk p key a prompt :
  create_llm sdk p key = Ok a ->
  get_response sdk a prompt
  = match vendor_request sdk p key prompt with
    | Ok reply => Ok reply
    | Raise e => Raise (mk_exn Exception_ (error_prefix p +:+ str_exn e))
    end.
Proof.
  destruct p; cbn; unfold GroqLLM_init, AnthropicLLM_init, GeminiLLM_init;
    cbn; intros H;
    repeat match type of H with
      | context [bind ?r _] => destruct r; cbn in H
      end;
    try discriminate H; injection H as <-; reflexivity.
Qed.

(** C2, as amended.  No adapter checks the key itself.  Building the
    OpenAI adapter only stores the key and succeeds for every key, a
    missing one included; building any other adapter fails exactly when
    the vendor's client constructor fails, with the vendor's exception.
    [get_response] of a built adapter returns what the vendor's request
    returns, and whenever that request raises, it raises an [Exception]
    whose message is the provider's prefix followed by the message of the
    vendor's exception; it fails in no other way. *)
Theorem adapters_fail_as_the_vendor_does (sdk : vendors) :
  (forall key, is_ok (create_llm sdk OPENAI key) = true)
  /\ (forall p key e,
        create_llm sdk p key = Raise e <-> vendor_client sdk p key = Raise e)
  /\ (forall p key a prompt,
        create_llm sdk p key = Ok a ->
        get_response sdk a prompt
        = match vendor_request sdk p key prompt with
          | Ok reply => Ok reply
          | Raise e =>
              Raise (mk_exn Exception_ (error_prefix p +:+ str_exn e))
          end)
  /\ (forall p key a prompt e,
        create_llm sdk p key = Ok a ->
        get_response sdk a prompt = Raise e ->
        exn_cls e = Exception_
        /\ startswith (exn_msg e) (error_prefix p) = true
        /\ exists vendor_error,
            vendor_request sdk p key prompt = Raise vendor_error
            /\ exn_msg e = error_prefix p +:+ exn_msg vendor_error).
Proof.
  split; [reflexivity|]. split; [|split].
  - intros p key e.
    destruct p; cbn;
      unfold GroqLLM_init, AnthropicLLM_init, GeminiLLM_init; cbn;
      repeat match goal with
        | |- context [bind ?r _] => destruct r as [[]|]; cbn
        end;
      split; intros H; try discriminate; congruence.
  - intros p key a prompt Hc. by apply get_response_of_created.
  - intros p key a prompt e Hc Hr.
    rewrite (get_response_of_created _ _ _ _ prompt Hc) in Hr.
    destruct (vendor_request sdk p key prompt) as [reply|e0]; [done|].
    injection Hr as <-. cbn [exn_cls exn_msg]. split; [done|].
    split; [apply prefix_app_s|]. by exists e0.
Qed.

(** C2 as stated fails: with vendor libraries that all reject a missing
    key, the OpenAI adapter is still built without one. *)
Lemma openai_adapter_built_without_key :
  create_llm strict_vendors OPENAI None
  = Ok (OpenAILLM None "gpt-3.5-turbo" (3 # 10)%Q 1000)
  /\ ~ (forall p, is_ok (create_llm strict_vendors p None) = false).
Proof.
  split; [reflexivity|]. intros H. specialize (H OPENAI). discriminate H.
Qed.

Lemma adapters_fail_as_the_vendor_does_witness :
  create_llm offline_vendors ANTHROPIC (Some "k")
  = Ok (AnthropicLLM (Some "k") "claude-3-opus-20240229")
  /\ exn_cls (mk_exn Exception_ "Anthropic Error: connection refused")
     = Exception_
  /\ startswith "Anthropic Error: connection refused"
       (error_prefix ANTHROPIC) = true
  /\ exists vendor_error,
      vendor_request offline_vendors ANTHROPIC (Some "k") "hello"
      = Raise vendor_error
      /\ "Anthropic Error: connection refused"
         = error_prefix ANTHROPIC +:+ exn_msg vendor_error.
Proof.
  split; [reflexivity|].
  exact (proj2 (proj2 (proj2
    (adapters_fail_as_the_vendor_does offline_vendors)))
       ANTHROPIC (Some "k")
       (AnthropicLLM (Some "k") "claude-3-opus-20240229")
       "hello" (mk_exn Exception_ "Anthropic Error: connection refused")
       eq_refl eq_refl).
Defined.

End LlmFacts.

(** ** Batch parsing *)

Section ParseFacts.

Import DocProc.

Variable llama_parse : string -> node -> result (list parsed_doc).

Lemma log_calls_nil (w : world) : log_calls [] w = w.
Proof. destruct w. unfold log_calls. cbn. by rewrite app_nil_r. Qed.

Lemma log_calls_cons (p : string) (rest : list string) (w : world) :
  log_calls rest (log_calls [p] w) = log_calls (p :: rest) w.
Proof. unfold log_calls. cbn. by rewrite <- app_assoc. Qed.

(** One turn of the loop: the call is logged, its sections are added
    when it succeeds, and nothing is raised. *)
Lemma parse_turn (path : string) (documents : list parsed_doc) (w : world) :
  try_exceptM
    (parsed_docs <~ aload_data llama_parse path ;;
     ret (if nonempty parsed_docs then documents ++ parsed_docs
          else documents))
    (fun _ => ret documents) w
  = (log_calls [path] w,
     Ok (documents ++ file_sections llama_parse (files w) path)).
Proof.
  unfold try_exceptM, bindM, aload_data, file_sections, ret.
  destruct (files w !! path) as [n|]; cbn.
  - destruct (llama_parse path n) as [docs|e]; cbn.
    + destruct docs; cbn; [by rewrite app_nil_r|done].
    + by rewrite app_nil_r.
  - by rewrite app_nil_r.
Qed.

Lemma parse_loop_spec (paths : list string) :
  forall (documents : list parsed_doc) (w : world),
    parse_loop llama_parse paths documents w
    = (log_calls paths w,
       Ok (documents ++ flat_map (file_sections llama_parse (files w)) paths)).
Proof.
  induction paths as [|path rest IH]; intros documents w.
  - cbn. unfold ret. by rewrite log_calls_nil, app_nil_r.
  - cbn [parse_loop]. unfold bindM at 1. rewrite parse_turn.
    rewrite IH, log_calls_cons. cbn. by rewrite <- app_assoc.
Qed.

(** C8.  With an empty list of paths [parse_document] raises a
    [DocumentProcessingError] and the world, with its log of calls to the
    parsing service, is what it was: no outbound call was made. *)
Theorem parse_document_rejects_empty_list (w : world) :
  parse_document llama_parse [] w
  = (w, Raise (DPE "File paths are required"))
  /\ parse_log (fst (parse_document llama_parse [] w)) = parse_log w.
Proof. split; reflexivity. Qed.

Lemma parse_document_nonempty (paths : list string) (w : world) :
  paths <> [] ->
  parse_document llama_parse paths w
  = (log_calls paths w,
     Ok (flat_map (file_sections llama_parse (files w)) paths)).
Proof.
  intros Hne. unfold parse_document.
  destruct paths as [|p rest]; [done|]. cbn [nonempty].
  unfold try_exceptM, bindM. rewrite parse_loop_spec. cbn [app].
  by destruct (flat_map _ _).
Qed.

(** C9, as amended.  For a non-empty list of paths [parse_document] calls
    the service once per path, in order, and returns the sections of the
    files whose call succeeded, concatenated in the order of the list; a
    call that raises contributes nothing and the batch goes on, so that
    the function itself never raises on such a list.  These are not the
    only errors that are swallowed: [_extract_pdf_title] answers with no
    title whatever reading the metadata raises, and the removal of the
    temporary copy at the end of [process_document] returns normally
    where [os.unlink] raises. *)
Theorem parse_document_skips_failed_files (paths : list string) (w : world) :
  (paths <> [] ->
   parse_document llama_parse paths w
   = (log_calls paths w,
      Ok (flat_map (file_sections llama_parse (files w)) paths))
   /\ forall e, snd (parse_document llama_parse paths w) <> Raise e)
  /\ (forall (page : Type) (reader : PdfReader page) (e : exn),
        metadata reader = Raise e -> extract_pdf_title page reader = None)
  /\ (forall path,
        files w !! path = None ->
        is_ok (snd (unlink path w)) = false
        /\ App.unlink_quietly path w = w).
Proof.
  split; [|split].
  - intros Hne. rewrite (parse_document_nonempty paths w Hne).
    split; [reflexivity|]. intros e. discriminate.
  - intros page reader e Hmeta. unfold extract_pdf_title.
    by rewrite Hmeta.
  - intros path Hnone. unfold App.unlink_quietly, unlink.
    by rewrite Hnone.
Qed.

End ParseFacts.

Lemma parse_document_skips_failed_files_witness :
  DocProc.parse_document toy_llama_parse ["a.pdf"; "bad.pdf"; "c.pdf"] toy_world
  = (log_calls ["a.pdf"; "bad.pdf"; "c.pdf"] toy_world,
     Ok [section_of "a.pdf: A"; section_of "c.pdf: C"])
  /\ App.unlink_quietly "/tmp/tmpk3x9.pdf" toy_world = toy_world.
Proof.
  split.
  - refine (proj1 (proj1 (parse_document_skips_failed_files toy_llama_parse
                            ["a.pdf"; "bad.pdf"; "c.pdf"] toy_world) _)).
    discriminate.
  - exact (proj2 (proj2 (proj2
             (parse_document_skips_failed_files toy_llama_parse
                ["a.pdf"; "bad.pdf"; "c.pdf"] toy_world))
             "/tmp/tmpk3x9.pdf" eq_refl)).
Defined.

(** C9 as stated fails: the failures of single files in the batch are not
    the only errors swallowed.  Reading the metadata of this PDF raises;
    splitting it returns normally all the same, the file name taken as
    title, and the parsing service had no part in it. *)
Lemma metadata_error_is_swallowed :
  (exists reader,
      toy_PdfReader_new "%PDF broken info" = Ok reader
      /\ DocProc.metadata reader
         = Raise (mk_exn (OtherError "PdfReadError") "invalid trailer"))
  /\ is_ok
       (snd (snd (DocProc.split_document_pages string toy_PdfReader_new
                    toy_PdfWriter_write toy_llama_parse toy_processor
                    (toy_document "%PDF broken info" None) ready_world)))
     = true
  /\ DocProc.title
       (fst (DocProc.split_document_pages string toy_PdfReader_new
               toy_PdfWriter_write toy_llama_parse toy_processor
               (toy_document "%PDF broken info" None) ready_world))
     = Some "lease.pdf"
  /\ parse_log
       (fst (snd (DocProc.split_document_pages string toy_PdfReader_new
                    toy_PdfWriter_write toy_llama_parse toy_processor
                    (toy_document "%PDF broken info" None) ready_world)))
     = [].
Proof.
  split; [eexists; split; reflexivity|].
  repeat split; vm_compute; reflexivity.
Qed.

(** ** Splitting documents *)

Section PathFacts.

Lemma app_inv_tail_s (a b s : string) : a +:+ s = b +:+ s -> a = b.
Proof.
  revert b. induction a as [|x a IH]; intros [|y b] H.
  - reflexivity.
  - exfalso. apply (f_equal String.length) in H.
    rewrite !length_app_s in H. cbn in H. lia.
  - exfalso. apply (f_equal String.length) in H.
    rewrite !length_app_s in H. cbn in H. lia.
  - rewrite !app_cons_s in H. injection H as -> H. f_equal. by apply IH.
Qed.

Lemma path_join_relative (d : string) (c : ascii) (r : string) :
  c <> "/"%char -> path_join d (String c r) = stem d +:+ String c r.
Proof.
  intros Hc. unfold path_join, stem. cbn [String.prefix].
  destruct (ascii_dec "/" c) as [E|_]; [congruence|].
  destruct (truthy d && negb (endswith_slash d)); [|done].
  by rewrite app_assoc_s.
Qed.

Lemma page_file_eq (dir : string) (i : N) :
  page_file dir i = stem dir +:+ "page_" +:+ pretty i +:+ ".pdf".
Proof. unfold page_file. by apply path_join_relative. Qed.

Lemma page_file_inj (dir : string) (i j : N) :
  page_file dir i = page_file dir j -> i = j.
Proof.
  rewrite !page_file_eq. intros H.
  apply (inj (String.app _)) in H. apply (inj (String.app _)) in H.
  apply app_inv_tail_s in H. by apply (inj pretty) in H.
Qed.

End PathFacts.

Section SplitFacts.

Import DocProc.

Variable page : Type.
Variable PdfReader_new : string -> result (PdfReader page).
Variable PdfWriter_write : list page -> result string.
Variable llama_parse : string -> node -> result (list parsed_doc).

Lemma isdir_lookup (fs : gmap string node) (path : string) :
  isdir fs path = true -> fs !! path = Some DirNode.
Proof. unfold isdir. by destruct (fs !! path) as [[]|]. Qed.

(** The temporary directory is made when a name is left and the
    directory to make it in exists. *)
Lemma TemporaryDirectory_Ok (d : string) (w : world) (n : string)
  (rest : list string) :
  tmp_names w = n :: rest ->
  isdir (files w) d = true ->
  TemporaryDirectory d w
  = (set_files (insert (path_join d ("tmp" +:+ n)) DirNode)
       (mk_world (files w) (gettempdir w) rest (parse_log w) (llm_log w)),
     Ok (path_join d ("tmp" +:+ n))).
Proof.
  intros Htmp Hdir%isdir_lookup.
  unfold TemporaryDirectory, bindM, next_tmp_name. rewrite Htmp.
  cbn [files]. by rewrite Hdir.
Qed.

(** Otherwise it raises and nothing is written or logged. *)
Lemma TemporaryDirectory_cases (d : string) (w : world) :
  (exists n rest,
      tmp_names w = n :: rest /\ isdir (files w) d = true)
  \/ (exists w' e,
        TemporaryDirectory d w = (w', Raise e)
        /\ files w' = files w /\ parse_log w' = parse_log w
        /\ llm_log w' = llm_log w).
Proof.
  unfold TemporaryDirectory, bindM, next_tmp_name, isdir.
  destruct (tmp_names w) as [|n rest]; [right; eauto 10|].
  cbn [files]. destruct (files w !! d) as [[]|]; [left|right..]; eauto 10.
Qed.

Lemma splitting_failed_shape (r : world * result (list string * string)) :
  (exists v, snd (splitting_failed r) = Ok v)
  \/ (exists inner,
        snd (splitting_failed r)
        = Raise (DPE ("Document splitting failed: " +:+ inner))).
Proof. destruct r as [w [v|e]]; cbn; eauto. Qed.

Lemma split_document_pages_result (self : DocumentProcessor)
  (document : DocumentFile) (w : world) :
  exists r,
    snd (split_document_pages page PdfReader_new PdfWriter_write llama_parse
           self document w) = splitting_failed r.
Proof.
  unfold split_document_pages.
  destruct (TemporaryDirectory (temp_base_dir self) w) as [w1 [temp_dir|e]];
    [|eauto].
  destruct (doc_type document) as [[]|]; [|eauto..].
  destruct (split_pdf_pages _ _ _ _ _ _) as [d r]. eauto.
Qed.

(** C10.  [split_document_pages] returns normally or raises a
    [DocumentProcessingError] whose message starts with
    "Document splitting failed: ".  For a document whose type is no member
    of the enumeration, the error raised inside for the unsupported type is
    caught by the function's own handler and comes out inside that
    wrapper, once the temporary directory of the call has been made (in
    the processor's directory, which must exist). *)
Theorem split_document_pages_wraps_errors (self : DocumentProcessor)
  (document : DocumentFile) (w : world) :
  let outcome :=
    snd (snd (split_document_pages page PdfReader_new PdfWriter_write
                llama_parse self document w)) in
  ((exists v, outcome = Ok v)
   \/ (exists e, outcome = Raise e
                 /\ exn_cls e = DocumentProcessingError
                 /\ startswith (exn_msg e) "Document splitting failed: " = true))
  /\ (forall shown,
        doc_type document = Foreign shown ->
        tmp_names w <> [] ->
        isdir (files w) (temp_base_dir self) = true ->
        outcome
        = Raise (DPE ("Document splitting failed: "
                      +:+ "Unsupported document type: " +:+ shown))).
Proof.
  cbn zeta. split.
  - destruct (split_document_pages_result self document w) as [r ->].
    destruct (splitting_failed_shape r) as [[v ->]|[inner ->]]; [eauto|].
    right. eexists. split; [reflexivity|]. split; [reflexivity|].
    apply prefix_app_s.
  - intros shown Hty Htmp Hdir. unfold split_document_pages.
    destruct (tmp_names w) as [|n rest] eqn:Hnames; [done|].
    rewrite (TemporaryDirectory_Ok _ _ _ _ Hnames Hdir).
    by rewrite Hty.
Qed.

End SplitFacts.

Lemma split_document_pages_wraps_errors_witness :
  snd (snd (DocProc.split_document_pages string toy_PdfReader_new
              toy_PdfWriter_write toy_llama_parse toy_processor
              (DocProc.mk_document "data" "sheet.xlsx" (DocProc.Foreign "xlsx") None)
              ready_world))
  = Raise (DocProc.DPE
             "Document splitting failed: Unsupported document type: xlsx").
Proof.
  refine (proj2 (split_document_pages_wraps_errors string toy_PdfReader_new
                   toy_PdfWriter_write toy_llama_parse toy_processor
                   (DocProc.mk_document "data" "sheet.xlsx"
                      (DocProc.Foreign "xlsx") None)
                   ready_world) "xlsx" eq_refl _ eq_refl).
  discriminate.
Defined.

Section SplitPdfFacts.

Import DocProc.

Variable page : Type.
Variable PdfReader_new : string -> result (PdfReader page).
Variable PdfWriter_write : list page -> result string.
Variable llama_parse : string -> node -> result (list parsed_doc).

(** The loop writes page [i + k] of the numbering for the [k]-th page it
    is given and touches no other path. *)
Lemma write_pdf_pages_spec (dir : string) (ps : list page) :
  forall (i : N) (w : world),
    (forall p, p ∈ ps -> is_ok (PdfWriter_write [p]) = true) ->
    exists w' page_files,
      write_pdf_pages page PdfWriter_write dir i ps w = (w', Ok page_files)
      /\ length page_files = length ps
      /\ (forall k p,
            ps !! k = Some p ->
            page_files !! k = Some (page_file dir (i + N.of_nat k))
            /\ exists data,
                PdfWriter_write [p] = Ok data
                /\ files w' !! page_file dir (i + N.of_nat k)
                   = Some (BinaryFile data))
      /\ (forall q,
            (forall j, (i <= j)%N -> q <> page_file dir j) ->
            files w' !! q = files w !! q).
Proof.
  induction ps as [|p rest IH]; intros i w Hall.
  - exists w, []. split; [reflexivity|]. split; [reflexivity|].
    split; [|done]. intros k p Hk. by rewrite lookup_nil in Hk.
  - assert (is_ok (PdfWriter_write [p]) = true) as Hp
      by (apply Hall; left).
    destruct (PdfWriter_write [p]) as [data|] eqn:Hdata; [clear Hp|done].
    set (w1 := set_files (insert (page_file dir i) (BinaryFile data)) w).
    destruct (IH (N.succ i) w1) as (w' & pf & Hrun & Hlen & Hpages & Hrest).
    { intros q Hq. apply Hall. by right. }
    exists w', (page_file dir i :: pf).
    split; [|split; [|split]].
    + cbn [write_pdf_pages]. unfold bindM at 1, lift. rewrite Hdata.
      unfold bindM at 1, write_file. fold (page_file dir i). fold w1.
      unfold bindM. rewrite Hrun. reflexivity.
    + cbn. by rewrite Hlen.
    + intros [|k] q Hk.
      * cbn in Hk. injection Hk as <-. rewrite N.add_0_r.
        split; [reflexivity|]. exists data. split; [exact Hdata|].
        rewrite Hrest.
        -- subst w1. cbn. apply lookup_insert_eq.
        -- intros j Hj Heq. apply page_file_inj in Heq. lia.
      * cbn in Hk.
        replace (i + N.of_nat (S k))%N with (N.succ i + N.of_nat k)%N by lia.
        by apply Hpages.
    + intros q Hq. rewrite Hrest.
      * subst w1. cbn. apply lookup_insert_ne. intros Heq.
        by apply (Hq i); [lia|].
      * intros j Hj. apply Hq. lia.
Qed.

Lemma split_pdf_document_spec (self : DocumentProcessor)
  (document : DocumentFile) (w : world) (reader : PdfReader page)
  (n : string) (rest : list string) :
  doc_type document = Member PDF ->
  PdfReader_new (data_bytes document) = Ok reader ->
  (forall p, p ∈ pages reader -> is_ok (PdfWriter_write [p]) = true) ->
  tmp_names w = n :: rest ->
  isdir (files w) (temp_base_dir self) = true ->
  let temp_dir := path_join (temp_base_dir self) ("tmp" +:+ n) in
  exists w' page_files,
    split_document_pages page PdfReader_new PdfWriter_write llama_parse
      self document w
    = (retitled document reader, (w', Ok (page_files, temp_dir)))
    /\ length page_files = length (pages reader)
    /\ forall i p,
        pages reader !! i = Some p ->
        page_files !! i = Some (page_file temp_dir (N.of_nat (S i)))
        /\ exists data,
            PdfWriter_write [p] = Ok data
            /\ files w' !! page_file temp_dir (N.of_nat (S i))
               = Some (BinaryFile data).
Proof.
  intros Hty Hreader Hall Htmp Hdir temp_dir.
  unfold split_document_pages.
  rewrite (TemporaryDirectory_Ok _ _ _ _ Htmp Hdir). fold temp_dir.
  rewrite Hty. unfold split_pdf_pages. rewrite Hreader.
  match goal with
  | |- context [write_pdf_pages _ _ _ _ _] => idtac
  end.
  unfold bindM.
  match goal with
  | |- context [write_pdf_pages _ _ ?d ?i ?ps ?w0] =>
      destruct (write_pdf_pages_spec d ps i w0 Hall)
        as (w' & pf & Hrun & Hlen & Hpages & _)
  end.
  rewrite Hrun. exists w', pf. split; [reflexivity|]. split; [exact Hlen|].
  intros i p Hi.
  replace (N.of_nat (S i)) with (1 + N.of_nat i)%N by lia.
  by apply Hpages.
Qed.

(** C3.  For a PDF document that [PdfReader] opens and whose pages the
    writer accepts, and a processor whose directory exists,
    [split_document_pages] returns as many paths as the document has
    pages; the path at index [i] is [page_<i+1>.pdf] in the temporary
    directory made for this call, and the file there holds what a
    [PdfWriter] holding only the page at index [i] writes. *)
Theorem split_pdf_one_file_per_page (self : DocumentProcessor)
  (document : DocumentFile) (w : world) (reader : PdfReader page)
  (n : string) (rest : list string) :
  doc_type document = Member PDF ->
  PdfReader_new (data_bytes document) = Ok reader ->
  (forall p, p ∈ pages reader -> is_ok (PdfWriter_write [p]) = true) ->
  tmp_names w = n :: rest ->
  isdir (files w) (temp_base_dir self) = true ->
  let temp_dir := path_join (temp_base_dir self) ("tmp" +:+ n) in
  exists document' w' page_files,
    split_document_pages page PdfReader_new PdfWriter_write llama_parse
      self document w
    = (document', (w', Ok (page_files, temp_dir)))
    /\ length page_files = length (pages reader)
    /\ forall i p,
        pages reader !! i = Some p ->
        page_files !! i
        = Some (path_join temp_dir
                  ("page_" +:+ pretty (N.of_nat (S i)) +:+ ".pdf"))
        /\ exists data,
            PdfWriter_write [p] = Ok data
            /\ files w' !! path_join temp_dir
                             ("page_" +:+ pretty (N.of_nat (S i)) +:+ ".pdf")
               = Some (BinaryFile data).
Proof.
  intros Hty Hreader Hall Htmp Hdir temp_dir.
  destruct (split_pdf_document_spec self document w reader n rest
              Hty Hreader Hall Htmp Hdir) as (w' & pf & Hrun & Hlen & Hpages).
  exists (retitled document reader), w', pf. auto.
Qed.

(** C6, as amended.  When the document has no title of its own, splitting
    sets it to the title found in the metadata with surrounding white
    space removed, provided that is not empty; when the metadata cannot be
    read, is missing, has no title or only a blank one, the title becomes
    the file name.  A title the document already has is kept.  Reading the
    metadata never makes the splitting fail.  The processor's directory
    exists, so that the temporary directory of the call can be made. *)
Theorem split_pdf_title (self : DocumentProcessor)
  (document : DocumentFile) (w : world) (reader : PdfReader page)
  (n : string) (rest : list string) :
  doc_type document = Member PDF ->
  PdfReader_new (data_bytes document) = Ok reader ->
  (forall p, p ∈ pages reader -> is_ok (PdfWriter_write [p]) = true) ->
  tmp_names w = n :: rest ->
  isdir (files w) (temp_base_dir self) = true ->
  let run :=
    split_document_pages page PdfReader_new PdfWriter_write llama_parse
      self document w in
  is_ok (snd (snd run)) = true
  /\ title (fst run)
     = if truthy_opt (title document) then title document
       else
         match metadata reader with
         | Ok (Some info) =>
             match dict_get info "/Title" with
             | Some t =>
                 if truthy (strip t) then Some (strip t)
                 else Some (name document)
             | None => Some (name document)
             end
         | Ok None => Some (name document)
         | Raise _ => Some (name document)
         end.
Proof.
  intros Hty Hreader Hall Htmp Hdir run.
  destruct (split_pdf_document_spec self document w reader n rest
              Hty Hreader Hall Htmp Hdir) as (w' & pf & Hrun & _).
  subst run. rewrite Hrun. cbn [fst snd is_ok]. split; [reflexivity|].
  unfold retitled. destruct (truthy_opt (title document)); [reflexivity|].
  cbn [title set_title]. unfold extract_pdf_title.
  destruct (metadata reader) as [[info|]|e]; cbn; try reflexivity.
  destruct (dict_get info "/Title") as [t|]; cbn; [|reflexivity].
  destruct t as [|c t]; [reflexivity|].
  cbn [truthy]. cbn [or_else]. by destruct (truthy (strip (String c t))).
Qed.

End SplitPdfFacts.

Lemma split_pdf_one_file_per_page_witness :
  exists document' w' page_files,
    DocProc.split_document_pages string toy_PdfReader_new toy_PdfWriter_write
      toy_llama_parse toy_processor (toy_document "%PDF titled" None)
      ready_world
    = (document',
       (w', Ok (page_files, "/app/temp_files/2024-03-09/tmpk3x9")))
    /\ length page_files = 3%nat
    /\ forall i p,
        toy_pages !! i = Some p ->
        page_files !! i
        = Some (path_join "/app/temp_files/2024-03-09/tmpk3x9"
                  ("page_" +:+ pretty (N.of_nat (S i)) +:+ ".pdf"))
        /\ exists data,
            toy_PdfWriter_write [p] = Ok data
            /\ files w' !! path_join "/app/temp_files/2024-03-09/tmpk3x9"
                             ("page_" +:+ pretty (N.of_nat (S i)) +:+ ".pdf")
               = Some (BinaryFile data).
Proof.
  refine (split_pdf_one_file_per_page string toy_PdfReader_new
            toy_PdfWriter_write toy_llama_parse toy_processor
            (toy_document "%PDF titled" None) ready_world
            (DocProc.mk_reader (Ok (Some [("/Title", "Lease agreement")]))
               toy_pages)
            "k3x9" ["q7w2"] eq_refl eq_refl _ eq_refl eq_refl).
  intros p _. reflexivity.
Defined.

Lemma split_pdf_title_witness :
  DocProc.title
    (fst (DocProc.split_document_pages string toy_PdfReader_new
            toy_PdfWriter_write toy_llama_parse toy_processor
            (toy_document "%PDF padded title" None) ready_world))
  = Some "Lease".
Proof.
  refine (proj2 (split_pdf_title string toy_PdfReader_new
            toy_PdfWriter_write toy_llama_parse toy_processor
            (toy_document "%PDF padded title" None) ready_world
            (DocProc.mk_reader (Ok (Some [("/Title", " Lease ")])) toy_pages)
            "k3x9" ["q7w2"] eq_refl eq_refl _ eq_refl eq_refl)).
  intros p _. reflexivity.
Defined.

(** C6 as stated fails: a title that is present and not empty is not always
    the one assigned.  A blank title gives way to the file name, a padded
    one is trimmed, and a document that has a title keeps it. *)
Lemma embedded_title_not_always_assigned :
  DocProc.title
    (fst (DocProc.split_document_pages string toy_PdfReader_new
            toy_PdfWriter_write toy_llama_parse toy_processor
            (toy_document "%PDF blank title" None) ready_world))
  = Some "lease.pdf"
  /\ DocProc.title
       (fst (DocProc.split_document_pages string toy_PdfReader_new
               toy_PdfWriter_write toy_llama_parse toy_processor
               (toy_document "%PDF padded title" None) ready_world))
     <> Some " Lease "
  /\ DocProc.title
       (fst (DocProc.split_document_pages string toy_PdfReader_new
               toy_PdfWriter_write toy_llama_parse toy_processor
               (toy_document "%PDF titled" (Some "Draft")) ready_world))
     = Some "Draft".
Proof. repeat split; vm_compute; congruence. Qed.

(** ** The application *)

Section AppFacts.

Import Llm Prompts DocProc Assistant Datetime App.

Variable sdk : vendors.
Variable LlamaParse_new : string -> result unit.
Variable llama_parse : string -> node -> result (list parsed_doc).
Variable py_int : string -> result Z.
Variable getenv : string -> option string.
Variable here : string.

(** *** The chat history *)

Lemma render_chat_assistant_extends (self : StreamlitApp) (wd : widgets)
  (st : live_state) (w : world) :
  live_messages st
    `prefix_of` live_messages (fst (render_chat_assistant sdk self wd st w)).
Proof.
  unfold render_chat_assistant.
  destruct (chat_input wd) as [prompt|]; [|done].
  destruct (truthy prompt); [|done].
  destruct (assistant_get_response _ _ _ _ _) as [w' [response|e]]; cbn.
  - rewrite <- app_assoc. by apply prefix_app_r.
  - by apply prefix_app_r.
Qed.

Lemma process_uploaded_file_keeps_messages
  (uploaded_file : option (string * string)) (st : live_state) (w : world) :
  live_messages (snd (fst (process_uploaded_file llama_parse uploaded_file st w)))
  = live_messages st.
Proof.
  unfold process_uploaded_file.
  destruct uploaded_file as [[file_name file_content]|]; [|done].
  by destruct (process_document _ _ _ _) as [w' [doc|e]].
Qed.

Lemma render_contract_analyzer_keeps_messages (self : StreamlitApp)
  (wd : widgets) (st : live_state) (w : world) :
  live_messages (fst (render_contract_analyzer sdk llama_parse self wd st w))
  = live_messages st.
Proof.
  unfold render_contract_analyzer.
  destruct (input_method wd).
  - destruct (file_uploader wd) as [f|].
    + pose proof (process_uploaded_file_keeps_messages (Some f) st w) as H.
      destruct (process_uploaded_file _ _ _ _) as [[t st1] w1].
      cbn in H. destruct t as [t|]; [|done].
      by destruct (truthy t && analyze_button wd).
    + done.
  - by destruct (truthy (text_input wd) && analyze_button wd).
Qed.

(** The sidebar empties the chat only in a run in which both the
    "Clear Chat" and the "Confirm Clear" button report a click. *)
Lemma render_sidebar_clears_only_on_two_clicks (wd : widgets)
  (st : live_state) :
  live_messages (fst (render_sidebar wd st)) <> live_messages st ->
  clear_chat_button wd = true /\ confirm_clear_button wd = true.
Proof.
  unfold render_sidebar.
  destruct (nonempty (live_messages st)); [|done].
  destruct (clear_chat_button wd); [|done].
  by destruct (confirm_clear_button wd).
Qed.

(** When both buttons report a click in one run, the chat is emptied. *)
Lemma render_sidebar_two_clicks (wd : widgets) (st : live_state) :
  live_messages st <> [] ->
  clear_chat_button wd = true -> confirm_clear_button wd = true ->
  live_messages (fst (render_sidebar wd st)) = [].
Proof.
  intros Hne Hc Hk. unfold render_sidebar. rewrite Hc, Hk.
  by destruct (live_messages st).
Qed.

(** A browser that starts a run for each widget event never makes both
    buttons report a click in one run. *)
Lemma one_trigger_not_both (wd : widgets) :
  one_trigger wd = true -> clears wd = false.
Proof.
  unfold one_trigger, triggers, clears.
  destruct (truthy_opt (chat_input wd)), (analyze_button wd),
    (clear_chat_button wd), (confirm_clear_button wd); cbn; intros H;
    first [discriminate H | reflexivity].
Qed.

Lemma render_sidebar_messages (wd : widgets) (st : live_state) :
  live_messages (fst (render_sidebar wd st))
  = if clears wd then [] else live_messages st.
Proof.
  unfold render_sidebar, clears.
  destruct (live_messages st) as [|m l] eqn:Hl; cbn [nonempty].
  - by destruct (clear_chat_button wd && confirm_clear_button wd).
  - destruct (clear_chat_button wd); [|done].
    by destruct (confirm_clear_button wd).
Qed.

Lemma main_messages (self : StreamlitApp) (wd : widgets) (st : live_state)
  (w : world) :
  let after := live_messages (fst (main sdk llama_parse self wd st w)) in
  (clears wd = true -> after = [])
  /\ (clears wd = false -> live_messages st `prefix_of` after).
Proof.
  cbn zeta. unfold main.
  pose proof (render_chat_assistant_extends self wd st w) as Hchat.
  destruct (render_chat_assistant _ _ _ _ _) as [st1 w1].
  pose proof (render_contract_analyzer_keeps_messages self wd st1 w1) as Han.
  destruct (render_contract_analyzer _ _ _ _ _ _) as [st2 w2].
  pose proof (render_sidebar_messages wd st2) as Hside.
  destruct (render_sidebar wd st2) as [st3 rerun].
  cbn [fst] in *. rewrite Hside.
  split; intros ->; [done|]. by rewrite Han.
Qed.

Lemma script_history (now : datetime) (wd : widgets) (ss : session_state)
  (w : world) :
  let run :=
    script sdk LlamaParse_new llama_parse py_int getenv here now wd ss w in
  (clears wd = false \/ is_ok (snd run) = false ->
   history ss `prefix_of` history (fst (fst run)))
  /\ (clears wd = true -> is_ok (snd run) = true ->
      history (fst (fst run)) = []).
Proof.
  cbn zeta. unfold script.
  destruct (StreamlitApp_init _ _ _ _ _ _ _) as [w1 [app|e]];
    [|by split].
  destruct (main_messages app wd (initialize_session_state ss) w1)
    as [Hclear Hkeep].
  destruct (main _ _ _ _ _ _) as [st' w2]. cbn [fst snd is_ok] in *.
  split.
  - intros [Hno|Hbad]; [by apply Hkeep|done].
  - intros Hyes _. by apply Hclear.
Qed.

(** C5, as amended.  A run of the application does one of two things to
    the chat history.  When the two buttons of the sidebar, "Clear Chat"
    and "Confirm Clear", both report a click in the run (and the
    application could be constructed), the history is replaced by the
    empty list.  In every other run the history before is a prefix of the
    history after: nothing is removed or replaced, messages are only
    added at the end.  So over any sequence of runs none of which has
    both clicks, the history only grows at its end. *)
Theorem chat_history_append_only_but_for_clear :
  (forall (now : datetime) (wd : widgets) (ss : session_state) (w : world),
      let run :=
        script sdk LlamaParse_new llama_parse py_int getenv here now wd ss w
      in
      (clears wd = false \/ is_ok (snd run) = false ->
       history ss `prefix_of` history (fst (fst run)))
      /\ (clears wd = true -> is_ok (snd run) = true ->
          history (fst (fst run)) = []))
  /\ (forall (runs : list (datetime * widgets)) (ss : session_state)
        (w : world),
        Forall (fun run => clears (snd run) = false) runs ->
        history ss
          `prefix_of`
          history (fst (session sdk LlamaParse_new llama_parse py_int getenv
                          here runs ss w))).
Proof.
  split; [apply script_history|].
  intros runs ss w Hruns. revert ss w.
  induction Hruns as [|[now wd] rest H1 _ IH]; intros ss w; [done|].
  cbn [session].
  pose proof (proj1 (script_history now wd ss w) (or_introl H1)) as Hstep.
  destruct (script _ _ _ _ _ _ _ _ _ _) as [[ss' w'] r]. cbn in Hstep.
  etrans; [exact Hstep|apply IH].
Qed.

End AppFacts.

Lemma chat_history_append_only_but_for_clear_witness :
  greeting
    `prefix_of`
    App.history
      (fst (App.session Llm.strict_vendors (fun _ => Ok tt) toy_llama_parse
              toy_py_int toy_getenv "/app/services"
              [(toy_now, ask "May my landlord raise the rent?");
               (toy_now, click_clear); (toy_now, click_confirm)]
              chatted toy_world)).
Proof.
  apply (proj2 (chat_history_append_only_but_for_clear Llm.strict_vendors
                  (fun _ => Ok tt) toy_llama_parse toy_py_int toy_getenv
                  "/app/services")
           [(toy_now, ask "May my landlord raise the rent?");
            (toy_now, click_clear); (toy_now, click_confirm)]
           chatted toy_world).
  repeat constructor.
Defined.

(** C5 as stated fails: a run in which both buttons report a click
    removes every message of a chat that held two. *)
Lemma both_clicks_empty_the_chat :
  App.history chatted = greeting
  /\ App.history
       (fst (fst (App.script Llm.strict_vendors (fun _ => Ok tt)
                    toy_llama_parse toy_py_int toy_getenv "/app/services"
                    toy_now click_both chatted toy_world)))
     = []
  /\ ~ App.history chatted
       `prefix_of`
       App.history
         (fst (fst (App.script Llm.strict_vendors (fun _ => Ok tt)
                      toy_llama_parse toy_py_int toy_getenv "/app/services"
                      toy_now click_both chatted toy_world))).
Proof.
  split; [reflexivity|]. split; [vm_compute; reflexivity|].
  intros [more Hmore]. vm_compute in Hmore. discriminate Hmore.
Qed.

(** Clicks on the two buttons in two runs, one after the other, leave the
    chat as it is: a session of new state ends with both messages of the
    exchange. *)
Example chat_survives_clear_clicks :
  App.history
    (fst (App.session Llm.strict_vendors (fun _ => Ok tt) toy_llama_parse
            toy_py_int toy_getenv "/app/services"
            [(toy_now, ask "May my landlord raise the rent?");
             (toy_now, click_clear); (toy_now, click_confirm)]
            App.new_session toy_world))
  = [App.mk_message "user" "May my landlord raise the rent?";
     App.mk_message "assistant" "answer"].
Proof. vm_compute. reflexivity. Qed.

(** *** Uploading a contract and analysing it *)

Section AnalysisFacts.

Import Llm Prompts DocProc Assistant Datetime App.

Variable sdk : vendors.
Variable llama_parse : string -> node -> result (list parsed_doc).

Lemma collect_contents_all_kept (sections : list parsed_doc) :
  Forall (fun s => truthy (strip (doc_content s)) = true) sections ->
  collect_contents sections = map (fun s => strip (doc_content s)) sections.
Proof.
  induction 1 as [|s rest Hs _ IH]; [done|]. cbn.
  destruct (doc_content s) as [|c t] eqn:Hc; [done|].
  cbn [truthy andb]. rewrite Hs. by rewrite IH.
Qed.

(** [process_document] on an upload the service answers with sections of
    which one at least is not blank. *)
Lemma process_document_spec (file_content file_name : string) (w : world)
  (n : string) (rest : list string) (sections : list parsed_doc) :
  tmp_names w = n :: rest ->
  let temp_path :=
    path_join (gettempdir w) ("tmp" +:+ n +:+ splitext_ext file_name) in
  llama_parse temp_path (BinaryFile file_content) = Ok sections ->
  collect_contents sections <> [] ->
  process_document llama_parse file_content file_name w
  = (processed_world w temp_path file_content,
     Ok (mk_processed
           (join (newline +:+ newline) (collect_contents sections))
           file_name
           (length (collect_contents sections))
           (if endswith (lower file_name) ".pdf"
            then DocumentType_value PDF else DocumentType_value WORD))).
Proof.
  intros Htmp temp_path Hparse Hcontents.
  unfold process_document, try_exceptM, bindM at 1, NamedTemporaryFile.
  unfold bindM at 1, next_tmp_name. rewrite Htmp. cbn [gettempdir].
  fold temp_path. unfold try_finallyM, bindM.
  rewrite parse_document_nonempty by done.
  cbn [flat_map]. unfold file_sections. cbn [files set_files].
  rewrite lookup_insert_eq, Hparse, app_nil_r.
  assert (sections <> []) as Hsec by (intros ->; by apply Hcontents).
  destruct sections as [|s0 srest]; [done|]. cbn [nonempty].
  destruct (collect_contents (s0 :: srest)) as [|c0 crest] eqn:Hc; [done|].
  cbn [nonempty]. unfold ret, unlink_quietly, unlink, log_calls.
  cbn [files set_files gettempdir tmp_names parse_log llm_log].
  rewrite lookup_insert_eq. cbn [fst].
  unfold processed_world, set_files. rewrite Htmp. reflexivity.
Qed.

End AnalysisFacts.

(** ** Cleaning up old temporary directories *)

Section TreeFacts.

Lemma prefix_iff (a b : string) :
  String.prefix a b = true <-> exists r, b = a +:+ r.
Proof.
  revert b. induction a as [|x a IH]; intros b.
  - split; [intros _; by exists b|]. intros _. by destruct b.
  - destruct b as [|y b]; cbn.
    + split; [done|]. intros [r Hr]. by rewrite app_cons_s in Hr.
    + destruct (ascii_dec x y) as [->|Hxy].
      * rewrite IH. split; intros [r Hr]; exists r.
        -- by rewrite app_cons_s, Hr.
        -- rewrite app_cons_s in Hr. by injection Hr.
      * split; [done|]. intros [r Hr]. rewrite app_cons_s in Hr.
        injection Hr as ??. congruence.
Qed.

Lemma inside_iff (p key : string) :
  inside p key = true <-> key = p \/ exists r, key = p +:+ "/" +:+ r.
Proof.
  unfold inside. rewrite orb_true_iff, String.eqb_eq, prefix_iff.
  split; intros [H|[r Hr]]; auto; right; exists r.
  - by rewrite <- app_assoc_s.
  - by rewrite app_assoc_s.
Qed.

Lemma inside_trans (p q key : string) :
  inside p q = true -> inside q key = true -> inside p key = true.
Proof.
  rewrite !inside_iff. intros [->|[r ->]] [->|[r' ->]]; eauto.
  right. exists (r +:+ "/" +:+ r'). by rewrite !app_assoc_s.
Qed.

Lemma rmtree_lookup (p key : string) (fs : gmap string node) :
  rmtree p fs !! key = if inside p key then None else fs !! key.
Proof.
  unfold rmtree. destruct (inside p key) eqn:Hin.
  - apply map_lookup_filter_None. right. intros n _. cbn. congruence.
  - destruct (fs !! key) as [n|] eqn:Hk.
    + by apply map_lookup_filter_Some.
    + apply map_lookup_filter_None. by left.
Qed.

Lemma drop_prefix_Some (p s r : string) :
  drop_prefix p s = Some r -> s = p +:+ r.
Proof.
  revert s. induction p as [|a p IH]; intros s H; [by injection H as ->|].
  destruct s as [|b s]; [done|]. cbn in H.
  destruct (Ascii.eqb_spec a b) as [->|]; [|done].
  rewrite app_cons_s. f_equal. by apply IH.
Qed.

Lemma entry_name_Some (d key n : string) :
  entry_name d key = Some n ->
  key = stem d +:+ n /\ truthy n = true /\ slash_free n = true.
Proof.
  unfold entry_name. fold (stem d).
  destruct (drop_prefix (stem d) key) as [r|] eqn:Hr; [|done].
  destruct (truthy r && slash_free r) eqn:Hok; [|done].
  intros [= ->]. apply andb_prop in Hok as [??].
  by apply drop_prefix_Some in Hr.
Qed.

Lemma listdir_names (fs : gmap string node) (d item : string) :
  item ∈ listdir fs d -> truthy item = true /\ slash_free item = true.
Proof.
  unfold listdir. rewrite list_elem_of_omap. intros ([key n] & _ & H).
  by apply entry_name_Some in H as (_ & ? & ?).
Qed.

Lemma path_join_entry (d item : string) :
  truthy item = true -> slash_free item = true ->
  path_join d item = stem d +:+ item.
Proof.
  intros Ht Hs. destruct item as [|c r]; [done|].
  apply path_join_relative. cbn in Hs.
  destruct (Ascii.eqb_spec c "/"); [done|done].
Qed.

(** Two names without a slash that lead to the same path are equal. *)
Lemma slash_free_split (a b x y : string) :
  slash_free a = true -> slash_free b = true ->
  (x = EmptyString \/ exists r, x = "/" +:+ r) ->
  (y = EmptyString \/ exists r, y = "/" +:+ r) ->
  a +:+ x = b +:+ y -> a = b.
Proof.
  revert b. induction a as [|c a IH]; intros [|c' b] Ha Hb Hx Hy H.
  - done.
  - exfalso. change (EmptyString +:+ x) with x in H. rewrite app_cons_s in H.
    cbn in Hb. destruct Hx as [->|[r ->]]; [done|].
    injection H as <- _. done.
  - exfalso. change (EmptyString +:+ y) with y in H. rewrite app_cons_s in H.
    cbn in Ha. destruct Hy as [->|[r ->]]; [done|].
    injection H as -> _. done.
  - rewrite !app_cons_s in H. injection H as -> H.
    cbn in Ha, Hb. apply andb_prop in Ha as [_ Ha], Hb as [_ Hb].
    f_equal. by apply IH.
Qed.

Lemma inside_tail (s a key : string) :
  inside (s +:+ a) key = true ->
  exists x, key = s +:+ a +:+ x /\ (x = EmptyString \/ exists r, x = "/" +:+ r).
Proof.
  rewrite inside_iff. intros [->|[r ->]].
  - exists EmptyString. by rewrite app_nil_r_s; auto.
  - exists ("/" +:+ r). rewrite !app_assoc_s. eauto.
Qed.

Lemma one_parent (s a b key : string) :
  slash_free a = true -> slash_free b = true ->
  inside (s +:+ a) key = true -> inside (s +:+ b) key = true -> a = b.
Proof.
  intros Ha Hb (x & -> & Hx)%inside_tail (y & Hy & Hy')%inside_tail.
  apply (inj (String.app s)) in Hy. by apply (slash_free_split a b x y).
Qed.

End TreeFacts.

Section DatetimeFacts.

Import Datetime DocProc.

Lemma digit_bounds (c : ascii) (v : Z) : digit c = Some v -> 0 <= v <= 9.
Proof.
  unfold digit, is_digit. destruct (_ && _) eqn:H; [|done].
  intros [= <-]. apply andb_prop in H as [H1 H2].
  apply Nat.leb_le in H1, H2. lia.
Qed.

Lemma in_range_bounds (lo hi : Z) (c : ascii) (v : Z) :
  in_range lo hi c = Some v -> lo <= v <= hi.
Proof.
  unfold in_range. destruct (digit c) as [x|]; [|done].
  destruct (_ && _) eqn:H; [|done]. intros [= <-].
  apply andb_prop in H as [H1 H2]. lia.
Qed.

Lemma one_bounds (lo hi v : Z) (s r : string) :
  (v, r) ∈ one lo hi s -> lo <= v.
Proof.
  unfold one. destruct s as [|a s]; [by intros ?%elem_of_nil|].
  destruct (in_range lo hi a) as [x|] eqn:Hx; [|by intros ?%elem_of_nil].
  intros [= -> ->]%list_elem_of_singleton.
  by apply in_range_bounds in Hx as [??].
Qed.

Lemma blank_one_bounds (lo hi v : Z) (s r : string) :
  (v, r) ∈ blank_one lo hi s -> lo <= v.
Proof.
  unfold blank_one. destruct s as [|a s]; [by intros ?%elem_of_nil|].
  destruct (Ascii.eqb a " "); [|by intros ?%elem_of_nil].
  apply one_bounds.
Qed.

Lemma two_bounds (lo1 hi1 lo2 hi2 v : Z) (s r : string) :
  (v, r) ∈ two lo1 hi1 lo2 hi2 s -> 10 * lo1 + lo2 <= v.
Proof.
  unfold two. destruct s as [|a [|b s]]; try by intros ?%elem_of_nil.
  destruct (in_range lo1 hi1 a) as [x|] eqn:Hx; [|by intros ?%elem_of_nil].
  destruct (in_range lo2 hi2 b) as [y|] eqn:Hy; [|by intros ?%elem_of_nil].
  intros [= -> ->]%list_elem_of_singleton.
  apply in_range_bounds in Hx, Hy. lia.
Qed.

Lemma year_group_bounds (v : Z) (s r : string) :
  (v, r) ∈ year_group s -> 0 <= v.
Proof.
  unfold year_group.
  destruct s as [|a [|b [|c [|d s]]]]; try by intros ?%elem_of_nil.
  destruct (digit a) as [x|] eqn:Hx; [|by intros ?%elem_of_nil].
  destruct (digit b) as [y|] eqn:Hy; [|by intros ?%elem_of_nil].
  destruct (digit c) as [z|] eqn:Hz; [|by intros ?%elem_of_nil].
  destruct (digit d) as [t|] eqn:Ht; [|by intros ?%elem_of_nil].
  intros [= -> ->]%list_elem_of_singleton.
  apply digit_bounds in Hx, Hy, Hz, Ht. lia.
Qed.

Lemma day_group_bounds (v : Z) (s r : string) :
  (v, r) ∈ day_group s -> 1 <= v.
Proof.
  unfold day_group. rewrite !elem_of_app.
  intros [H|[H|[H|[H|H]]]].
  - apply two_bounds in H. lia.
  - apply two_bounds in H. lia.
  - apply two_bounds in H. lia.
  - by apply one_bounds in H.
  - by apply blank_one_bounds in H.
Qed.

Lemma regex_matches_bounds (s rest : string) (y m d : Z) :
  (y, m, d, rest) ∈ regex_matches s -> 0 <= y /\ 1 <= d.
Proof.
  unfold regex_matches.
  intros ([y' r1] & H & Hy)%list_elem_of_bind.
  apply list_elem_of_bind in H as (r2 & H & _).
  apply list_elem_of_bind in H as ([m' r3] & H & _).
  apply list_elem_of_bind in H as (r4 & H & _).
  apply list_elem_of_bind in H as ([d' r5] & H & Hd).
  apply list_elem_of_singleton in H as [= -> -> -> ->].
  apply year_group_bounds in Hy. apply day_group_bounds in Hd. done.
Qed.

Lemma strptime_raises_ValueError (s : string) (e : exn) :
  strptime s = Raise e -> is_ValueError e = true.
Proof.
  unfold strptime. destruct (regex_matches s) as [|[[[y m] d] rest] ?].
  - by intros [= <-].
  - destruct (truthy rest); [by intros [= <-]|].
    destruct (y =? 0); [by intros [= <-]|].
    destruct (days_in_month y m <? d); [by intros [= <-]|done].
Qed.

Lemma nth_nonneg (n : nat) (l : list Z) :
  Forall (fun x => 0 <= x) l -> 0 <= nth n l 0.
Proof.
  intros H. revert n. induction H as [|x l Hx _ IH]; intros [|n]; cbn; auto.
  all: lia.
Qed.

Lemma days_before_year_nonneg (y : Z) : 1 <= y -> 0 <= days_before_year y.
Proof. intros Hy. unfold days_before_year. Z.div_mod_to_equations. lia. Qed.

Lemma days_before_month_nonneg (y m : Z) : 0 <= days_before_month y m.
Proof.
  unfold days_before_month.
  assert (0 <= nth (Z.to_nat m)
                 [0; 0; 31; 59; 90; 120; 151; 181; 212; 243; 273; 304; 334] 0)
    by (apply nth_nonneg; repeat constructor; lia).
  destruct (_ && _); lia.
Qed.

(** A day read by [strptime] is a midnight on or after 0001-01-01. *)
Lemma strptime_Ok (s : string) (d : datetime) :
  strptime s = Ok d -> time_of_day d = 0 /\ 1 <= toordinal d.
Proof.
  unfold strptime.
  destruct (regex_matches s) as [|[[[y m] dd] rest] l] eqn:Hm; [done|].
  destruct (truthy rest); [done|].
  destruct (y =? 0) eqn:Hy; [done|].
  destruct (days_in_month y m <? dd); [done|].
  intros [= <-]. split; [reflexivity|].
  assert ((y, m, dd, rest) ∈ regex_matches s) as Hin
    by (rewrite Hm; left).
  apply regex_matches_bounds in Hin as [H0 H1].
  apply Z.eqb_neq in Hy. unfold toordinal. cbn [year month day].
  pose proof (days_before_year_nonneg y). pose proof (days_before_month_nonneg y m).
  lia.
Qed.

Lemma valid_datetime_time (d : datetime) :
  valid_datetime d = true -> 0 <= time_of_day d < us_per_day.
Proof.
  unfold valid_datetime, time_of_day, us_per_day. intros H.
  repeat (apply andb_prop in H as [H ?]). lia.
Qed.

Ltac eval_to_nat :=
  repeat match goal with
    | |- context [Z.to_nat ?k] =>
        let v := eval vm_compute in (Z.to_nat k) in
        change (Z.to_nat k) with v
    end.

Lemma month_day_bound (y m d : Z) :
  1 <= m <= 12 -> d <= days_in_month y m ->
  days_before_month y m + d <= if is_leap y then 366 else 365.
Proof.
  intros Hm. unfold days_in_month, days_before_month.
  assert (m = 1 \/ m = 2 \/ m = 3 \/ m = 4 \/ m = 5 \/ m = 6 \/ m = 7
          \/ m = 8 \/ m = 9 \/ m = 10 \/ m = 11 \/ m = 12) as Hcase by lia.
  destruct Hcase as [->|[->|[->|[->|[->|[->|[->|[->|[->|[->|[->| ->]]]]]]]]]]];
    eval_to_nat; cbn; destruct (is_leap y); cbn; lia.
Qed.

Lemma days_before_year_le (y : Z) :
  1 <= y <= 9998 -> days_before_year y <= 3651428.
Proof. intros Hy. unfold days_before_year. Z.div_mod_to_equations. lia. Qed.

Lemma valid_datetime_ordinal (d : datetime) :
  valid_datetime d = true -> 1 <= toordinal d <= MAXORDINAL.
Proof.
  destruct d as [y m dd h mi s us].
  unfold valid_datetime, toordinal, MAXORDINAL. cbn [year month day hour minute second microsecond].
  intros H. repeat (apply andb_prop in H as [H ?]).
  assert (1 <= y <= 9999) as Hy by lia.
  assert (1 <= m <= 12) as Hm by lia.
  assert (1 <= dd <= days_in_month y m) as Hd by lia.
  clear - Hy Hm Hd.
  pose proof (days_before_year_nonneg y (proj1 Hy)).
  pose proof (days_before_month_nonneg y m).
  pose proof (month_day_bound y m dd Hm (proj2 Hd)) as Hb.
  split; [lia|].
  assert (y <= 9998 \/ y = 9999) as [Hle| ->] by lia.
  - pose proof (days_before_year_le y (conj (proj1 Hy) Hle)).
    destruct (is_leap y); lia.
  - change (days_before_month 9999 m + dd <= 365) in Hb.
    change (days_before_year 9999) with 3651694. lia.
Qed.

End DatetimeFacts.

Section CleanupFacts.

Import Datetime DocProc.

Variable here : string.

Lemma removes_after_rmtree (cutoff : instant) (fs : gmap string node)
  (p key : string) (items : list string) :
  inside p key = false ->
  removes (temp_root here) cutoff (rmtree p fs) items key
  = removes (temp_root here) cutoff fs items key.
Proof.
  intros Hout. unfold removes. induction items as [|item rest IH]; [done|].
  cbn [existsb]. rewrite IH. f_equal.
  destruct (inside (path_join (temp_root here) item) key) eqn:Hin;
    [|by rewrite !andb_false_r].
  rewrite !andb_true_r. unfold doomed, isdir. rewrite rmtree_lookup.
  destruct (inside p (path_join (temp_root here) item)) eqn:Hp; [|done].
  by rewrite (inside_trans _ _ _ Hp Hin) in Hout.
Qed.

(** The loop ends normally and removes the paths inside the doomed
    entries, nothing else. *)
Lemma cleanup_loop_spec (cutoff : instant) (items : list string) :
  forall fs : gmap string node,
    snd (cleanup_loop here cutoff items fs) = Ok tt
    /\ forall key,
        fst (cleanup_loop here cutoff items fs) !! key
        = if removes (temp_root here) cutoff fs items key then None
          else fs !! key.
Proof.
  induction items as [|item rest IH]; intros fs; [done|].
  cbn [cleanup_loop]. unfold removes. cbn [existsb]. fold (removes (temp_root here) cutoff fs rest).
  unfold doomed at 1.
  destruct (isdir fs (path_join (temp_root here) item)
            && negb (String.eqb item ".gitkeep")); [|apply IH].
  destruct (strptime item) as [dir_date|e] eqn:Hparse.
  - destruct (instant_ltb (to_instant dir_date) cutoff); [|apply IH].
    destruct (IH (rmtree (path_join (temp_root here) item) fs)) as [Hr Hk].
    split; [exact Hr|]. intros key. rewrite Hk, rmtree_lookup.
    destruct (inside (path_join (temp_root here) item) key) eqn:Hin.
    + cbn. by destruct (removes _ _ _ _ _).
    + by rewrite removes_after_rmtree.
  - rewrite (strptime_raises_ValueError _ _ Hparse). apply IH.
Qed.

(** The comparison with the cutoff, on the time line. *)
Lemma before_cutoff (dir_date now : datetime) (days_to_keep : Z)
  (cutoff : instant) (s : string) :
  strptime s = Ok dir_date ->
  valid_datetime now = true ->
  minus_days now days_to_keep = Ok cutoff ->
  instant_ltb (to_instant dir_date) cutoff = true
  <-> timeline (to_instant dir_date)
      < timeline (to_instant now) - days_to_keep * us_per_day.
Proof.
  intros [Htime Hord]%strptime_Ok Hnow%valid_datetime_time.
  unfold minus_days. destruct (Z.abs days_to_keep >? 999999999); [done|].
  destruct (_ && _); [|done]. intros [= <-].
  unfold instant_ltb, timeline, to_instant. cbn [i_day i_us].
  rewrite Htime. unfold us_per_day in *.
  rewrite orb_true_iff, andb_true_iff, Z.ltb_lt, Z.eqb_eq, Z.ltb_lt. lia.
Qed.

Lemma nothing_before_failed_cutoff (dir_date now : datetime)
  (days_to_keep : Z) (e : exn) (s : string) :
  strptime s = Ok dir_date ->
  valid_datetime now = true ->
  0 <= days_to_keep ->
  minus_days now days_to_keep = Raise e ->
  ~ timeline (to_instant dir_date)
    < timeline (to_instant now) - days_to_keep * us_per_day.
Proof.
  intros [Htime Hord]%strptime_Ok Hnow Hdays.
  pose proof (valid_datetime_time now Hnow) as Ht.
  pose proof (valid_datetime_ordinal now Hnow) as Ho.
  unfold minus_days, MAXORDINAL in *.
  unfold timeline, to_instant. cbn [i_day i_us]. rewrite Htime.
  unfold us_per_day in *.
  destruct (Z.abs days_to_keep >? 999999999) eqn:Hbig.
  - intros _. apply Z.gtb_lt in Hbig. lia.
  - destruct (_ && _) eqn:Hrange; [done|]. intros _.
    apply andb_false_iff in Hrange as [H|H]; [apply Z.leb_gt in H|apply Z.leb_gt in H];
      lia.
Qed.

(** C7.  When [cleanup_old_files] runs on an existing temporary root,
    with a valid clock and a retention of zero or more days (seven when
    none is given), then for
    every entry of the root: if it is a directory whose name
    [strptime] reads as a day lying more than [days_to_keep] days before
    now, it is removed with everything below it; otherwise (a directory
    of a more recent day, a directory whose name is no date, or an entry
    that is no directory) it and everything below it are as before. *)
Theorem cleanup_removes_old_dated_directories (now : datetime)
  (days_arg : option Z) (w : world) (item : string) :
  let days_to_keep := default 7 days_arg in
  valid_datetime now = true ->
  0 <= days_to_keep ->
  isdir (files w) (temp_root here) = true ->
  item ∈ listdir (files w) (temp_root here) ->
  let item_path := path_join (temp_root here) item in
  let after := files (fst (cleanup_old_files here now days_arg w)) in
  let old :=
    isdir (files w) item_path = true
    /\ exists dir_date,
        strptime item = Ok dir_date
        /\ timeline (to_instant dir_date)
           < timeline (to_instant now) - days_to_keep * us_per_day in
  (old -> forall key, inside item_path key = true -> after !! key = None)
  /\ (~ old ->
      forall key, inside item_path key = true ->
                  after !! key = files w !! key).
Proof.
  intros days_to_keep Hnow Hdays Hroot Hitem item_path after old.
  pose proof (listdir_names _ _ _ Hitem) as [Htruthy Hfree].
  subst after. unfold cleanup_old_files. fold days_to_keep.
  destruct (minus_days now days_to_keep) as [cutoff|e] eqn:Hcut.
  - rewrite Hroot.
    destruct (cleanup_loop_spec cutoff (listdir (files w) (temp_root here))
                (files w)) as [_ Hk].
    destruct (cleanup_loop _ _ _ _) as [fs r]. cbn [fst snd files set_files] in *.
    assert (forall it, doomed (temp_root here) cutoff (files w) it = true
                       <-> isdir (files w) (path_join (temp_root here) it) = true
                           /\ exists dir_date,
                             strptime it = Ok dir_date
                             /\ timeline (to_instant dir_date)
                                < timeline (to_instant now)
                                  - days_to_keep * us_per_day) as Hdoomed.
    { intros it. unfold doomed. rewrite !andb_true_iff. split.
      - intros [[Hdir _] Hlt]. split; [exact Hdir|].
        destruct (strptime it) as [dd|] eqn:Hp; [|done].
        exists dd. split; [done|]. by apply (before_cutoff dd now days_to_keep cutoff it).
      - intros [Hdir (dd & Hp & Hlt)]. split; [split; [exact Hdir|]|].
        + destruct (String.eqb_spec it ".gitkeep") as [->|]; [|done].
          by vm_compute in Hp.
        + rewrite Hp. by apply (before_cutoff dd now days_to_keep cutoff it). }
    split.
    + intros Hold key Hin. rewrite Hk.
      replace (removes (temp_root here) cutoff (files w)
                 (listdir (files w) (temp_root here)) key) with true; [done|].
      symmetry. apply existsb_exists. exists item.
      split; [by apply list_elem_of_In|].
      apply andb_true_iff. split; [by apply Hdoomed|exact Hin].
    + intros Hnew key Hin. rewrite Hk.
      destruct (removes _ _ _ _ key) eqn:Hrem; [|done].
      exfalso. apply Hnew.
      apply existsb_exists in Hrem as (it & Hit%list_elem_of_In & Hboth).
      apply andb_true_iff in Hboth as [Hd Hin'].
      pose proof (listdir_names _ _ _ Hit) as [Htruthy' Hfree'].
      assert (it = item) as ->.
      { subst item_path.
        rewrite path_join_entry in Hin, Hin' by done.
        by apply (one_parent (stem (temp_root here)) it item key). }
      by apply Hdoomed.
  - cbn [fst files]. split; [|done].
    intros [_ (dd & Hp & Hlt)]. exfalso.
    by apply (nothing_before_failed_cutoff dd now days_to_keep e item).
Qed.

End CleanupFacts.

Lemma cleanup_removes_old_dated_directories_witness :
  files (fst (DocProc.cleanup_old_files "/app/services" toy_now None cleanup_world))
    !! "/app/services/../../temp_files/2024-03-01/tmpab/page_1.pdf"
  = None.
Proof.
  refine (proj1 (cleanup_removes_old_dated_directories "/app/services" toy_now
                   None cleanup_world "2024-03-01" eq_refl _ eq_refl _) _ _ _).
  - done.
  - apply list_elem_of_In. vm_compute. tauto.
  - split; [reflexivity|].
    exists (Datetime.mk_datetime 2024 3 1 0 0 0 0).
    split; [reflexivity|]. vm_compute. reflexivity.
  - reflexivity.
Defined.

(** What that sweep leaves behind. *)
Example cleanup_sweep :
  map fst
    (map_to_list
       (files (fst (DocProc.cleanup_old_files "/app/services" toy_now None
                      cleanup_world))))
  ≡ₚ ["/app/services/../../temp_files";
      "/app/services/../../temp_files/2024-03-09";
      "/app/services/../../temp_files/2024-03-09/tmpcd/page_1.pdf";
      "/app/services/../../temp_files/scratch";
      "/app/services/../../temp_files/.gitkeep";
      "/app/services/../../temp_files/2024-01-01"].
Proof. vm_compute. solve_Permutation. Qed.

(** ** The model on small inputs *)

Example format_inserts_values_unchanged :
  format "{a}{{b}}{c}" [("a", "{c}"); ("c", "}{")] = Ok "{c}{b}}{".
Proof. reflexivity. Qed.

Example format_missing_key :
  format "{x}" [("y", "1")] = Raise (mk_exn KeyError "'x'").
Proof. reflexivity. Qed.

Example strip_both_ends :
  strip (" " +:+ App.newline +:+ "a b " +:+ App.newline) = "a b".
Proof. reflexivity. Qed.

Example path_join_cases :
  path_join "/tmp/x" "page_1.pdf" = "/tmp/x/page_1.pdf"
  /\ path_join "/tmp/x/" "p" = "/tmp/x/p"
  /\ path_join "a" "/p" = "/p".
Proof. repeat split; reflexivity. Qed.

Example strptime_unpadded :
  Datetime.strptime "2024-3-9" = Ok (Datetime.mk_datetime 2024 3 9 0 0 0 0).
Proof. reflexivity. Qed.

Example strptime_not_a_day :
  is_ok (Datetime.strptime "2023-02-29") = false
  /\ is_ok (Datetime.strptime "2024-03-09x") = false
  /\ is_ok (Datetime.strptime ".gitkeep") = false.
Proof. repeat split; reflexivity. Qed.

Example toordinal_known_day :
  Datetime.toordinal (Datetime.mk_datetime 2024 1 1 0 0 0 0) = 738886.
Proof. reflexivity. Qed.

Example splitext_cases :
  map App.splitext_ext ["lease.pdf"; "a/b.c/d"; ".bashrc"; "x.tar.gz"]
  = [".pdf"; EmptyString; EmptyString; ".gz"].
Proof. reflexivity. Qed.
(** * Further properties *)

(** ** Reading a document *)

Section ReadFacts.

Import DocProc App DocRead.

(** X1.  [read_document_bytes] decides the type by the suffix of the
    path, letter case apart: [.pdf] gives PDF, [.docx] and [.doc] give
    Word, and the bytes returned are those of the file.  Every failure,
    the one for an unsupported suffix included, comes out as a
    [DocumentProcessingError] that starts with
    "Failed to read document file: ". *)
Theorem read_document_bytes_by_suffix (file_path : string) (w : world) :
  let supported :=
    endswith (lower file_path) ".pdf" || endswith (lower file_path) ".docx"
    || endswith (lower file_path) ".doc" in
  match read_document_bytes file_path w with
  | Ok (data, t) =>
      read_binary file_path w = Ok data
      /\ supported = true
      /\ t = (if endswith (lower file_path) ".pdf" then PDF else WORD)
  | Raise e =>
      exn_cls e = DocumentProcessingError
      /\ startswith (exn_msg e) "Failed to read document file: " = true
      /\ (is_ok (read_binary file_path w) = false
          \/ supported = false
             /\ exn_msg e
                = "Failed to read document file: "
                  +:+ "Unsupported file type: " +:+ file_path)
  end.
Proof.
  cbn zeta. unfold read_document_bytes, try_except, bind.
  destruct (read_binary file_path w) as [data|e]; cbn.
  - destruct (endswith (lower file_path) ".pdf"); cbn; [done|].
    destruct (endswith (lower file_path) ".docx"
              || endswith (lower file_path) ".doc"); cbn; [done|].
    split; [done|]. split; [apply prefix_app_s|]. right. done.
  - split; [done|]. split; [apply prefix_app_s|]. by left.
Qed.

End ReadFacts.

(** ** Processing an upload *)

Section ProcessFacts.

Import DocProc App.

Variable llama_parse : string -> node -> result (list parsed_doc).

(** What [process_document] does in a world that has a temporary name
    left: the world afterwards and the outcome. *)
Lemma process_document_full (file_content file_name : string) (w : world)
  (n : string) (rest : list string) :
  tmp_names w = n :: rest ->
  let temp_path :=
    path_join (gettempdir w) ("tmp" +:+ n +:+ splitext_ext file_name) in
  process_document llama_parse file_content file_name w
  = (processed_world w temp_path file_content,
     processing_outcome (llama_parse temp_path (BinaryFile file_content))
       file_name).
Proof.
  intros Htmp temp_path.
  unfold process_document, try_exceptM, bindM at 1, NamedTemporaryFile.
  unfold bindM at 1, next_tmp_name. rewrite Htmp. cbn [gettempdir].
  fold temp_path. unfold try_finallyM, bindM.
  rewrite parse_document_nonempty by done.
  cbn [flat_map]. unfold file_sections. cbn [files set_files].
  rewrite lookup_insert_eq, app_nil_r.
  assert (forall r : result ProcessedDocument,
            (unlink_quietly temp_path
               (log_calls [temp_path]
                  (set_files (insert temp_path (BinaryFile file_content))
                     (mk_world (files w) (gettempdir w) rest (parse_log w)
                        (llm_log w)))), r)
            = (processed_world w temp_path file_content, r)) as Hworld.
  { intros r. f_equal. unfold unlink_quietly, unlink, log_calls.
    cbn [files set_files gettempdir tmp_names parse_log llm_log].
    rewrite lookup_insert_eq. cbn [fst].
    unfold processed_world, set_files. by rewrite Htmp. }
  destruct (llama_parse temp_path (BinaryFile file_content))
    as [[|s0 srest]|e]; cbn [nonempty processing_outcome].
  - unfold raise. by rewrite Hworld.
  - destruct (collect_contents (s0 :: srest)) as [|c0 crest] eqn:Hc;
      cbn [nonempty]; unfold raise, ret; by rewrite Hworld.
  - unfold raise. by rewrite Hworld.
Qed.

(** X2.  [process_document] never leaves its temporary copy behind:
    whatever the service answers and whether the processing succeeds or
    fails, the file system afterwards is the one before without the
    temporary path, hence unchanged when that path was free; exactly one
    call to the service is made, for that path. *)
Theorem process_document_leaves_no_file (file_content file_name : string)
  (w : world) (n : string) (rest : list string) :
  tmp_names w = n :: rest ->
  let temp_path :=
    path_join (gettempdir w) ("tmp" +:+ n +:+ splitext_ext file_name) in
  let after := fst (process_document llama_parse file_content file_name w) in
  files after = delete temp_path (files w)
  /\ (files w !! temp_path = None -> files after = files w)
  /\ parse_log after = parse_log w ++ [temp_path]
  /\ llm_log after = llm_log w.
Proof.
  intros Htmp temp_path after. subst after.
  rewrite (process_document_full file_content file_name w n rest Htmp).
  fold temp_path. cbn [fst processed_world files parse_log llm_log].
  rewrite delete_insert_eq. repeat split. intros Hfree.
  by apply delete_id.
Qed.

(** X3.  The outcome of [process_document] depends on the answer of the
    service alone.  A call that fails and an empty answer are both
    reported as "No content extracted from document", the service's own
    message being lost; sections that are all blank are reported as
    "No valid content found in parsed documents"; otherwise the result
    holds the joined non-blank sections, their number as page count and
    the type "pdf" for a name ending in [.pdf], "docx" for any other. *)
Theorem process_document_outcome (file_content file_name : string)
  (w : world) (n : string) (rest : list string) :
  tmp_names w = n :: rest ->
  let temp_path :=
    path_join (gettempdir w) ("tmp" +:+ n +:+ splitext_ext file_name) in
  snd (process_document llama_parse file_content file_name w)
  = match llama_parse temp_path (BinaryFile file_content) with
    | Ok (s :: more) =>
        let contents := collect_contents (s :: more) in
        if nonempty contents then
          Ok (mk_processed (join (newline +:+ newline) contents) file_name
                (length contents)
                (if endswith (lower file_name) ".pdf" then "pdf" else "docx"))
        else
          Raise (DPE ("Failed to process document: "
                      +:+ "No valid content found in parsed documents"))
    | Ok [] | Raise _ =>
        Raise (DPE ("Failed to process document: "
                    +:+ "No content extracted from document"))
    end.
Proof.
  intros Htmp temp_path.
  by rewrite (process_document_full file_content file_name w n rest Htmp).
Qed.

End ProcessFacts.

Lemma process_document_leaves_no_file_witness :
  files (fst (App.process_document toy_llama_parse "%PDF" "lease.pdf"
                toy_world))
  = files toy_world.
Proof.
  refine (proj1 (proj2 (process_document_leaves_no_file toy_llama_parse
                          "%PDF" "lease.pdf" toy_world "k3x9" ["q7w2"]
                          eq_refl)) _).
  reflexivity.
Defined.

Lemma process_document_outcome_witness :
  snd (App.process_document blank_sections "%PDF" "lease.pdf" toy_world)
  = Raise (DocProc.DPE
             "Failed to process document: No valid content found in parsed documents").
Proof.
  exact (process_document_outcome blank_sections "%PDF" "lease.pdf" toy_world
           "k3x9" ["q7w2"] eq_refl).
Defined.

(** ** Splitting Word documents, and what splitting touches *)

Section WordFacts.

Import DocProc.

Variable page : Type.
Variable PdfReader_new : string -> result (PdfReader page).
Variable PdfWriter_write : list page -> result string.
Variable llama_parse : string -> node -> result (list parsed_doc).

Lemma word_page_file_eq (dir : string) (i : N) :
  word_page_file dir i = stem dir +:+ "page_" +:+ pretty i +:+ ".docx".
Proof. unfold word_page_file. by apply path_join_relative. Qed.

Lemma word_page_file_inj (dir : string) (i j : N) :
  word_page_file dir i = word_page_file dir j -> i = j.
Proof.
  rewrite !word_page_file_eq. intros H.
  apply (inj (String.app _)) in H. apply (inj (String.app _)) in H.
  apply app_inv_tail_s in H. by apply (inj pretty) in H.
Qed.

Lemma complete_is_no_page (dir : string) (i : N) :
  path_join dir "complete.docx" <> word_page_file dir i.
Proof.
  rewrite word_page_file_eq.
  rewrite (path_join_relative dir "c" "omplete.docx") by done.
  intros H. apply (inj (String.app _)) in H. discriminate H.
Qed.

Lemma write_word_pages_spec (dir : string) (sections : list parsed_doc) :
  forall (i : N) (w : world),
    exists w' page_files,
      write_word_pages dir i sections w = (w', Ok page_files)
      /\ length page_files = length sections
      /\ (forall k s,
            sections !! k = Some s ->
            page_files !! k = Some (word_page_file dir (i + N.of_nat k))
            /\ files w' !! word_page_file dir (i + N.of_nat k)
               = Some (TextFile (section_content s)))
      /\ (forall q,
            (forall j, (i <= j)%N -> q <> word_page_file dir j) ->
            files w' !! q = files w !! q)
      /\ parse_log w' = parse_log w.
Proof.
  induction sections as [|s rest IH]; intros i w.
  - exists w, []. split; [reflexivity|]. split; [reflexivity|].
    split; [|done]. intros k s Hk. by rewrite lookup_nil in Hk.
  - set (w1 := set_files (insert (word_page_file dir i)
                            (TextFile (section_content s))) w).
    destruct (IH (N.succ i) w1) as (w' & pf & Hrun & Hlen & Hpages & Hrest & Hlog).
    exists w', (word_page_file dir i :: pf).
    split; [|split; [|split; [|split]]].
    + cbn [write_word_pages]. unfold bindM at 1, write_file.
      fold (word_page_file dir i). fold w1. unfold bindM. by rewrite Hrun.
    + cbn. by rewrite Hlen.
    + intros [|k] q Hk.
      * cbn in Hk. injection Hk as <-. rewrite N.add_0_r.
        split; [reflexivity|]. rewrite Hrest.
        -- subst w1. cbn. apply lookup_insert_eq.
        -- intros j Hj Heq. apply word_page_file_inj in Heq. lia.
      * cbn in Hk.
        replace (i + N.of_nat (S k))%N with (N.succ i + N.of_nat k)%N by lia.
        by apply Hpages.
    + intros q Hq. rewrite Hrest.
      * subst w1. cbn. apply lookup_insert_ne. intros Heq.
        by apply (Hq i); [lia|].
      * intros j Hj. apply Hq. lia.
    + by rewrite Hlog.
Qed.

(** X4.  For a Word document whose temporary copy the service answers
    with sections, and a processor whose directory exists,
    [split_document_pages] makes exactly one call to the
    service, for [complete.docx] in the call's temporary directory, which
    holds the document's bytes; it returns one path per section,
    [page_1.docx] onwards in order, and the file at index [i] holds the
    text of section [i], unchanged, as text.  The document is returned as
    it was. *)
Theorem split_word_one_file_per_section (self : DocumentProcessor)
  (document : DocumentFile) (w : world) (n : string) (rest : list string)
  (sections : list parsed_doc) :
  doc_type document = Member WORD ->
  tmp_names w = n :: rest ->
  isdir (files w) (temp_base_dir self) = true ->
  let temp_dir := path_join (temp_base_dir self) ("tmp" +:+ n) in
  let complete := path_join temp_dir "complete.docx" in
  llama_parse complete (BinaryFile (data_bytes document)) = Ok sections ->
  exists w' page_files,
    split_document_pages page PdfReader_new PdfWriter_write llama_parse
      self document w
    = (document, (w', Ok (page_files, temp_dir)))
    /\ length page_files = length sections
    /\ (forall i s,
          sections !! i = Some s ->
          page_files !! i
          = Some (path_join temp_dir
                    ("page_" +:+ pretty (N.of_nat (S i)) +:+ ".docx"))
          /\ files w' !! path_join temp_dir
                           ("page_" +:+ pretty (N.of_nat (S i)) +:+ ".docx")
             = Some (TextFile (section_content s)))
    /\ files w' !! complete = Some (BinaryFile (data_bytes document))
    /\ parse_log w' = parse_log w ++ [complete].
Proof.
  intros Hty Htmp Hdir temp_dir complete Hparse.
  unfold split_document_pages.
  rewrite (TemporaryDirectory_Ok _ _ _ _ Htmp Hdir). fold temp_dir.
  rewrite Hty. unfold split_word_pages. fold complete.
  unfold bindM at 1, write_file. unfold bindM at 1, aload_data.
  cbn [files set_files gettempdir tmp_names parse_log llm_log].
  rewrite lookup_insert_eq, Hparse. unfold bindM.
  match goal with
  | |- context [write_word_pages ?d ?i ?ss ?w0] =>
      destruct (write_word_pages_spec d ss i w0)
        as (w' & pf & Hrun & Hlen & Hpages & Hrest & Hlog)
  end.
  rewrite Hrun. exists w', pf. cbn [splitting_failed].
  split; [reflexivity|]. split; [exact Hlen|]. split; [|split].
  - intros i s Hi.
    replace (N.of_nat (S i)) with (1 + N.of_nat i)%N by lia.
    by apply Hpages.
  - rewrite Hrest; [|intros j _; apply complete_is_no_page].
    cbn. apply lookup_insert_eq.
  - by rewrite Hlog.
Qed.

(** Paths written by the two loops are page files of the directory. *)
Lemma write_pdf_pages_footprint (dir : string) (ps : list page) :
  forall (i : N) (w : world) (q : string),
    (forall j, q <> page_file dir j) ->
    files (fst (write_pdf_pages page PdfWriter_write dir i ps w)) !! q
    = files w !! q
    /\ parse_log (fst (write_pdf_pages page PdfWriter_write dir i ps w))
       = parse_log w.
Proof.
  induction ps as [|p rest IH]; intros i w q Hq; [done|].
  cbn [write_pdf_pages]. unfold bindM at 1, lift.
  destruct (PdfWriter_write [p]) as [data|e]; [|done].
  unfold bindM at 1, write_file. unfold bindM.
  set (w1 := set_files (insert (path_join dir ("page_" +:+ pretty i +:+ ".pdf"))
                          (BinaryFile data)) w).
  destruct (IH (N.succ i) w1 q Hq) as [Hf Hl].
  assert (files w1 !! q = files w !! q) as H1.
  { subst w1. cbn. apply lookup_insert_ne. intros Heq. by apply (Hq i). }
  destruct (write_pdf_pages page PdfWriter_write dir (N.succ i) rest w1)
    as [w' [pf|e]]; unfold ret; cbn [fst] in *; by rewrite Hf, Hl, H1.
Qed.

Lemma write_word_pages_footprint (dir : string) (sections : list parsed_doc)
  (i : N) (w : world) (q : string) :
  (forall j, q <> word_page_file dir j) ->
  files (fst (write_word_pages dir i sections w)) !! q = files w !! q.
Proof.
  intros Hq.
  destruct (write_word_pages_spec dir sections i w)
    as (w' & pf & Hrun & _ & _ & Hrest & _).
  rewrite Hrun. cbn. apply Hrest. auto.
Qed.

Lemma temp_dir_is_no_page (dir : string) (j : N) : dir <> page_file dir j.
Proof.
  rewrite page_file_eq. intros Hj. apply (f_equal String.length) in Hj.
  unfold stem in Hj.
  destruct (_ && _) in Hj; rewrite !length_app_s in Hj; cbn in Hj; lia.
Qed.

Lemma splitting_failed_world (r : world * result (list string * string)) :
  fst (splitting_failed r) = fst r.
Proof. by destruct r as [w' [v|e]]. Qed.

Lemma split_document_pages_files (self : DocumentProcessor)
  (document : DocumentFile) (w : world) (n : string) (rest : list string)
  (q : string) :
  tmp_names w = n :: rest ->
  let temp_dir := path_join (temp_base_dir self) ("tmp" +:+ n) in
  q <> temp_dir -> (forall r, q <> stem temp_dir +:+ r) ->
  files (fst (snd (split_document_pages page PdfReader_new PdfWriter_write
                     llama_parse self document w))) !! q
  = files w !! q.
Proof.
  intros Htmp temp_dir Hq Hbelow.
  unfold split_document_pages.
  destruct (TemporaryDirectory_cases (temp_base_dir self) w)
    as [(n0 & rest0 & Hnames & Hdir)|(w0 & e0 & Hraise & Hsame & _)];
    [|rewrite Hraise; cbn; by rewrite Hsame].
  rewrite (TemporaryDirectory_Ok _ _ _ _ Htmp Hdir). fold temp_dir.
  set (w1 := set_files (insert temp_dir DirNode)
               (mk_world (files w) (gettempdir w) rest (parse_log w)
                  (llm_log w))).
  assert (files w1 !! q = files w !! q) as Hw1.
  { subst w1. cbn. by apply lookup_insert_ne. }
  destruct (doc_type document) as [[]|shown] eqn:Hty.
  - unfold split_pdf_pages.
    destruct (PdfReader_new (data_bytes document)) as [reader|e];
      cbn [snd]; rewrite splitting_failed_world; [|done].
    unfold bindM.
    pose proof (write_pdf_pages_footprint temp_dir (pages reader) 1 w1 q)
      as Hfoot.
    destruct (write_pdf_pages page PdfWriter_write temp_dir 1
                (pages reader) w1) as [w' [pf|e]]; cbn [fst] in *;
      rewrite <- Hw1; apply Hfoot; intros j; rewrite page_file_eq;
      apply Hbelow.
  - cbn [snd]. rewrite splitting_failed_world.
    unfold split_word_pages, bindM at 1, write_file.
    unfold bindM at 1, aload_data.
    set (complete := path_join temp_dir "complete.docx").
    set (w2 := set_files (insert complete (BinaryFile (data_bytes document)))
                 w1).
    assert (files w2 !! q = files w !! q) as Hw2.
    { subst w2. cbn [files set_files].
      rewrite lookup_insert_ne; [exact Hw1|].
      subst complete.
      rewrite (path_join_relative temp_dir "c" "omplete.docx") by done.
      intros <-. by apply (Hbelow "complete.docx"). }
    cbn [files set_files gettempdir tmp_names parse_log llm_log].
    destruct (files w2 !! complete) as [nd|]; [|by cbn].
    destruct (llama_parse complete nd) as [sections|e]; [|by cbn].
    unfold bindM.
    match goal with
    | |- context [write_word_pages ?d ?i ?ss ?w0] =>
        pose proof (write_word_pages_footprint d ss i w0 q) as Hfoot;
        destruct (write_word_pages d i ss w0) as [w' [pf|e]]
    end; unfold ret; cbn [fst] in *;
      (rewrite Hfoot; [exact Hw2|]);
      intros j; rewrite word_page_file_eq; apply Hbelow.
  - by cbn.
Qed.

Lemma split_pdf_makes_no_call (self : DocumentProcessor)
  (document : DocumentFile) (w : world) :
  doc_type document = Member PDF ->
  parse_log (fst (snd (split_document_pages page PdfReader_new
                         PdfWriter_write llama_parse self document w)))
  = parse_log w.
Proof.
  intros Hty.
  unfold split_document_pages.
  destruct (TemporaryDirectory_cases (temp_base_dir self) w)
    as [(n & rest & Hnames & Hdir)|(w0 & e0 & Hraise & _ & Hsame & _)];
    [|rewrite Hraise; cbn; by rewrite Hsame].
  rewrite (TemporaryDirectory_Ok _ _ _ _ Hnames Hdir). rewrite Hty.
  set (temp_dir := path_join (temp_base_dir self) ("tmp" +:+ n)).
  unfold split_pdf_pages.
  destruct (PdfReader_new (data_bytes document)) as [reader|e];
    cbn [snd]; rewrite splitting_failed_world; [|done].
  unfold bindM.
  match goal with
  | |- context [write_pdf_pages _ _ ?d ?i ?ps ?w0] =>
      pose proof (write_pdf_pages_footprint d ps i w0 d
                    (temp_dir_is_no_page d)) as [_ Hlog];
      destruct (write_pdf_pages page PdfWriter_write d i ps w0)
        as [w' [pf|e]]
  end; unfold ret; cbn [fst] in *; by rewrite Hlog.
Qed.

(** X5.  [split_document_pages] writes only in the temporary directory it
    made for the call: for every kind of document and whether it returns
    or raises, a path that is neither that directory nor below it holds
    afterwards what it held before.  When the document is a PDF no call
    to the parsing service is made either. *)
Theorem split_document_pages_stays_in_its_directory
  (self : DocumentProcessor) (document : DocumentFile) (w : world)
  (n : string) (rest : list string) :
  tmp_names w = n :: rest ->
  let temp_dir := path_join (temp_base_dir self) ("tmp" +:+ n) in
  let after :=
    fst (snd (split_document_pages page PdfReader_new PdfWriter_write
                llama_parse self document w)) in
  (forall q,
      q <> temp_dir -> (forall r, q <> stem temp_dir +:+ r) ->
      files after !! q = files w !! q)
  /\ (doc_type document = Member PDF -> parse_log after = parse_log w).
Proof.
  intros Htmp temp_dir after. split.
  - intros q Hq Hbelow.
    by apply (split_document_pages_files self document w n rest q).
  - apply split_pdf_makes_no_call.
Qed.

(** X20.  When the processor's directory is not there, as after a sweep
    that removed it, [split_document_pages] fails for every document: the
    error of [tempfile] comes out as a [DocumentProcessingError] whose
    message starts with "Document splitting failed: ", the document is
    returned as it was, nothing is written and no call is made. *)
Theorem split_fails_without_its_directory (self : DocumentProcessor)
  (document : DocumentFile) (w : world) :
  isdir (files w) (temp_base_dir self) = false ->
  let run :=
    split_document_pages page PdfReader_new PdfWriter_write llama_parse
      self document w in
  fst run = document
  /\ files (fst (snd run)) = files w
  /\ parse_log (fst (snd run)) = parse_log w
  /\ llm_log (fst (snd run)) = llm_log w
  /\ exists reason,
      snd (snd run)
      = Raise (DPE ("Document splitting failed: " +:+ reason)).
Proof.
  intros Hdir run. subst run. unfold split_document_pages.
  destruct (TemporaryDirectory_cases (temp_base_dir self) w)
    as [(n & rest & _ & Hyes)|(w0 & e0 & Hraise & Hf & Hp & Hl)];
    [congruence|].
  rewrite Hraise. cbn. eauto 10.
Qed.

End WordFacts.

Lemma split_word_one_file_per_section_witness :
  exists w' page_files,
    DocProc.split_document_pages string toy_PdfReader_new toy_PdfWriter_write
      three_sections toy_processor toy_word_document ready_world
    = (toy_word_document,
       (w', Ok (page_files, "/app/temp_files/2024-03-09/tmpk3x9")))
    /\ length page_files = 3%nat
    /\ files w' !! "/app/temp_files/2024-03-09/tmpk3x9/page_1.docx"
       = Some (TextFile " first").
Proof.
  destruct (split_word_one_file_per_section string toy_PdfReader_new
              toy_PdfWriter_write three_sections toy_processor
              toy_word_document ready_world "k3x9" ["q7w2"]
              [section_of " first"; section_of "second"; section_of "third "]
              eq_refl eq_refl eq_refl eq_refl)
    as (w' & pf & Hrun & Hlen & Hpages & _).
  exists w', pf. split; [exact Hrun|]. split; [exact Hlen|].
  exact (proj2 (Hpages 0%nat (section_of " first") eq_refl)).
Defined.

Lemma split_document_pages_stays_in_its_directory_witness :
  files (fst (snd (DocProc.split_document_pages string toy_PdfReader_new
                     toy_PdfWriter_write three_sections toy_processor
                     toy_word_document ready_world))) !! "a.pdf"
  = Some (BinaryFile "A").
Proof.
  refine (proj1 (split_document_pages_stays_in_its_directory string
                   toy_PdfReader_new toy_PdfWriter_write three_sections
                   toy_processor toy_word_document ready_world "k3x9" ["q7w2"]
                   eq_refl) "a.pdf" _ _).
  - discriminate.
  - intros r H. discriminate H.
Defined.

Lemma split_fails_without_its_directory_witness :
  let swept :=
    fst (DocProc.cleanup_old_files "/app/services" toy_now (Some 0)
           (fst (DocProc.DocumentProcessor_init (fun _ => Ok tt) toy_py_int
                   toy_getenv "/app/services" None toy_now toy_world))) in
  exists reason,
    snd (snd (DocProc.split_document_pages string toy_PdfReader_new
                toy_PdfWriter_write toy_llama_parse
                (DocProc.mk_processor "lk"
                   "/app/services/../../temp_files/2024-03-09" 1000 200)
                (toy_document "%PDF titled" None) swept))
    = Raise (DocProc.DPE ("Document splitting failed: " +:+ reason)).
Proof.
  refine (proj2 (proj2 (proj2 (proj2
    (split_fails_without_its_directory string toy_PdfReader_new
       toy_PdfWriter_write toy_llama_parse
       (DocProc.mk_processor "lk"
          "/app/services/../../temp_files/2024-03-09" 1000 200)
       (toy_document "%PDF titled" None)
       (fst (DocProc.cleanup_old_files "/app/services" toy_now (Some 0)
               (fst (DocProc.DocumentProcessor_init (fun _ => Ok tt)
                       toy_py_int toy_getenv "/app/services" None toy_now
                       toy_world))))
       _))))).
  vm_compute. reflexivity.
Defined.

(** ** Constructing the document processor *)

Section InitFacts.

Import DocProc Datetime.

Variable LlamaParse_new : string -> result unit.
Variable py_int : string -> result Z.
Variable getenv : string -> option string.
Variable here : string.

Lemma init_without_key (api_key : option string) (now : datetime)
  (w : world) :
  truthy_opt api_key = false ->
  truthy_opt (getenv "LLAMA_CLOUD_API_KEY") = false ->
  DocumentProcessor_init LlamaParse_new py_int getenv here api_key now w
  = (w, Raise (DPE no_key_message)).
Proof.
  intros Harg Henv. unfold DocumentProcessor_init. rewrite Harg.
  destruct (getenv "LLAMA_CLOUD_API_KEY") as [k|]; [|done].
  cbn in Henv. by rewrite Henv.
Qed.

(** X6.  Without a key, neither passed nor in the environment (an empty
    one counts as none), constructing the document processor raises the
    [DocumentProcessingError] that asks for LLAMA_CLOUD_API_KEY, before
    anything is created: the world is as it was. *)
Theorem processor_needs_a_key (api_key : option string) (now : datetime)
  (w : world) :
  truthy_opt api_key = false ->
  truthy_opt (getenv "LLAMA_CLOUD_API_KEY") = false ->
  DocumentProcessor_init LlamaParse_new py_int getenv here api_key now w
  = (w, Raise (DPE no_key_message)).
Proof. apply init_without_key. Qed.

Lemma mkdir_exist_ok_spec (path : string) (w : world) :
  files w !! path = None \/ files w !! path = Some DirNode ->
  exists w',
    mkdir_exist_ok path w = (w', Ok tt)
    /\ files w' !! path = Some DirNode
    /\ (forall q, q <> path -> files w' !! q = files w !! q)
    /\ tmp_names w' = tmp_names w.
Proof.
  unfold mkdir_exist_ok. intros [H|H]; rewrite H.
  - eexists. split; [reflexivity|]. cbn. split; [apply lookup_insert_eq|].
    split; [|done]. intros q Hq. by apply lookup_insert_ne.
  - exists w. done.
Qed.

(** X7.  With a key (the one passed, else the one of the environment),
    a parser client that can be built, no plain file in the way and
    chunk settings that are numbers, constructing the document processor
    succeeds; its directory is [temp_files/<today>] under the temporary
    root, both are directories afterwards, and no other path is
    touched. *)
Theorem processor_prepares_todays_directory (api_key : option string)
  (now : datetime) (w : world) (k : string) (size overlap : Z) :
  (if truthy_opt api_key then api_key else getenv "LLAMA_CLOUD_API_KEY")
  = Some k ->
  truthy k = true ->
  LlamaParse_new k = Ok tt ->
  let base := path_join (temp_root here) (strftime now) in
  (files w !! temp_root here = None
   \/ files w !! temp_root here = Some DirNode) ->
  (files w !! base = None \/ files w !! base = Some DirNode) ->
  py_int (default "1000" (getenv "CHUNK_SIZE")) = Ok size ->
  py_int (default "200" (getenv "CHUNK_OVERLAP")) = Ok overlap ->
  exists w',
    DocumentProcessor_init LlamaParse_new py_int getenv here api_key now w
    = (w', Ok (mk_processor k base size overlap))
    /\ isdir (files w') (temp_root here) = true
    /\ isdir (files w') base = true
    /\ forall q, q <> temp_root here -> q <> base ->
                 files w' !! q = files w !! q.
Proof.
  intros Hkey Hk Hparser base Hroot Hbase Hsize Hoverlap.
  unfold DocumentProcessor_init. rewrite Hkey, Hk.
  unfold bindM at 1, lift. rewrite Hparser.
  destruct (mkdir_exist_ok_spec (temp_root here) w Hroot)
    as (w1 & Hrun1 & Hdir1 & Hframe1 & _).
  unfold bindM at 1. rewrite Hrun1. fold base.
  assert (files w1 !! base = None \/ files w1 !! base = Some DirNode)
    as Hbase1.
  { destruct (decide (base = temp_root here)) as [->|Hne]; [by right|].
    by rewrite Hframe1. }
  destruct (mkdir_exist_ok_spec base w1 Hbase1)
    as (w2 & Hrun2 & Hdir2 & Hframe2 & _).
  unfold bindM at 1. rewrite Hrun2.
  unfold bindM, lift. rewrite Hsize, Hoverlap. unfold ret.
  exists w2. split; [reflexivity|]. unfold isdir.
  split; [|split].
  - destruct (decide (temp_root here = base)) as [Heq|Hne].
    + by rewrite Heq, Hdir2.
    + by rewrite Hframe2, Hdir1.
  - by rewrite Hdir2.
  - intros q Hq1 Hq2. by rewrite Hframe2, Hframe1.
Qed.

End InitFacts.

Lemma processor_needs_a_key_witness :
  DocProc.DocumentProcessor_init (fun _ => Ok tt) toy_py_int no_env
    "/app/services" (Some EmptyString) toy_now toy_world
  = (toy_world, Raise (DocProc.DPE no_key_message)).
Proof.
  exact (processor_needs_a_key (fun _ => Ok tt) toy_py_int no_env
           "/app/services" (Some EmptyString) toy_now toy_world
           eq_refl eq_refl).
Defined.

Lemma processor_prepares_todays_directory_witness :
  exists w',
    DocProc.DocumentProcessor_init (fun _ => Ok tt) toy_py_int toy_getenv
      "/app/services" None toy_now toy_world
    = (w',
       Ok (DocProc.mk_processor "lk"
             "/app/services/../../temp_files/2024-03-09" 1000 200))
    /\ isdir (files w') "/app/services/../../temp_files/2024-03-09" = true.
Proof.
  destruct (processor_prepares_todays_directory (fun _ => Ok tt) toy_py_int
              toy_getenv "/app/services" None toy_now toy_world "lk" 1000 200
              eq_refl eq_refl eq_refl (or_introl eq_refl) (or_introl eq_refl)
              eq_refl eq_refl)
    as (w' & Hrun & _ & Hdir & _).
  exists w'. split; [exact Hrun | exact Hdir].
Defined.

(** ** Adapters and the assistant *)

Section AssistantFacts.

Import Llm Prompts Assistant.

Variable sdk : vendors.

Lemma llm_get_response_world (llm : adapter) (prompt : string) (w : world) :
  llm_get_response sdk llm prompt w
  = (mk_world (files w) (gettempdir w) (tmp_names w) (parse_log w)
       (llm_log w ++ [prompt]),
     get_response sdk llm prompt).
Proof. reflexivity. Qed.

Lemma assistant_get_response_spec (llm : adapter)
  (user_query chat_history : string) (w : world) :
  assistant_get_response sdk llm user_query chat_history w
  = (mk_world (files w) (gettempdir w) (tmp_names w) (parse_log w)
       (llm_log w ++ [fill_legal chat_history user_query TENANCY_LAW]),
     match get_response sdk llm
             (fill_legal chat_history user_query TENANCY_LAW) with
     | Ok t => Ok t
     | Raise e =>
         Raise (mk_exn Exception_ ("Error processing query: " +:+ str_exn e))
     end).
Proof.
  unfold assistant_get_response, bindM, lift.
  rewrite generate_prompt_fill. unfold try_exceptM.
  rewrite llm_get_response_world. by destruct (get_response _ _ _).
Qed.

Lemma analyze_contract_spec (llm : adapter) (contract_text : string)
  (w : world) :
  analyze_contract sdk llm contract_text w
  = (mk_world (files w) (gettempdir w) (tmp_names w) (parse_log w)
       (llm_log w ++ [fill_rental TENANCY_LAW contract_text]),
     match get_response sdk llm (fill_rental TENANCY_LAW contract_text) with
     | Ok t => Ok t
     | Raise e =>
         Raise (mk_exn Exception_
                  ("Error analyzing contract: " +:+ str_exn e))
     end).
Proof.
  unfold analyze_contract, bindM, lift.
  rewrite generate_contract_analysis_prompt_fill. unfold try_exceptM.
  rewrite llm_get_response_world. by destruct (get_response _ _ _).
Qed.

(** X8.  Each operation of the assistant sends exactly one prompt to the
    adapter, the template filled with the fixed law text, and changes
    nothing else in the world.  It returns what the vendor's request
    returns; when that request raises, the error that comes out names the
    operation and then the provider: its message is
    "Error processing query: " (or "Error analyzing contract: "), the
    provider's prefix, and the message of the vendor's exception. *)
Theorem assistant_sends_one_prompt_and_labels_errors (p : LLMProvider)
  (key : option string) (llm : adapter)
  (user_query chat_history contract_text : string) (w : world) :
  create_llm sdk p key = Ok llm ->
  let question := fill_legal chat_history user_query TENANCY_LAW in
  let analysis := fill_rental TENANCY_LAW contract_text in
  assistant_get_response sdk llm user_query chat_history w
  = (sent question w,
     match vendor_request sdk p key question with
     | Ok reply => Ok reply
     | Raise e =>
         Raise (mk_exn Exception_
                  ("Error processing query: " +:+ error_prefix p
                   +:+ str_exn e))
     end)
  /\ analyze_contract sdk llm contract_text w
     = (sent analysis w,
        match vendor_request sdk p key analysis with
        | Ok reply => Ok reply
        | Raise e =>
            Raise (mk_exn Exception_
                     ("Error analyzing contract: " +:+ error_prefix p
                      +:+ str_exn e))
        end).
Proof.
  intros Hc question analysis.
  rewrite assistant_get_response_spec, analyze_contract_spec.
  rewrite !(get_response_of_created _ _ _ _ _ Hc).
  fold question analysis. unfold sent.
  split; by destruct (vendor_request _ _ _ _).
Qed.

End AssistantFacts.

Lemma assistant_sends_one_prompt_and_labels_errors_witness :
  Assistant.analyze_contract Llm.offline_vendors
    (Llm.AnthropicLLM (Some "k") "claude-3-opus-20240229") "c" toy_world
  = (sent (Prompts.fill_rental Prompts.TENANCY_LAW "c") toy_world,
     Raise (mk_exn Exception_
              "Error analyzing contract: Anthropic Error: connection refused")).
Proof.
  exact (proj2
    (assistant_sends_one_prompt_and_labels_errors Llm.offline_vendors
       Llm.ANTHROPIC (Some "k")
       (Llm.AnthropicLLM (Some "k") "claude-3-opus-20240229")
       "q" "h" "c" toy_world eq_refl)).
Defined.

(** ** The application: one run and whole sessions *)

Section RunFacts.

Import Llm Prompts DocProc Assistant Datetime App.

Variable sdk : vendors.
Variable LlamaParse_new : string -> result unit.
Variable llama_parse : string -> node -> result (list parsed_doc).
Variable py_int : string -> result Z.
Variable getenv : string -> option string.
Variable here : string.

(** X9.  When a question is submitted, the chat gets the user's message
    at its end; exactly one prompt goes to the model, whose history field
    is the chat with that message already in it, one "role: content" line
    per message, and whose query field is the question; the assistant's
    message follows in the chat when the model answers and is left out
    when the call fails. *)
Theorem chat_exchange (self : StreamlitApp) (wd : widgets)
  (st : live_state) (w : world) (prompt : string) :
  chat_input wd = Some prompt ->
  truthy prompt = true ->
  let asked := live_messages st ++ [mk_message "user" prompt] in
  let sent := fill_legal (chat_history_text asked) prompt TENANCY_LAW in
  let after := render_chat_assistant sdk self wd st w in
  llm_log (snd after) = llm_log w ++ [sent]
  /\ live_messages (fst after)
     = asked ++ match get_response sdk (assistant self) sent with
                | Ok response => [mk_message "assistant" response]
                | Raise _ => []
                end
  /\ files (snd after) = files w
  /\ parse_log (snd after) = parse_log w.
Proof.
  intros Hin Htruthy asked sent after. subst after.
  unfold render_chat_assistant. rewrite Hin, Htruthy.
  rewrite assistant_get_response_spec. fold asked.
  fold (chat_history_text asked). fold sent.
  destruct (get_response sdk (assistant self) sent) as [response|e]; cbn.
  - done.
  - by rewrite app_nil_r.
Qed.

Lemma render_chat_assistant_idle (self : StreamlitApp) (wd : widgets)
  (st : live_state) (w : world) :
  truthy_opt (chat_input wd) = false ->
  render_chat_assistant sdk self wd st w = (st, w).
Proof.
  unfold render_chat_assistant. destruct (chat_input wd) as [p|]; [|done].
  cbn. by intros ->.
Qed.

(** X10.  With pasted text the contract analyzer never uses the parsing
    service or the file system and keeps no document: the text goes to
    the model as it is, not stripped, in the contract field of the
    analysis template, and that only in a run in which the text is not
    empty and the button was clicked. *)
Theorem pasted_text_goes_straight_to_the_model (self : StreamlitApp)
  (wd : widgets) (st : live_state) (w : world) :
  input_method wd = PasteText ->
  let after := render_contract_analyzer sdk llama_parse self wd st w in
  fst after = st
  /\ files (snd after) = files w
  /\ parse_log (snd after) = parse_log w
  /\ tmp_names (snd after) = tmp_names w
  /\ llm_log (snd after)
     = llm_log w
       ++ (if truthy (text_input wd) && analyze_button wd
           then [fill_rental TENANCY_LAW (text_input wd)] else []).
Proof.
  intros Hmethod after. subst after. unfold render_contract_analyzer.
  rewrite Hmethod.
  destruct (truthy (text_input wd) && analyze_button wd); cbn [fst snd].
  - unfold analyze_contract_text. rewrite analyze_contract_spec. done.
  - by rewrite app_nil_r.
Qed.

(** *** The documents of a session *)

Lemma render_chat_assistant_keeps_documents (self : StreamlitApp)
  (wd : widgets) (st : live_state) (w : world) :
  live_documents (fst (render_chat_assistant sdk self wd st w))
  = live_documents st.
Proof.
  unfold render_chat_assistant.
  destruct (chat_input wd) as [prompt|]; [|done].
  destruct (truthy prompt); [|done].
  by destruct (assistant_get_response _ _ _ _ _) as [w' [response|e]].
Qed.

Lemma render_contract_analyzer_extends_documents (self : StreamlitApp)
  (wd : widgets) (st : live_state) (w : world) :
  live_documents st
    `prefix_of`
    live_documents (fst (render_contract_analyzer sdk llama_parse self wd
                           st w)).
Proof.
  unfold render_contract_analyzer.
  destruct (input_method wd).
  - destruct (file_uploader wd) as [[file_name file_content]|]; [|done].
    unfold process_uploaded_file.
    destruct (process_document _ _ _ _) as [w' [doc|e]]; cbn.
    + destruct (truthy (pd_content doc) && analyze_button wd); cbn;
        by apply prefix_app_r.
    + done.
  - by destruct (truthy (text_input wd) && analyze_button wd).
Qed.

Lemma render_sidebar_keeps_documents (wd : widgets) (st : live_state) :
  live_documents (fst (render_sidebar wd st)) = live_documents st.
Proof.
  unfold render_sidebar.
  destruct (nonempty (live_messages st)); [|done].
  destruct (clear_chat_button wd); [|done].
  by destruct (confirm_clear_button wd).
Qed.

Lemma script_extends_documents (now : datetime) (wd : widgets)
  (ss : session_state) (w : world) :
  documents ss
    `prefix_of`
    documents (fst (fst (script sdk LlamaParse_new llama_parse py_int getenv
                           here now wd ss w))).
Proof.
  unfold script.
  destruct (StreamlitApp_init _ _ _ _ _ _ _) as [w1 [app|e]]; [|done].
  unfold main.
  pose proof (render_chat_assistant_keeps_documents app wd
                (initialize_session_state ss) w1) as Hchat.
  destruct (render_chat_assistant _ _ _ _ _) as [st1 w2].
  pose proof (render_contract_analyzer_extends_documents app wd st1 w2)
    as Han.
  destruct (render_contract_analyzer _ _ _ _ _ _) as [st2 w3].
  pose proof (render_sidebar_keeps_documents wd st2) as Hside.
  destruct (render_sidebar wd st2) as [st3 rerun].
  cbn in *. unfold documents. cbn. by rewrite Hside, <- Hchat.
Qed.

(** X11.  The processed documents of a session only grow at their end,
    whatever the widgets report: no run removes or replaces a processed
    document, not even one that would empty the chat. *)
Theorem processed_documents_are_append_only
  (runs : list (datetime * widgets)) (ss : session_state) (w : world) :
  documents ss
    `prefix_of`
    documents (fst (session sdk LlamaParse_new llama_parse py_int getenv
                      here runs ss w)).
Proof.
  revert ss w. induction runs as [|[now wd] rest IH]; intros ss w; [done|].
  cbn [session].
  pose proof (script_extends_documents now wd ss w) as Hstep.
  destruct (script _ _ _ _ _ _ _ _ _ _) as [[ss' w'] r]. cbn in Hstep.
  etrans; [exact Hstep|apply IH].
Qed.

(** *** Roles of the messages *)

Lemma script_keeps_roles (now : datetime) (wd : widgets)
  (ss : session_state) (w : world) :
  Forall known_role (history ss) ->
  Forall known_role
    (history (fst (fst (script sdk LlamaParse_new llama_parse py_int getenv
                          here now wd ss w)))).
Proof.
  intros Hroles. unfold script.
  destruct (StreamlitApp_init _ _ _ _ _ _ _) as [w1 [app|e]]; [|done].
  unfold main.
  assert (Forall known_role
            (live_messages
               (fst (render_chat_assistant sdk app wd
                       (initialize_session_state ss) w1)))) as Hchat.
  { unfold render_chat_assistant.
    destruct (chat_input wd) as [prompt|]; [|done].
    destruct (truthy prompt); [|done].
    destruct (assistant_get_response _ _ _ _ _) as [w' [response|e]]; cbn;
      rewrite ?Forall_app; repeat split; try done;
      repeat constructor; by (left + right). }
  destruct (render_chat_assistant _ _ _ _ _) as [st1 w2].
  pose proof (render_contract_analyzer_keeps_messages sdk llama_parse app wd
                st1 w2) as Han.
  destruct (render_contract_analyzer _ _ _ _ _ _) as [st2 w3].
  cbn in Hchat, Han. rewrite <- Han in Hchat.
  unfold render_sidebar.
  destruct (nonempty (live_messages st2)); [|done].
  destruct (clear_chat_button wd); [|done].
  by destruct (confirm_clear_button wd).
Qed.

(** X12.  Every message the application records has the role "user" or
    "assistant": if that holds of the chat when a session starts, it
    holds after any sequence of runs, whatever the widgets report. *)
Theorem messages_have_known_roles (runs : list (datetime * widgets))
  (ss : session_state) (w : world) :
  Forall known_role (history ss) ->
  Forall known_role
    (history (fst (session sdk LlamaParse_new llama_parse py_int getenv here
                     runs ss w))).
Proof.
  revert ss w. induction runs as [|[now wd] rest IH]; intros ss w Hroles;
    [done|].
  cbn [session].
  pose proof (script_keeps_roles now wd ss w Hroles) as Hstep.
  destruct (script _ _ _ _ _ _ _ _ _ _) as [[ss' w'] r]. cbn in Hstep.
  by apply IH.
Qed.

End RunFacts.

Lemma chat_exchange_witness :
  App.live_messages
    (fst (App.render_chat_assistant Llm.offline_vendors toy_app
            (ask "May I sublet?")
            (App.initialize_session_state App.new_session) toy_world))
  = [App.mk_message "user" "May I sublet?"].
Proof.
  exact (proj1 (proj2 (chat_exchange Llm.offline_vendors toy_app
                         (ask "May I sublet?")
                         (App.initialize_session_state App.new_session)
                         toy_world "May I sublet?" eq_refl eq_refl))).
Defined.

Lemma pasted_text_goes_straight_to_the_model_witness :
  parse_log
    (snd (App.render_contract_analyzer Llm.strict_vendors toy_llama_parse
            toy_app (paste_and_analyze " rent is due monthly ")
            (App.initialize_session_state App.new_session) toy_world))
  = [].
Proof.
  exact (proj1 (proj2 (proj2
    (pasted_text_goes_straight_to_the_model Llm.strict_vendors toy_llama_parse
       toy_app (paste_and_analyze " rent is due monthly ")
       (App.initialize_session_state App.new_session) toy_world eq_refl)))).
Defined.

Lemma messages_have_known_roles_witness :
  Forall known_role
    (App.history
       (fst (App.session Llm.strict_vendors (fun _ => Ok tt) toy_llama_parse
               toy_py_int toy_getenv "/app/services"
               [(toy_now, ask "May I sublet?"); (toy_now, upload_and_analyze)]
               App.new_session toy_world))).
Proof.
  apply messages_have_known_roles. constructor.
Defined.

(** *** Outbound calls of a run, and start-up *)

Section CallFacts.

Import Llm Prompts DocProc Assistant Datetime App.

Variable sdk : vendors.
Variable LlamaParse_new : string -> result unit.
Variable llama_parse : string -> node -> result (list parsed_doc).
Variable py_int : string -> result Z.
Variable getenv : string -> option string.
Variable here : string.

Lemma grows_by_same (k j : nat) (w w' : world) :
  llm_log w' = llm_log w -> parse_log w' = parse_log w -> grows_by k j w w'.
Proof.
  intros H1 H2.
  split; exists []; rewrite app_nil_r; split; cbn; auto; lia.
Qed.

Lemma grows_by_refl (k j : nat) (w : world) : grows_by k j w w.
Proof. by apply grows_by_same. Qed.

Lemma grows_by_trans (k1 j1 k2 j2 : nat) (w1 w2 w3 : world) :
  grows_by k1 j1 w1 w2 -> grows_by k2 j2 w2 w3 ->
  grows_by (k1 + k2) (j1 + j2) w1 w3.
Proof.
  intros [(a & Ha & Hla) (b & Hb & Hlb)] [(c & Hc & Hlc) (d & Hd & Hld)].
  split.
  - exists (a ++ c). rewrite Hc, Ha, app_assoc, length_app. split; [done|lia].
  - exists (b ++ d). rewrite Hd, Hb, app_assoc, length_app. split; [done|lia].
Qed.

Lemma mkdir_exist_ok_logs (path : string) (w : world) :
  grows_by 0 0 w (fst (mkdir_exist_ok path w)).
Proof.
  unfold mkdir_exist_ok. destruct (files w !! path) as [[]|];
    by apply grows_by_same.
Qed.

Lemma DocumentProcessor_init_logs (api_key : option string) (now : datetime)
  (w : world) :
  grows_by 0 0 w
    (fst (DocumentProcessor_init LlamaParse_new py_int getenv here api_key
            now w)).
Proof.
  unfold DocumentProcessor_init.
  destruct (if truthy_opt api_key then api_key else _) as [k|];
    [|apply grows_by_refl].
  destruct (truthy k); [|apply grows_by_refl].
  unfold bindM at 1, lift.
  destruct (LlamaParse_new k); [|apply grows_by_refl].
  unfold bindM at 1.
  pose proof (mkdir_exist_ok_logs (temp_root here) w) as H1.
  destruct (mkdir_exist_ok (temp_root here) w) as [w1 [[]|e]]; [|exact H1].
  unfold bindM at 1.
  match goal with
  | |- context [mkdir_exist_ok ?p w1] =>
      pose proof (mkdir_exist_ok_logs p w1) as H2;
      destruct (mkdir_exist_ok p w1) as [w2 [[]|e]]
  end; cbn [fst] in *;
    pose proof (grows_by_trans _ _ _ _ _ _ _ H1 H2) as H3; [|exact H3].
  unfold bindM, lift, ret.
  repeat match goal with
    | |- context [py_int ?s] => destruct (py_int s)
    end; exact H3.
Qed.

Lemma StreamlitApp_init_logs (now : datetime) (w : world) :
  grows_by 0 0 w
    (fst (StreamlitApp_init sdk LlamaParse_new py_int getenv here now w)).
Proof.
  unfold StreamlitApp_init, bindM at 1, lift.
  destruct (create_llm sdk GROQ (getenv "GROQ_API_KEY")) as [llm|e];
    [|apply grows_by_refl].
  unfold bindM.
  pose proof (DocumentProcessor_init_logs None now w) as H.
  by destruct (DocumentProcessor_init _ _ _ _ _ _ _) as [w1 [p|e]].
Qed.

Lemma render_chat_assistant_logs (self : StreamlitApp) (wd : widgets)
  (st : live_state) (w : world) :
  grows_by (if truthy_opt (chat_input wd) then 1 else 0) 0 w
    (snd (render_chat_assistant sdk self wd st w)).
Proof.
  unfold render_chat_assistant.
  destruct (chat_input wd) as [prompt|]; [|apply grows_by_refl].
  cbn [truthy_opt].
  destruct (truthy prompt); [|apply grows_by_refl].
  rewrite assistant_get_response_spec.
  destruct (get_response _ _ _); cbn; (split; [eexists; split; [reflexivity|cbn; lia] | exists []; rewrite app_nil_r; split; cbn; auto]).
Qed.

Lemma process_document_logs (file_content file_name : string) (w : world) :
  grows_by 0 1 w
    (fst (process_document llama_parse file_content file_name w)).
Proof.
  destruct (tmp_names w) as [|n rest] eqn:Htmp.
  - unfold process_document, try_exceptM, bindM, NamedTemporaryFile, bindM,
      next_tmp_name. rewrite Htmp. apply grows_by_refl.
  - rewrite (process_document_full llama_parse file_content file_name w n
               rest Htmp).
    split; [exists []; rewrite app_nil_r; split; cbn; auto|].
    eexists. split; [reflexivity|cbn; lia].
Qed.

Lemma analyze_contract_text_logs (self : StreamlitApp) (t : string)
  (w : world) :
  grows_by 1 0 w (analyze_contract_text sdk self t w).
Proof.
  unfold analyze_contract_text. rewrite analyze_contract_spec. cbn.
  split; [eexists; split; [reflexivity|cbn; lia]|].
  exists []. rewrite app_nil_r. split; cbn; auto.
Qed.

Lemma grows_by_le (k j k' j' : nat) (w w' : world) :
  (k <= k')%nat -> (j <= j')%nat -> grows_by k j w w' -> grows_by k' j' w w'.
Proof.
  intros Hk Hj [(a & Ha & Hla) (b & Hb & Hlb)].
  split; [exists a|exists b]; split; auto; lia.
Qed.

Lemma render_contract_analyzer_logs (self : StreamlitApp) (wd : widgets)
  (st : live_state) (w : world) :
  grows_by (if analyze_button wd then 1 else 0) 1 w
    (snd (render_contract_analyzer sdk llama_parse self wd st w)).
Proof.
  unfold render_contract_analyzer.
  destruct (input_method wd).
  - destruct (file_uploader wd) as [[file_name file_content]|];
      [|apply grows_by_refl].
    unfold process_uploaded_file.
    pose proof (process_document_logs file_content file_name w) as Hdoc.
    destruct (process_document _ _ _ _) as [w' [doc|e]]; cbn [fst snd] in *.
    + destruct (truthy (pd_content doc)); cbn [andb];
        destruct (analyze_button wd); cbn [snd].
      * apply (grows_by_trans 0 1 1 0 _ _ _ Hdoc).
        apply analyze_contract_text_logs.
      * exact Hdoc.
      * apply (grows_by_le 0 1); [lia|lia|exact Hdoc].
      * exact Hdoc.
    + destruct (analyze_button wd); [|exact Hdoc].
      apply (grows_by_le 0 1); [lia|lia|exact Hdoc].
  - destruct (truthy (text_input wd)); cbn [andb];
      destruct (analyze_button wd); cbn [snd];
      first [ apply grows_by_refl
            | apply (grows_by_le 1 0);
              [lia|lia|apply analyze_contract_text_logs] ].
Qed.

Lemma one_trigger_one_call (wd : widgets) :
  one_trigger wd = true ->
  ((if truthy_opt (chat_input wd) then 1 else 0)
   + (if analyze_button wd then 1 else 0) <= 1)%nat.
Proof.
  unfold one_trigger, triggers.
  destruct (truthy_opt (chat_input wd)), (analyze_button wd),
    (clear_chat_button wd), (confirm_clear_button wd); cbn;
    intros H; try discriminate; lia.
Qed.

(** X13.  A run started by one widget event sends at most one prompt to
    the model and makes at most one call to the parsing service; the
    logs of earlier calls are kept and the new ones come after them. *)
Theorem a_run_makes_at_most_one_call_of_each_kind (now : datetime)
  (wd : widgets) (ss : session_state) (w : world) :
  one_trigger wd = true ->
  let after :=
    snd (fst (script sdk LlamaParse_new llama_parse py_int getenv here now
                wd ss w)) in
  (exists more,
      llm_log after = llm_log w ++ more /\ (length more <= 1)%nat)
  /\ (exists more,
         parse_log after = parse_log w ++ more /\ (length more <= 1)%nat).
Proof.
  intros H1 after. subst after. unfold script.
  pose proof (StreamlitApp_init_logs now w) as Hinit.
  destruct (StreamlitApp_init _ _ _ _ _ _ _) as [w1 [app|e]];
    cbn [fst snd] in *.
  - unfold main.
    pose proof (render_chat_assistant_logs app wd
                  (initialize_session_state ss) w1) as Hchat.
    destruct (render_chat_assistant _ _ _ _ _) as [st1 w2].
    pose proof (render_contract_analyzer_logs app wd st1 w2) as Han.
    destruct (render_contract_analyzer _ _ _ _ _ _) as [st2 w3].
    destruct (render_sidebar wd st2) as [st3 rerun]. cbn [fst snd] in *.
    pose proof (grows_by_trans _ _ _ _ _ _ _ Hinit
                  (grows_by_trans _ _ _ _ _ _ _ Hchat Han)) as Hall.
    apply (grows_by_le _ _ 1 1) in Hall; [exact Hall| |lia].
    pose proof (one_trigger_one_call wd H1). lia.
  - apply (grows_by_le 0 0); [lia|lia|exact Hinit].
Qed.

(** X14.  While LLAMA_CLOUD_API_KEY is not set (or empty), every run of
    the script fails in the constructor of the application, whatever the
    user did: nothing is sent to the model or the parsing service, the
    file system is untouched and the chat is as it was, so that the chat
    cannot be used either. *)
Theorem no_parser_key_no_application (now : datetime) (wd : widgets)
  (ss : session_state) (w : world) :
  truthy_opt (getenv "LLAMA_CLOUD_API_KEY") = false ->
  let run :=
    script sdk LlamaParse_new llama_parse py_int getenv here now wd ss w in
  is_ok (snd run) = false
  /\ snd (fst run) = w
  /\ history (fst (fst run)) = history ss
  /\ documents (fst (fst run)) = documents ss.
Proof.
  intros Hkey run. subst run.
  unfold script, StreamlitApp_init, bindM at 1, lift.
  destruct (create_llm sdk GROQ (getenv "GROQ_API_KEY")) as [llm|e];
    [|done].
  unfold bindM.
  by rewrite (init_without_key LlamaParse_new py_int getenv here None now w
                eq_refl Hkey).
Qed.

End CallFacts.

Lemma a_run_makes_at_most_one_call_of_each_kind_witness :
  exists more,
    llm_log (snd (fst (App.script Llm.strict_vendors (fun _ => Ok tt)
                         three_sections toy_py_int toy_getenv "/app/services"
                         toy_now upload_and_analyze App.new_session
                         toy_world)))
    = llm_log toy_world ++ more
    /\ (length more <= 1)%nat.
Proof.
  exact (proj1 (a_run_makes_at_most_one_call_of_each_kind Llm.strict_vendors
                  (fun _ => Ok tt) three_sections toy_py_int toy_getenv
                  "/app/services" toy_now upload_and_analyze App.new_session
                  toy_world eq_refl)).
Defined.

Lemma no_parser_key_no_application_witness :
  App.history
    (fst (fst (App.script Llm.strict_vendors (fun _ => Ok tt) toy_llama_parse
                 toy_py_int no_env "/app/services" toy_now
                 (ask "May I sublet?") App.new_session toy_world)))
  = [].
Proof.
  exact (proj1 (proj2 (proj2
    (no_parser_key_no_application Llm.strict_vendors (fun _ => Ok tt)
       toy_llama_parse toy_py_int no_env "/app/services" toy_now
       (ask "May I sublet?") App.new_session toy_world eq_refl)))).
Defined.

(** *** The upload and the click: two runs *)

Section TwoRunFacts.

Import Llm Prompts DocProc Assistant Datetime App.

Variable sdk : vendors.
Variable LlamaParse_new : string -> result unit.
Variable llama_parse : string -> node -> result (list parsed_doc).
Variable py_int : string -> result Z.
Variable getenv : string -> option string.
Variable here : string.

(** What the construction of the application leaves as it is. *)
Lemma mkdir_exist_ok_keeps (path : string) (w : world) :
  let w' := fst (mkdir_exist_ok path w) in
  tmp_names w' = tmp_names w /\ gettempdir w' = gettempdir w
  /\ parse_log w' = parse_log w /\ llm_log w' = llm_log w.
Proof. unfold mkdir_exist_ok. by destruct (files w !! path) as [[]|]. Qed.

Lemma StreamlitApp_init_keeps (now : datetime) (w w' : world)
  (r : result StreamlitApp) :
  StreamlitApp_init sdk LlamaParse_new py_int getenv here now w = (w', r) ->
  tmp_names w' = tmp_names w /\ gettempdir w' = gettempdir w
  /\ parse_log w' = parse_log w /\ llm_log w' = llm_log w.
Proof.
  unfold StreamlitApp_init, DocumentProcessor_init, bindM, lift, ret, raise.
  cbn [truthy_opt].
  destruct (create_llm sdk GROQ (getenv "GROQ_API_KEY")) as [llm|e];
    [|by intros [= <- _]].
  destruct (getenv "LLAMA_CLOUD_API_KEY") as [k|]; [|by intros [= <- _]].
  destruct (truthy k); [|by intros [= <- _]].
  destruct (LlamaParse_new k); [|by intros [= <- _]].
  pose proof (mkdir_exist_ok_keeps (temp_root here) w) as (H1 & H2 & H3 & H4).
  destruct (mkdir_exist_ok (temp_root here) w) as [wa [[]|e]];
    cbn [fst] in *; [|intros [= <- _]; done].
  pose proof (mkdir_exist_ok_keeps (path_join (temp_root here) (strftime now))
                wa) as (K1 & K2 & K3 & K4).
  destruct (mkdir_exist_ok (path_join (temp_root here) (strftime now)) wa)
    as [wb [[]|e]]; cbn [fst] in *;
    rewrite <- H1, <- H2, <- H3, <- H4, <- K1, <- K2, <- K3, <- K4;
    [|intros [= <- _]; done].
  destruct (py_int (default "1000" (getenv "CHUNK_SIZE")));
    [|intros [= <- _]; done].
  destruct (py_int (default "200" (getenv "CHUNK_OVERLAP")));
    intros [= <- _]; done.
Qed.

Lemma joined_truthy (sections : list parsed_doc) :
  collect_contents sections <> [] -> truthy (joined sections) = true.
Proof.
  intros Hne. unfold joined.
  destruct (collect_contents sections) as [|c0 crest] eqn:Hc; [done|].
  assert (Forall (fun c => truthy c = true) (c0 :: crest)) as Hall.
  { rewrite <- Hc. clear. induction sections as [|s l IH]; cbn; [done|].
    destruct (truthy (doc_content s) && truthy (strip (doc_content s)))
      eqn:Hs; [|done].
    constructor; [|done]. by apply andb_prop in Hs as [_ ?]. }
  inversion Hall as [|? ? H0 _]; subst.
  destruct c0; [done|]. by destruct crest.
Qed.

(** One run with a file in the uploader and nothing typed in the chat:
    the upload is processed, and the analysis is asked for when the
    button reports a click. *)
Lemma main_upload (self : StreamlitApp) (wd : widgets) (st : live_state)
  (w : world) (file_name file_content n : string) (rest : list string)
  (sections : list parsed_doc) :
  input_method wd = UploadDocument ->
  file_uploader wd = Some (file_name, file_content) ->
  truthy_opt (chat_input wd) = false ->
  tmp_names w = n :: rest ->
  llama_parse (temp_copy w n file_name) (BinaryFile file_content)
  = Ok sections ->
  collect_contents sections <> [] ->
  let after := main sdk llama_parse self wd st w in
  parse_log (snd after) = parse_log w ++ [temp_copy w n file_name]
  /\ llm_log (snd after)
     = llm_log w
       ++ (if analyze_button wd
           then [fill_rental TENANCY_LAW (joined sections)] else [])
  /\ tmp_names (snd after) = rest
  /\ gettempdir (snd after) = gettempdir w
  /\ map pd_content (live_documents (fst after))
     = map pd_content (live_documents st) ++ [joined sections].
Proof.
  intros Hmethod Hfile Hchat Htmp Hparse Hcontents after. subst after.
  unfold main. rewrite (render_chat_assistant_idle sdk self wd st w Hchat).
  unfold render_contract_analyzer. rewrite Hmethod, Hfile.
  unfold process_uploaded_file.
  rewrite (process_document_spec llama_parse file_content file_name w n rest
             sections Htmp Hparse Hcontents).
  cbn [pd_content]. fold (joined sections).
  rewrite (joined_truthy sections Hcontents). cbn [andb].
  fold (temp_copy w n file_name).
  destruct (analyze_button wd).
  - unfold analyze_contract_text. rewrite analyze_contract_spec.
    cbn [fst].
    match goal with
    | |- context [render_sidebar wd ?st2] =>
        pose proof (render_sidebar_keeps_documents wd st2) as Hside;
        destruct (render_sidebar wd st2) as [st3 rerun]
    end.
    cbn [fst snd parse_log llm_log tmp_names gettempdir processed_world]
      in *.
    rewrite Hside, Htmp. cbn [tail live_documents].
    by rewrite map_app.
  - match goal with
    | |- context [render_sidebar wd ?st2] =>
        pose proof (render_sidebar_keeps_documents wd st2) as Hside;
        destruct (render_sidebar wd st2) as [st3 rerun]
    end.
    cbn [fst snd parse_log llm_log tmp_names gettempdir processed_world]
      in *.
    rewrite Hside, Htmp, app_nil_r. cbn [tail live_documents].
    by rewrite map_app.
Qed.

(** The same for a run of the script that ends normally. *)
Lemma script_upload (now : datetime) (wd : widgets) (ss ss' : session_state)
  (w w' : world) (file_name file_content n : string) (rest : list string)
  (sections : list parsed_doc) :
  input_method wd = UploadDocument ->
  file_uploader wd = Some (file_name, file_content) ->
  truthy_opt (chat_input wd) = false ->
  script sdk LlamaParse_new llama_parse py_int getenv here now wd ss w
  = (ss', w', Ok tt) ->
  tmp_names w = n :: rest ->
  llama_parse (temp_copy w n file_name) (BinaryFile file_content)
  = Ok sections ->
  collect_contents sections <> [] ->
  parse_log w' = parse_log w ++ [temp_copy w n file_name]
  /\ llm_log w'
     = llm_log w
       ++ (if analyze_button wd
           then [fill_rental TENANCY_LAW (joined sections)] else [])
  /\ tmp_names w' = rest
  /\ gettempdir w' = gettempdir w
  /\ map pd_content (documents ss')
     = map pd_content (documents ss) ++ [joined sections].
Proof.
  intros Hmethod Hfile Hchat Hrun Htmp Hparse Hcontents.
  unfold script in Hrun.
  destruct (StreamlitApp_init _ _ _ _ _ _ _) as [wa [app|e]] eqn:Hinit;
    [|discriminate Hrun].
  apply StreamlitApp_init_keeps in Hinit as (K1 & K2 & K3 & K4).
  assert (tmp_names wa = n :: rest) as Htmp' by congruence.
  assert (temp_copy wa n file_name = temp_copy w n file_name) as Hcopy
    by (unfold temp_copy; by rewrite K2).
  rewrite <- Hcopy in Hparse.
  pose proof (main_upload app wd (initialize_session_state ss) wa file_name
                file_content n rest sections Hmethod Hfile Hchat Htmp'
                Hparse Hcontents) as (M1 & M2 & M3 & M4 & M5).
  destruct (main _ _ _ _ _ _) as [st1 w1]. cbn [fst snd] in *.
  injection Hrun as <- <-.
  rewrite M1, M2, M3, M4, K2, K3, K4, Hcopy. by repeat split.
Qed.

(** C4, as amended.  The scenario takes two runs of the script: the run
    started by the file arriving in the uploader, in which the button is
    shown, and the run started by the click on it.  The upload is in the
    uploader in both, and the service answers each temporary copy with
    three sections of which one at least is not blank.  Then each run
    makes one call to the service, for its own temporary copy, two calls
    in all, and keeps one processed document.  The first run sends no
    prompt; the second sends exactly one, the analysis template with the
    law text in its first field and the processed content in its second.
    That content is made of the sections of the second call in page
    order, each with surrounding white space removed, blank ones left
    out, two line feeds between neighbours. *)
Theorem upload_then_analysis (now1 now2 : datetime) (wd1 wd2 : widgets)
  (ss ss1 ss2 : session_state) (w w1 w2 : world)
  (file_name file_content n1 n2 : string) (rest : list string)
  (a1 a2 a3 s1 s2 s3 : parsed_doc) :
  input_method wd1 = UploadDocument ->
  file_uploader wd1 = Some (file_name, file_content) ->
  truthy_opt (chat_input wd1) = false ->
  analyze_button wd1 = false ->
  input_method wd2 = UploadDocument ->
  file_uploader wd2 = Some (file_name, file_content) ->
  truthy_opt (chat_input wd2) = false ->
  analyze_button wd2 = true ->
  script sdk LlamaParse_new llama_parse py_int getenv here now1 wd1 ss w
  = (ss1, w1, Ok tt) ->
  script sdk LlamaParse_new llama_parse py_int getenv here now2 wd2 ss1 w1
  = (ss2, w2, Ok tt) ->
  tmp_names w = n1 :: n2 :: rest ->
  let copy1 :=
    path_join (gettempdir w) ("tmp" +:+ n1 +:+ splitext_ext file_name) in
  let copy2 :=
    path_join (gettempdir w) ("tmp" +:+ n2 +:+ splitext_ext file_name) in
  llama_parse copy1 (BinaryFile file_content) = Ok [a1; a2; a3] ->
  collect_contents [a1; a2; a3] <> [] ->
  llama_parse copy2 (BinaryFile file_content) = Ok [s1; s2; s3] ->
  collect_contents [s1; s2; s3] <> [] ->
  let content := join (newline +:+ newline) (collect_contents [s1; s2; s3]) in
  session sdk LlamaParse_new llama_parse py_int getenv here
    [(now1, wd1); (now2, wd2)] ss w
  = (ss2, w2)
  /\ parse_log w1 = parse_log w ++ [copy1]
  /\ parse_log w2 = parse_log w ++ [copy1; copy2]
  /\ llm_log w1 = llm_log w
  /\ llm_log w2 = llm_log w ++ [fill_rental TENANCY_LAW content]
  /\ map pd_content (documents ss2)
     = map pd_content (documents ss)
       ++ [join (newline +:+ newline) (collect_contents [a1; a2; a3]);
           content]
  /\ generate_contract_analysis_prompt content TENANCY_LAW
     = Ok (fill_rental TENANCY_LAW content)
  /\ (Forall (fun s => truthy (strip (doc_content s)) = true) [s1; s2; s3] ->
      content
      = strip (doc_content s1) +:+ (newline +:+ newline)
        +:+ strip (doc_content s2) +:+ (newline +:+ newline)
        +:+ strip (doc_content s3)).
Proof.
  intros Hm1 Hf1 Hc1 Hb1 Hm2 Hf2 Hc2 Hb2 Hrun1 Hrun2 Htmp copy1 copy2
    Hparse1 Hne1 Hparse2 Hne2 content.
  pose proof (script_upload now1 wd1 ss ss1 w w1 file_name file_content n1
                (n2 :: rest) [a1; a2; a3] Hm1 Hf1 Hc1 Hrun1 Htmp Hparse1 Hne1)
    as (P1 & L1 & T1 & G1 & D1).
  assert (temp_copy w1 n2 file_name = copy2) as Hcopy
    by (unfold temp_copy; by rewrite G1).
  rewrite <- Hcopy in Hparse2.
  pose proof (script_upload now2 wd2 ss1 ss2 w1 w2 file_name file_content n2
                rest [s1; s2; s3] Hm2 Hf2 Hc2 Hrun2 T1 Hparse2 Hne2)
    as (P2 & L2 & T2 & G2 & D2).
  rewrite Hb1, app_nil_r in L1. rewrite Hb2 in L2.
  fold (joined [s1; s2; s3]) in content.
  split; [cbn [session]; by rewrite Hrun1, Hrun2|].
  split; [exact P1|].
  split; [by rewrite P2, P1, Hcopy, <- app_assoc|].
  split; [exact L1|].
  split; [by rewrite L2, L1|].
  split; [by rewrite D2, D1, <- app_assoc|].
  split; [apply generate_contract_analysis_prompt_fill|].
  intros Hall. subst content. unfold joined.
  by rewrite (collect_contents_all_kept _ Hall).
Qed.

End TwoRunFacts.

Lemma upload_then_analysis_witness :
  let done :=
    App.session Llm.strict_vendors (fun _ => Ok tt) three_sections toy_py_int
      toy_getenv "/app/services"
      [(toy_now, upload_only); (toy_now, upload_and_analyze)]
      App.new_session toy_world in
  parse_log (snd done) = ["/tmp/tmpk3x9.pdf"; "/tmp/tmpq7w2.pdf"]
  /\ llm_log (snd done)
     = [Prompts.fill_rental Prompts.TENANCY_LAW
          ("first" +:+ (App.newline +:+ App.newline) +:+ "second"
           +:+ (App.newline +:+ App.newline) +:+ "third")].
Proof.
  pose proof (upload_then_analysis Llm.strict_vendors (fun _ => Ok tt)
                three_sections toy_py_int toy_getenv "/app/services"
                toy_now toy_now upload_only upload_and_analyze
                App.new_session
                (fst (fst (App.script Llm.strict_vendors (fun _ => Ok tt)
                             three_sections toy_py_int toy_getenv
                             "/app/services" toy_now upload_only
                             App.new_session toy_world)))
                (fst (App.session Llm.strict_vendors (fun _ => Ok tt)
                        three_sections toy_py_int toy_getenv "/app/services"
                        [(toy_now, upload_only); (toy_now, upload_and_analyze)]
                        App.new_session toy_world))
                toy_world
                (snd (fst (App.script Llm.strict_vendors (fun _ => Ok tt)
                             three_sections toy_py_int toy_getenv
                             "/app/services" toy_now upload_only
                             App.new_session toy_world)))
                (snd (App.session Llm.strict_vendors (fun _ => Ok tt)
                        three_sections toy_py_int toy_getenv "/app/services"
                        [(toy_now, upload_only); (toy_now, upload_and_analyze)]
                        App.new_session toy_world))
                "lease.pdf" "%PDF titled" "k3x9" "q7w2" []
                (section_of " first") (section_of "second")
                (section_of "third ")
                (section_of " first") (section_of "second")
                (section_of "third ")
                eq_refl eq_refl eq_refl eq_refl eq_refl eq_refl eq_refl eq_refl
                ltac:(vm_compute; reflexivity) ltac:(vm_compute; reflexivity)
                eq_refl eq_refl ltac:(vm_compute; discriminate)
                eq_refl ltac:(vm_compute; discriminate))
    as (_ & _ & Hlog & _ & Hllm & _).
  split; [exact Hlog | exact Hllm].
Defined.

(** C4 as stated fails.  In the session of the two runs the service is
    called twice for the upload, not once, and the processed content is
    not the three sections put end to end. *)
Lemma upload_parsed_twice_and_sections_joined :
  let done :=
    App.session Llm.strict_vendors (fun _ => Ok tt) three_sections toy_py_int
      toy_getenv "/app/services"
      [(toy_now, upload_only); (toy_now, upload_and_analyze)]
      App.new_session toy_world in
  parse_log (snd done) = ["/tmp/tmpk3x9.pdf"; "/tmp/tmpq7w2.pdf"]
  /\ length (parse_log (snd done)) <> 1%nat
  /\ map App.pd_content (documents (fst done))
     = ["first" +:+ (App.newline +:+ App.newline) +:+ "second"
        +:+ (App.newline +:+ App.newline) +:+ "third";
        "first" +:+ (App.newline +:+ App.newline) +:+ "second"
        +:+ (App.newline +:+ App.newline) +:+ "third"]
  /\ llm_log (snd done)
     <> [Prompts.fill_rental Prompts.TENANCY_LAW
          (" first" +:+ "second" +:+ "third ")].
Proof.
  cbn zeta. split; [vm_compute; reflexivity|].
  split; [vm_compute; discriminate|].
  split; [vm_compute; reflexivity|].
  vm_compute. discriminate.
Qed.

(** ** More on the sweep of old directories *)

Section SweepFacts.

Import Datetime DocProc.

Variable here : string.

Lemma endswith_slash_app (a r : string) :
  truthy r = true -> endswith_slash (a +:+ r) = endswith_slash r.
Proof.
  intros Hr. unfold endswith_slash. induction a as [|x a IH]; [done|].
  rewrite app_cons_s. rewrite <- IH.
  destruct (a +:+ r) as [|y s] eqn:Hs.
  - destruct a; [|done]. change (EmptyString +:+ r) with r in Hs.
    by rewrite Hs in Hr.
  - cbn. by rewrite Nat.sub_0_r.
Qed.

Lemma stem_temp_root : stem (temp_root here) = temp_root here +:+ "/".
Proof.
  unfold temp_root.
  rewrite (path_join_relative _ "t" "emp_files") by done.
  unfold stem at 1.
  rewrite endswith_slash_app by done.
  by destruct (stem _).
Qed.

(** The files after a sweep that got as far as its loop. *)
Lemma cleanup_files (now : datetime) (days_arg : option Z) (w : world)
  (cutoff : instant) :
  minus_days now (default 7 days_arg) = Ok cutoff ->
  isdir (files w) (temp_root here) = true ->
  snd (cleanup_old_files here now days_arg w) = Ok tt
  /\ forall key,
      files (fst (cleanup_old_files here now days_arg w)) !! key
      = if removes (temp_root here) cutoff (files w)
             (listdir (files w) (temp_root here)) key
        then None else files w !! key.
Proof.
  intros Hcut Hroot. unfold cleanup_old_files. rewrite Hcut, Hroot.
  destruct (cleanup_loop_spec here cutoff
              (listdir (files w) (temp_root here)) (files w)) as [Hr Hk].
  by destruct (cleanup_loop _ _ _ _) as [fs r].
Qed.

Lemma cleanup_unchanged (now : datetime) (days_arg : option Z) (w : world) :
  is_ok (minus_days now (default 7 days_arg)) = false
  \/ isdir (files w) (temp_root here) = false ->
  fst (cleanup_old_files here now days_arg w) = w.
Proof.
  unfold cleanup_old_files.
  destruct (minus_days now (default 7 days_arg)); [|done].
  intros [H|H]; [done|]. by rewrite H.
Qed.

Lemma removes_below_root (cutoff : instant) (fs : gmap string node)
  (key : string) :
  removes (temp_root here) cutoff fs (listdir fs (temp_root here)) key = true ->
  String.prefix (temp_root here +:+ "/") key = true.
Proof.
  unfold removes. intros (item & Hitem%list_elem_of_In & Hboth)%existsb_exists.
  apply andb_true_iff in Hboth as [_ Hin].
  apply listdir_names in Hitem as [Ht Hs].
  rewrite path_join_entry, stem_temp_root in Hin by done.
  apply prefix_iff. apply inside_iff in Hin as [->|[r ->]].
  - exists item. by rewrite app_assoc_s.
  - exists (item +:+ "/" +:+ r). by rewrite !app_assoc_s.
Qed.

Lemma root_not_below_itself :
  String.prefix (temp_root here +:+ "/") (temp_root here) = false.
Proof.
  destruct (String.prefix _ _) eqn:H; [|done].
  apply prefix_iff in H as [r Hr]. apply (f_equal String.length) in Hr.
  rewrite !length_app_s in Hr. cbn in Hr. lia.
Qed.

(** X15.  [cleanup_old_files] touches nothing outside the temporary
    root: a path that does not lie below the root, the root itself
    included, holds afterwards what it held before, whatever the clock and
    the retention.  When the cutoff can be computed and the root exists
    it returns normally: a name that is no date never makes it fail. *)
Theorem cleanup_stays_below_the_root (now : datetime)
  (days_arg : option Z) (w : world) :
  let after := cleanup_old_files here now days_arg w in
  (forall key,
      String.prefix (temp_root here +:+ "/") key = false ->
      files (fst after) !! key = files w !! key)
  /\ (is_ok (minus_days now (default 7 days_arg)) = true ->
      isdir (files w) (temp_root here) = true ->
      snd after = Ok tt).
Proof.
  cbn zeta.
  destruct (minus_days now (default 7 days_arg)) as [cutoff|e] eqn:Hcut.
  - destruct (isdir (files w) (temp_root here)) eqn:Hroot.
    + destruct (cleanup_files now days_arg w cutoff Hcut Hroot) as [Hr Hk].
      split; [|done]. intros key Hkey. rewrite Hk.
      destruct (removes _ _ _ _ key) eqn:Hrem; [|done].
      apply removes_below_root in Hrem. congruence.
    + rewrite cleanup_unchanged by (by right). done.
  - rewrite cleanup_unchanged by (left; by rewrite Hcut). done.
Qed.

Lemma listdir_mono (fs1 fs : gmap string node) (d item : string) :
  (forall key n, fs1 !! key = Some n -> fs !! key = Some n) ->
  item ∈ listdir fs1 d -> item ∈ listdir fs d.
Proof.
  intros Hsub. unfold listdir. rewrite !list_elem_of_omap.
  intros ([key n] & Hin & Hname). exists (key, n). split; [|done].
  apply elem_of_map_to_list. apply Hsub. by apply elem_of_map_to_list.
Qed.

(** X16.  Sweeping twice at the same moment with the same retention
    leaves the files as the first sweep left them: a sweep removes every
    directory it would ever remove at that moment. *)
Theorem cleanup_is_idempotent (now : datetime) (days_arg : option Z)
  (w : world) :
  files (fst (cleanup_old_files here now days_arg
                (fst (cleanup_old_files here now days_arg w))))
  = files (fst (cleanup_old_files here now days_arg w)).
Proof.
  destruct (minus_days now (default 7 days_arg)) as [cutoff|e] eqn:Hcut;
    [|by rewrite !(cleanup_unchanged now days_arg w)
           by (left; by rewrite Hcut)].
  destruct (isdir (files w) (temp_root here)) eqn:Hroot;
    [|by rewrite !(cleanup_unchanged now days_arg w) by (by right)].
  destruct (cleanup_files now days_arg w cutoff Hcut Hroot) as [_ Hk].
  set (w1 := fst (cleanup_old_files here now days_arg w)) in *.
  assert (forall key n, files w1 !! key = Some n -> files w !! key = Some n)
    as Hsub.
  { intros key n. rewrite Hk. by destruct (removes _ _ _ _ key). }
  assert (isdir (files w1) (temp_root here) = true) as Hroot1.
  { unfold isdir. rewrite Hk.
    destruct (removes _ _ _ _ (temp_root here)) eqn:Hrem; [|exact Hroot].
    apply removes_below_root in Hrem. by rewrite root_not_below_itself in Hrem. }
  destruct (cleanup_files now days_arg w1 cutoff Hcut Hroot1) as [_ Hk1].
  apply map_eq. intros key. rewrite Hk1.
  destruct (removes (temp_root here) cutoff (files w1) _ key) eqn:Hrem;
    [|done].
  exfalso. unfold removes in Hrem.
  apply existsb_exists in Hrem as (item & Hitem%list_elem_of_In & Hboth).
  apply andb_true_iff in Hboth as [Hdoomed _].
  unfold doomed in Hdoomed.
  apply andb_true_iff in Hdoomed as [Hdoomed Hold].
  apply andb_true_iff in Hdoomed as [Hdir Hname].
  set (p := path_join (temp_root here) item) in *.
  assert (files w1 !! p = Some DirNode) as Hp.
  { unfold isdir in Hdir. by destruct (files w1 !! p) as [[]|]. }
  assert (removes (temp_root here) cutoff (files w)
            (listdir (files w) (temp_root here)) p = true) as Hgone.
  { apply existsb_exists. exists item. split.
    - apply list_elem_of_In. by apply (listdir_mono (files w1)).
    - apply andb_true_iff. split.
      + unfold doomed. fold p. unfold isdir.
        rewrite (Hsub p DirNode Hp). by rewrite Hname, Hold.
      + fold p. apply inside_iff. by left. }
  rewrite Hk, Hgone in Hp. discriminate Hp.
Qed.

End SweepFacts.

Lemma cleanup_stays_below_the_root_witness :
  snd (DocProc.cleanup_old_files "/app/services" toy_now (Some 0)
         cleanup_world)
  = Ok tt.
Proof.
  exact (proj2 (cleanup_stays_below_the_root "/app/services" toy_now (Some 0)
                  cleanup_world) eq_refl eq_refl).
Defined.

(** ** Day-stamped names: written by the constructor, read by the sweep *)

Section StampFacts.

Import Datetime DocProc.

Lemma regex_matches_unfold (s : string) :
  regex_matches s = ('(y, r1) ← year_group s; rest_matches y r1).
Proof. reflexivity. Qed.

Lemma fmap_over_bind {A B C} (g : B -> C) (f : A -> list B) (l : list A) :
  g <$> (l ≫= f) = l ≫= (fun x => g <$> f x).
Proof.
  induction l as [|x l IH]; [done|].
  by rewrite !bind_cons, fmap_app, IH.
Qed.

Lemma rest_matches_year (y : Z) (r1 : string) :
  rest_matches y r1
  = (fun t : Z * Z * Z * string => (y, t.1.1.2, t.1.2, t.2))
      <$> rest_matches 0 r1.
Proof.
  unfold rest_matches.
  rewrite fmap_over_bind. apply list_bind_ext; [|done]. intros r2.
  rewrite fmap_over_bind. apply list_bind_ext; [|done]. intros [m r3].
  rewrite fmap_over_bind. apply list_bind_ext; [|done]. intros r4.
  rewrite fmap_over_bind. apply list_bind_ext; [|done]. by intros [d r5].
Qed.

Lemma years_read_back :
  forallb year_reads_back (seqZ 1000 9000) = true.
Proof. vm_compute. reflexivity. Qed.

Lemma months_and_days_read_back :
  forallb (fun m => forallb (month_day_reads_back m) (seqZ 1 31))
    (seqZ 1 12) = true.
Proof. vm_compute. reflexivity. Qed.

Lemma in_seqZ (lo len z : Z) : lo <= z < lo + len -> In z (seqZ lo len).
Proof. intros Hz. apply list_elem_of_In. by apply elem_of_seqZ. Qed.

Lemma year_reads_back_true (y : Z) :
  1000 <= y <= 9999 -> year_reads_back y = true.
Proof.
  intros Hy. pose proof years_read_back as H.
  rewrite forallb_forall in H. apply H.
  apply in_seqZ. lia.
Qed.

Lemma month_day_reads_back_true (m d : Z) :
  1 <= m <= 12 -> 1 <= d <= 31 -> month_day_reads_back m d = true.
Proof.
  intros Hm Hd. pose proof months_and_days_read_back as H.
  rewrite forallb_forall in H.
  specialize (H m (in_seqZ 1 12 m ltac:(lia))).
  rewrite forallb_forall in H. apply H.
  apply in_seqZ. lia.
Qed.

Lemma digit_no_slash (c : ascii) (v : Z) :
  digit c = Some v -> Ascii.eqb c "/" = false.
Proof.
  unfold digit. destruct (is_digit c) eqn:Hd; [|done]. intros _.
  destruct (Ascii.eqb_spec c "/") as [->|]; [|done]. discriminate Hd.
Qed.

Lemma slash_free_app (a b : string) :
  slash_free (a +:+ b) = slash_free a && slash_free b.
Proof.
  induction a as [|c a IH]; [done|]. rewrite app_cons_s. cbn.
  rewrite IH. by rewrite andb_assoc.
Qed.

Lemma days_in_month_le (y m : Z) : days_in_month y m <= 31.
Proof.
  unfold days_in_month. destruct (_ && _); [lia|].
  assert (Forall (fun x => x <= 31)
            [0; 31; 28; 31; 30; 31; 30; 31; 31; 30; 31; 30; 31]) as Hall
    by (repeat constructor; lia).
  generalize (Z.to_nat m). intros k. revert k.
  induction Hall as [|x l Hx _ IH]; intros [|k]; cbn; auto; lia.
Qed.

(** The name [strftime] gives a valid day of a four-digit year reads
    back, through [strptime], as the midnight of that day; the name is
    not empty and has no slash. *)
Lemma strptime_strftime (d : datetime) :
  valid_datetime d = true -> 1000 <= year d ->
  strptime (strftime d) = Ok (midnight d)
  /\ truthy (strftime d) = true
  /\ slash_free (strftime d) = true.
Proof.
  destruct d as [y m dd h mi s us].
  unfold valid_datetime, midnight, strftime.
  cbn [year month day hour minute second microsecond].
  intros H Hy1000. repeat (apply andb_prop in H as [H ?]).
  assert (1000 <= y <= 9999) as Hy by lia.
  assert (1 <= m <= 12) as Hm by lia.
  assert (1 <= dd <= days_in_month y m) as Hd by lia.
  pose proof (days_in_month_le y m) as Hle.
  clear - Hy Hm Hd Hle.
  pose proof (year_reads_back_true y Hy) as Hyear.
  pose proof (month_day_reads_back_true m dd Hm ltac:(lia)) as Hmd.
  fold (month_day_text m dd).
  unfold year_reads_back in Hyear. unfold month_day_reads_back in Hmd.
  destruct (pad 4 y) as [|a [|b [|c [|e [|]]]]]; try discriminate Hyear.
  destruct (digit a) as [x1|] eqn:Ha; [|discriminate Hyear].
  destruct (digit b) as [x2|] eqn:Hb; [|discriminate Hyear].
  destruct (digit c) as [x3|] eqn:Hc; [|discriminate Hyear].
  destruct (digit e) as [x4|] eqn:He; [|discriminate Hyear].
  apply Z.eqb_eq in Hyear.
  apply andb_true_iff in Hmd as [Hfree Hmd].
  rewrite !app_cons_s. change (EmptyString +:+ month_day_text m dd)
    with (month_day_text m dd).
  split; [|split; [done|]].
  - unfold strptime. rewrite regex_matches_unfold.
    unfold year_group. rewrite Ha, Hb, Hc, He, Hyear.
    change ([(y, month_day_text m dd)]
              ≫= (fun '(y0, r1) => rest_matches y0 r1))
      with (rest_matches y (month_day_text m dd) ++ []).
    rewrite app_nil_r, rest_matches_year.
    destruct (rest_matches 0 (month_day_text m dd))
      as [|[[[y0 m0] d0] r0] l]; [discriminate Hmd|].
    destruct r0; [|discriminate Hmd].
    apply andb_true_iff in Hmd as [Hm0 Hd0].
    apply Z.eqb_eq in Hm0, Hd0. subst m0 d0. cbn.
    destruct (Z.eqb_spec y 0); [lia|].
    destruct (Z.ltb_spec (days_in_month y m) dd); [lia|]. done.
  - cbn [slash_free].
    rewrite (digit_no_slash a x1 Ha), (digit_no_slash b x2 Hb),
      (digit_no_slash c x3 Hc), (digit_no_slash e x4 He).
    exact Hfree.
Qed.

(** X17.  The name the constructor gives the directory of the day, made
    with [strftime], is read by [strptime] in the sweep as the midnight of
    that very day (for a valid clock and a year of four digits): naming
    and reading agree. *)
Theorem day_stamp_round_trip (d : datetime) :
  valid_datetime d = true -> 1000 <= year d ->
  strptime (strftime d) = Ok (midnight d).
Proof. intros Hv Hy. by apply strptime_strftime. Qed.

End StampFacts.

Lemma day_stamp_round_trip_witness :
  Datetime.strptime (DocProc.strftime toy_now)
  = Ok (Datetime.mk_datetime 2024 3 9 0 0 0 0).
Proof.
  refine (day_stamp_round_trip toy_now eq_refl _). done.
Defined.

Section TodayFacts.

Import Datetime DocProc.

Variable LlamaParse_new : string -> result unit.
Variable py_int : string -> result Z.
Variable getenv : string -> option string.
Variable here : string.

Lemma mkdir_exist_ok_inv (path : string) (w w' : world) :
  mkdir_exist_ok path w = (w', Ok tt) ->
  files w' !! path = Some DirNode
  /\ forall q, q <> path -> files w' !! q = files w !! q.
Proof.
  unfold mkdir_exist_ok.
  destruct (files w !! path) as [[]|] eqn:Hp; intros [= <-]; cbn.
  - done.
  - split; [apply lookup_insert_eq|]. intros q Hq. by apply lookup_insert_ne.
Qed.

(** What a successful construction leaves. *)
Lemma init_Ok_inv (api_key : option string) (now : datetime)
  (w w1 : world) (p : DocumentProcessor) :
  DocumentProcessor_init LlamaParse_new py_int getenv here api_key now w
  = (w1, Ok p) ->
  temp_base_dir p = path_join (temp_root here) (strftime now)
  /\ isdir (files w1) (temp_root here) = true
  /\ isdir (files w1) (temp_base_dir p) = true.
Proof.
  unfold DocumentProcessor_init.
  destruct (if truthy_opt api_key then api_key else _) as [k|]; [|done].
  destruct (truthy k); [|done].
  unfold bindM at 1, lift. destruct (LlamaParse_new k); [|done].
  unfold bindM at 1.
  destruct (mkdir_exist_ok (temp_root here) w) as [wa [[]|e]] eqn:H1;
    [|done].
  apply mkdir_exist_ok_inv in H1 as [Hroot Hframe].
  unfold bindM at 1.
  set (base := path_join (temp_root here) (strftime now)).
  destruct (mkdir_exist_ok base wa) as [wb [[]|e]] eqn:H2; [|done].
  apply mkdir_exist_ok_inv in H2 as [Hbase Hframe2].
  unfold bindM, lift, ret.
  destruct (py_int (default "1000" (getenv "CHUNK_SIZE"))); [|done].
  destruct (py_int (default "200" (getenv "CHUNK_OVERLAP"))); [|done].
  intros [= <- <-]. cbn [temp_base_dir]. unfold isdir.
  split; [done|]. rewrite Hbase. split; [|done].
  destruct (decide (temp_root here = base)) as [Heq|Hne].
  - by rewrite Heq, Hbase.
  - by rewrite Hframe2, Hroot.
Qed.

Lemma drop_prefix_app (p r : string) : drop_prefix p (p +:+ r) = Some r.
Proof.
  induction p as [|a p IH]; [done|]. rewrite app_cons_s. cbn.
  by rewrite Ascii.eqb_refl.
Qed.

Lemma listdir_intro (fs : gmap string node) (d item : string) (n : node) :
  truthy item = true -> slash_free item = true ->
  fs !! path_join d item = Some n -> item ∈ listdir fs d.
Proof.
  intros Ht Hs Hn. unfold listdir. apply list_elem_of_omap.
  exists (path_join d item, n). split; [by apply elem_of_map_to_list|].
  cbn. rewrite path_join_entry by done. unfold entry_name. fold (stem d).
  by rewrite drop_prefix_app, Ht, Hs.
Qed.

(** An entry of the root is removed exactly when it is doomed. *)
Lemma removes_entry (cutoff : instant) (fs : gmap string node)
  (item : string) :
  item ∈ listdir fs (temp_root here) ->
  removes (temp_root here) cutoff fs (listdir fs (temp_root here))
    (path_join (temp_root here) item)
  = doomed (temp_root here) cutoff fs item.
Proof.
  intros Hitem. pose proof (listdir_names _ _ _ Hitem) as [Ht Hs].
  apply eq_true_iff_eq. unfold removes. rewrite existsb_exists. split.
  - intros (it & Hit%list_elem_of_In & Hboth).
    apply andb_true_iff in Hboth as [Hd Hin].
    pose proof (listdir_names _ _ _ Hit) as [Ht' Hs'].
    assert (it = item) as ->; [|done].
    rewrite !path_join_entry in Hin by done.
    apply (one_parent (stem (temp_root here)) it item
             (stem (temp_root here) +:+ item)); try done.
    apply inside_iff. by left.
  - intros Hd. exists item. split; [by apply list_elem_of_In|].
    rewrite Hd. apply inside_iff. by left.
Qed.

(** X18.  The directory of the day that the constructor made at [now]
    and a sweep at [later]: the sweep removes it exactly when the
    midnight that started the day of [now] lies more than the retention
    before [later]; otherwise it is still a directory.  In particular a
    sweep at the moment of construction keeps the processor's own
    directory when the retention is a day or more, and removes it when
    the retention is zero and midnight has passed. *)
Theorem todays_directory_and_the_sweep (api_key : option string)
  (now later : datetime) (days_arg : option Z) (w w1 : world)
  (p : DocumentProcessor) :
  let days_to_keep := default 7 days_arg in
  valid_datetime now = true -> 1000 <= year now ->
  valid_datetime later = true ->
  0 <= days_to_keep ->
  DocumentProcessor_init LlamaParse_new py_int getenv here api_key now w
  = (w1, Ok p) ->
  let after := files (fst (cleanup_old_files here later days_arg w1)) in
  let old :=
    timeline (to_instant (midnight now))
    < timeline (to_instant later) - days_to_keep * us_per_day in
  (old -> after !! temp_base_dir p = None)
  /\ (~ old -> after !! temp_base_dir p = Some DirNode)
  /\ (later = now -> 1 <= days_to_keep -> ~ old)
  /\ (later = now -> days_to_keep = 0 -> 0 < time_of_day now -> old).
Proof.
  intros days_to_keep Hnow Hyear Hlater Hdays Hinit after old.
  apply init_Ok_inv in Hinit as (Hbase & Hroot & Hdir).
  destruct (strptime_strftime now Hnow Hyear) as (Hread & Htruthy & Hfree).
  set (today := strftime now) in *.
  assert (files w1 !! temp_base_dir p = Some DirNode) as Hnode.
  { unfold isdir in Hdir. by destruct (files w1 !! temp_base_dir p) as [[]|]. }
  assert (today ∈ listdir (files w1) (temp_root here)) as Hentry.
  { apply (listdir_intro _ _ _ DirNode); try done. by rewrite <- Hbase. }
  pose proof (valid_datetime_time now Hnow) as Htod.
  assert (time_of_day (midnight now) = 0) as Hmid by reflexivity.
  assert (toordinal (midnight now) = toordinal now) as Hord by reflexivity.
  split; [|split; [|split]].
  - intros Hold. subst after.
    destruct (minus_days later days_to_keep) as [cutoff|e] eqn:Hcut.
    + destruct (cleanup_files here later days_arg w1 cutoff Hcut Hroot)
        as [_ Hk].
      rewrite Hk, Hbase, (removes_entry cutoff _ today Hentry).
      unfold doomed. fold today. rewrite <- Hbase, Hdir, Hread.
      assert (String.eqb today ".gitkeep" = false) as ->.
      { destruct (String.eqb_spec today ".gitkeep") as [Heq|]; [|done].
        rewrite Heq in Hread. discriminate Hread. }
      cbn [negb andb].
      by rewrite (proj2 (before_cutoff (midnight now) later days_to_keep
                           cutoff today Hread Hlater Hcut) Hold).
    + exfalso.
      by apply (nothing_before_failed_cutoff (midnight now) later
                  days_to_keep e today Hread Hlater Hdays Hcut).
  - intros Hnew. subst after.
    destruct (minus_days later days_to_keep) as [cutoff|e] eqn:Hcut.
    + destruct (cleanup_files here later days_arg w1 cutoff Hcut Hroot)
        as [_ Hk].
      rewrite Hk, Hbase, (removes_entry cutoff _ today Hentry).
      unfold doomed. fold today. rewrite Hread.
      destruct (instant_ltb (to_instant (midnight now)) cutoff) eqn:Hlt.
      * exfalso. apply Hnew.
        by apply (before_cutoff (midnight now) later days_to_keep cutoff
                    today Hread Hlater Hcut).
      * rewrite andb_false_r. by rewrite <- Hbase.
    + rewrite cleanup_unchanged; [done|]. left.
      fold days_to_keep. by rewrite Hcut.
  - intros -> Hone. subst old. unfold timeline, to_instant. cbn [i_day i_us].
    rewrite Hmid, Hord. unfold us_per_day in *. lia.
  - intros -> Hzero Hpast. subst old. unfold timeline, to_instant.
    cbn [i_day i_us]. rewrite Hmid, Hord, Hzero. lia.
Qed.

End TodayFacts.

Lemma todays_directory_and_the_sweep_witness :
  files (fst (DocProc.cleanup_old_files "/app/services" toy_now (Some 0)
                (fst (DocProc.DocumentProcessor_init (fun _ => Ok tt)
                        toy_py_int toy_getenv "/app/services" None toy_now
                        toy_world))))
    !! "/app/services/../../temp_files/2024-03-09"
  = None.
Proof.
  refine (proj1 (todays_directory_and_the_sweep (fun _ => Ok tt) toy_py_int
                   toy_getenv "/app/services" None toy_now toy_now (Some 0)
                   toy_world _ _ eq_refl _ eq_refl _ eq_refl) _).
  - done.
  - done.
  - vm_compute. reflexivity.
Defined.

Section UploadFacts.

Import Llm Prompts DocProc Assistant Datetime App.

Variable sdk : vendors.
Variable llama_parse : string -> node -> result (list parsed_doc).

(** X19.  An upload is processed because it sits in the uploader, not
    because the button is clicked: in every run in which a file is in the
    uploader and the service answers with a section that is not blank,
    one more call to the service is made and one more processed document
    is appended, with or without a click; a prompt goes to the model only
    with the click. *)
Theorem upload_is_processed_in_every_run (self : StreamlitApp)
  (wd : widgets) (st : live_state) (w : world)
  (file_name file_content n : string) (rest : list string)
  (sections : list parsed_doc) :
  input_method wd = UploadDocument ->
  file_uploader wd = Some (file_name, file_content) ->
  tmp_names w = n :: rest ->
  let temp_path :=
    path_join (gettempdir w) ("tmp" +:+ n +:+ splitext_ext file_name) in
  llama_parse temp_path (BinaryFile file_content) = Ok sections ->
  collect_contents sections <> [] ->
  let after := render_contract_analyzer sdk llama_parse self wd st w in
  parse_log (snd after) = parse_log w ++ [temp_path]
  /\ length (live_documents (fst after)) = S (length (live_documents st))
  /\ (analyze_button wd = false -> llm_log (snd after) = llm_log w).
Proof.
  intros Hmethod Hfile Htmp temp_path Hparse Hcontents after. subst after.
  unfold render_contract_analyzer. rewrite Hmethod, Hfile.
  unfold process_uploaded_file.
  rewrite (process_document_spec llama_parse file_content file_name w n rest
             sections Htmp Hparse Hcontents).
  fold temp_path. cbn [pd_content].
  destruct (truthy _ && analyze_button wd) eqn:Hgo; cbn [fst snd].
  - unfold analyze_contract_text. rewrite analyze_contract_spec.
    cbn [fst parse_log llm_log live_documents processed_world].
    split; [done|]. split; [rewrite length_app; cbn; lia|].
    intros Hno. rewrite Hno, andb_false_r in Hgo. discriminate Hgo.
  - cbn [parse_log llm_log live_documents processed_world].
    split; [done|]. split; [rewrite length_app; cbn; lia|done].
Qed.

End UploadFacts.

Lemma upload_is_processed_in_every_run_witness :
  length
    (App.live_documents
       (fst (App.render_contract_analyzer Llm.strict_vendors three_sections
               toy_app
               (App.mk_widgets None App.UploadDocument
                  (Some ("lease.pdf", "%PDF titled")) EmptyString
                  false false false)
               (App.initialize_session_state App.new_session) toy_world)))
  = 1%nat.
Proof.
  refine (proj1 (proj2
    (upload_is_processed_in_every_run Llm.strict_vendors three_sections
       toy_app
       (App.mk_widgets None App.UploadDocument
          (Some ("lease.pdf", "%PDF titled")) EmptyString false false false)
       (App.initialize_session_state App.new_session) toy_world
       "lease.pdf" "%PDF titled" "k3x9" ["q7w2"]
       [section_of " first"; section_of "second"; section_of "third "]
       eq_refl eq_refl eq_refl eq_refl _))).
  vm_compute. discriminate.
Defined.

